(** * Barcode-driven cart reconciliation: a shallow embedding

    The development embeds two classes of the ERPNext front end:

    - [erpnext.utils.BarcodeScanner] (scan processing, the line matcher
      [get_row_to_modify_on_scan], the ordered field-write pipeline of
      [update_table], the scan dialog and the row split), and
    - [erpnext.PointOfSale.Controller] (the availability check
      [check_stock_availability], its session map [item_stock_map] and the
      cart update [on_cart_update] that calls it),

    and, from the files that hold them, the memoized item search of
    [erpnext.PointOfSale.ItemSelector] and the time-log helpers of the
    Job Card form.

    Documents are JavaScript objects, so a row is a finite map from field
    names to JavaScript values.  A row's identity inside its table is its
    position.  Promises are modelled by their outcome and asynchronous
    steps run one after the other, as [frappe.run_serially] and [await]
    order them.  Numbers are the whole numbers (plus NaN): on those of
    at most 2^53 in magnitude the arithmetic of doubles is exact and is
    the arithmetic of the model; fractions and binary floating-point
    rounding are outside the model.  Handlers that form scripts attach
    to field changes are outside the engine: a [frappe.model.set_value]
    is the field assignment it performs. *)

From Stdlib Require Import Ascii String ZArith.
From stdpp Require Import gmap strings list fin_maps pretty.

(** ** JavaScript values *)

Inductive num :=
  | Fin (z : Z)
  | NaN.

Inductive value :=
  | VUndef
  | VNull
  | VNum (n : num)
  | VStr (s : string).

#[global] Instance num_eq_dec : EqDecision num.
Proof. solve_decision. Defined.

#[global] Instance value_eq_dec : EqDecision value.
Proof. solve_decision. Defined.

(** A document (a form header, a table row, a dialog's values, a server
    reply) is an object: field name to value.  An absent key reads as
    [undefined]. *)
Abbreviation row := (gmap string value).

Definition get (r : row) (k : string) : value := default VUndef (r !! k).

Definition num_add (a b : num) : num :=
  match a, b with Fin x, Fin y => Fin (x + y) | _, _ => NaN end.

Definition num_sub (a b : num) : num :=
  match a, b with Fin x, Fin y => Fin (x - y) | _, _ => NaN end.

Definition num_mul (a b : num) : num :=
  match a, b with Fin x, Fin y => Fin (x * y) | _, _ => NaN end.

(** [a < b]; every comparison with NaN is false. *)
Definition num_lt (a b : num) : bool :=
  match a, b with Fin x, Fin y => bool_decide (x < y)%Z | _, _ => false end.

Definition num_eq (a b : num) : bool :=
  match a, b with Fin x, Fin y => bool_decide (x = y) | _, _ => false end.

Definition truthy (v : value) : bool :=
  match v with
  | VUndef | VNull | VNum NaN => false
  | VNum (Fin z) => bool_decide (z ≠ 0%Z)
  | VStr s => bool_decide (s ≠ "")
  end.

(** [a || b] *)
Definition js_or (a b : value) : value := if truthy a then a else b.

(** ToString *)
Definition to_str (v : value) : string :=
  match v with
  | VUndef => "undefined"
  | VNull => "null"
  | VNum (Fin z) => pretty z
  | VNum NaN => "NaN"
  | VStr s => s
  end.

(** [a === b] *)
Definition strict_eq (a b : value) : bool :=
  match a, b with
  | VUndef, VUndef | VNull, VNull => true
  | VNum x, VNum y => num_eq x y
  | VStr s, VStr t => bool_decide (s = t)
  | _, _ => false
  end.

(** The newline that separates serial numbers in a row's serial field. *)
Definition nl : string := String (Ascii.ascii_of_nat 10) "".

(** [hay.includes(needle)] on strings: [needle] occurs in [hay]. *)
Fixpoint includes (hay needle : string) : bool :=
  String.prefix needle hay ||
  match hay with
  | "" => false
  | String _ rest => includes rest needle
  end.

(** [text.split(sep)] for a one-character separator. *)
Fixpoint split (sep : Ascii.ascii) (text : string) : list string :=
  match text with
  | "" => [""]
  | String c rest =>
      if bool_decide (c = sep) then "" :: split sep rest
      else match split sep rest with
           | [] => [String c ""]
           | w :: ws => String c w :: ws
           end
  end.

(** ** The Frappe framework, as the engine sees it

    Conversions of strings to numbers, the child table's metadata, the
    row a new child starts as, and the scan API are services of the
    framework and of the server.  The engine is verified for every
    implementation of them. *)
Class Frappe := {
  (** ECMAScript's conversion of a string to a number, used by [==],
      by [Number] and by the arithmetic and relational operators *)
  to_number : string → num;
  (** Frappe's [flt] on a non-empty string: the parsed number, 0 when the
      text has none *)
  flt_str : string → Z;
  (** [frappe.meta.has_field(doctype, fieldname)] for the child table *)
  has_field : string → bool;
  (** the row [frappe.model.add_child] creates (fresh name, defaults)
      for a table that holds the given rows *)
  get_new_doc : list row → row;
  (** the scan API: [r.message] for a search value and the context
      [{set_warehouse, company}]; [None] when the reply has no message *)
  scan_api : value → value → value → option row;
}.

Section Coercions.
Context `{Frappe}.

(** [Number(v)] *)
Definition Number (v : value) : num :=
  match v with
  | VUndef => NaN
  | VNull => Fin 0
  | VNum n => n
  | VStr s => to_number s
  end.

(** [a == b] *)
Definition loose_eq (a b : value) : bool :=
  match a, b with
  | (VUndef | VNull), (VUndef | VNull) => true
  | VNum x, VNum y => num_eq x y
  | VStr s, VStr t => bool_decide (s = t)
  | VNum x, VStr s | VStr s, VNum x => num_eq x (to_number s)
  | _, _ => false
  end.

(** Frappe's [flt(v)] without a precision: 0 for null, undefined and
    the empty string, the number itself for a number, the parsed text
    otherwise. *)
Definition flt (v : value) : num :=
  match v with
  | VUndef | VNull => Fin 0
  | VNum n => n
  | VStr s => if bool_decide (s = "") then Fin 0 else Fin (flt_str s)
  end.
End Coercions.

(** ** [erpnext.utils.BarcodeScanner] *)

Module BarcodeScanner.

(** [frm.doc]: the parent document's own fields and its items table. *)
Record frm_doc := {
  header : row;
  items : list row;
}.

(** The scanner object's configuration, as its constructor leaves it.
    [warehouse_field] is a field name or a function of [frm.doc]; a
    falsy result is the empty name.  [max_qty_field] is [None] when
    the option is not given. *)
Record scanner := {
  barcode_field : string;
  serial_no_field : string;
  batch_no_field : string;
  uom_field : string;
  qty_field : string;
  warehouse_field : frm_doc → string;
  max_qty_field : option string;
  dont_allow_new_row : bool;
  prompt_qty : bool;
  success_sound : option string;
  fail_sound : option string;
  has_last_scanned_warehouse : bool;
}.

Inductive message :=
  | CannotFindItem
  | CannotFindItemOrWarehouse
  | MaximumQuantityScanned (item_code : value)
  | SerialNoAlreadyAdded (serial_no : value)
  | QtyIncreased (idx qty : value)
  | ItemAdded (idx : value)
  | WarehouseWillBeSet (warehouse : value)
  | WarehouseCleared.

(** What the engine does to the outside world, in the order it does it. *)
Inductive event :=
  | ShowAlert (m : message) (indicator : string)
  | PlaySound (name : string)
  | ScanApiCall (search_value set_warehouse company : value)
  | SetFlag (flag : string) (b : bool)
  | SetValue (i : nat) (fields : row)
  | FrmSetValue (field : string) (v : value)
  | AddChild (i : nat)
  | Trigger (handler : string) (i : nat)
  | CleanUp
  | ClearScanField
  | Prompt (item_code : value)
  | DialogShow
  | DialogHide.

(** How a promise ends: resolved (with the row's position, if any),
    rejected, or never settled by the code that ran. *)
Inductive outcome :=
  | Resolved (r : option nat)
  | Rejected
  | Pending.

#[global] Instance message_eq_dec : EqDecision message.
Proof. solve_decision. Defined.

#[global] Instance event_eq_dec : EqDecision event.
Proof. solve_decision. Defined.

#[global] Instance outcome_eq_dec : EqDecision outcome.
Proof. solve_decision. Defined.

Record state := {
  doc : frm_doc;
  (** [frm.has_items], as a condition *)
  frm_has_items : bool;
  (** [frappe.flags] *)
  trigger_from_barcode_scanner : bool;
  hide_serial_batch_dialog : bool;
  (** [scan_barcode_field.value] *)
  scan_barcode : value;
  remaining_qty : value;
  (** the field values of [this.dialog] while it is shown *)
  dialog : option row;
  last_scanned_warehouse_initialized : bool;
  log : list event;
}.

#[global] Instance frm_doc_eq_dec : EqDecision frm_doc.
Proof. solve_decision. Defined.

#[global] Instance state_eq_dec : EqDecision state.
Proof. solve_decision. Defined.

Definition with_doc (d : frm_doc) (st : state) : state :=
  {| doc := d; frm_has_items := frm_has_items st;
     trigger_from_barcode_scanner := trigger_from_barcode_scanner st;
     hide_serial_batch_dialog := hide_serial_batch_dialog st;
     scan_barcode := scan_barcode st; remaining_qty := remaining_qty st;
     dialog := dialog st;
     last_scanned_warehouse_initialized := last_scanned_warehouse_initialized st;
     log := log st |}.

Definition with_items (l : list row) (st : state) : state :=
  with_doc {| header := header (doc st); items := l |} st.

Definition with_has_items (b : bool) (st : state) : state :=
  {| doc := doc st; frm_has_items := b;
     trigger_from_barcode_scanner := trigger_from_barcode_scanner st;
     hide_serial_batch_dialog := hide_serial_batch_dialog st;
     scan_barcode := scan_barcode st; remaining_qty := remaining_qty st;
     dialog := dialog st;
     last_scanned_warehouse_initialized := last_scanned_warehouse_initialized st;
     log := log st |}.

Definition with_scan_barcode (v : value) (st : state) : state :=
  {| doc := doc st; frm_has_items := frm_has_items st;
     trigger_from_barcode_scanner := trigger_from_barcode_scanner st;
     hide_serial_batch_dialog := hide_serial_batch_dialog st;
     scan_barcode := v; remaining_qty := remaining_qty st;
     dialog := dialog st;
     last_scanned_warehouse_initialized := last_scanned_warehouse_initialized st;
     log := log st |}.

Definition with_remaining_qty (v : value) (st : state) : state :=
  {| doc := doc st; frm_has_items := frm_has_items st;
     trigger_from_barcode_scanner := trigger_from_barcode_scanner st;
     hide_serial_batch_dialog := hide_serial_batch_dialog st;
     scan_barcode := scan_barcode st; remaining_qty := v;
     dialog := dialog st;
     last_scanned_warehouse_initialized := last_scanned_warehouse_initialized st;
     log := log st |}.

Definition with_dialog (o : option row) (st : state) : state :=
  {| doc := doc st; frm_has_items := frm_has_items st;
     trigger_from_barcode_scanner := trigger_from_barcode_scanner st;
     hide_serial_batch_dialog := hide_serial_batch_dialog st;
     scan_barcode := scan_barcode st; remaining_qty := remaining_qty st;
     dialog := o;
     last_scanned_warehouse_initialized := last_scanned_warehouse_initialized st;
     log := log st |}.

Definition with_initialized (b : bool) (st : state) : state :=
  {| doc := doc st; frm_has_items := frm_has_items st;
     trigger_from_barcode_scanner := trigger_from_barcode_scanner st;
     hide_serial_batch_dialog := hide_serial_batch_dialog st;
     scan_barcode := scan_barcode st; remaining_qty := remaining_qty st;
     dialog := dialog st;
     last_scanned_warehouse_initialized := b;
     log := log st |}.

Definition emit (e : event) (st : state) : state :=
  {| doc := doc st; frm_has_items := frm_has_items st;
     trigger_from_barcode_scanner := trigger_from_barcode_scanner st;
     hide_serial_batch_dialog := hide_serial_batch_dialog st;
     scan_barcode := scan_barcode st; remaining_qty := remaining_qty st;
     dialog := dialog st;
     last_scanned_warehouse_initialized := last_scanned_warehouse_initialized st;
     log := log st ++ [e] |}.

(** [frappe.flags.trigger_from_barcode_scanner = b] *)
Definition set_trigger_from_barcode_scanner (b : bool) (st : state) : state :=
  emit (SetFlag "trigger_from_barcode_scanner" b)
    {| doc := doc st; frm_has_items := frm_has_items st;
       trigger_from_barcode_scanner := b;
       hide_serial_batch_dialog := hide_serial_batch_dialog st;
       scan_barcode := scan_barcode st; remaining_qty := remaining_qty st;
       dialog := dialog st;
       last_scanned_warehouse_initialized := last_scanned_warehouse_initialized st;
       log := log st |}.

(** [frappe.flags.hide_serial_batch_dialog = b] *)
Definition set_hide_serial_batch_dialog (b : bool) (st : state) : state :=
  emit (SetFlag "hide_serial_batch_dialog" b)
    {| doc := doc st; frm_has_items := frm_has_items st;
       trigger_from_barcode_scanner := trigger_from_barcode_scanner st;
       hide_serial_batch_dialog := b;
       scan_barcode := scan_barcode st; remaining_qty := remaining_qty st;
       dialog := dialog st;
       last_scanned_warehouse_initialized := last_scanned_warehouse_initialized st;
       log := log st |}.

(** The row at position [i] of the items table ([{}] off the table). *)
Definition row_at (i : nat) (st : state) : row :=
  default ∅ (items (doc st) !! i).

(** [frappe.model.set_value(row.doctype, row.name, fields)]: every
    given field of the row is assigned. *)
Definition set_value (i : nat) (fields : row) (st : state) : state :=
  emit (SetValue i fields)
    (with_items (alter (λ r, fields ∪ r) i (items (doc st))) st).

(** [frm.set_value(field, v)] on the parent document. *)
Definition frm_set_value (field : string) (v : value) (st : state) : state :=
  emit (FrmSetValue field v)
    (with_doc {| header := <[field := v]> (header (doc st));
                 items := items (doc st) |} st).

Definition show_alert (m : message) (indicator : string) (st : state) : state :=
  emit (ShowAlert m indicator) st.

(** [clean_up]: empty the scan field and refresh the table. *)
Definition clean_up (st : state) : state :=
  emit CleanUp (with_scan_barcode (VStr "") st).

Definition play_sound (o : option string) (st : state) : state :=
  match o with
  | Some s => if bool_decide (s ≠ "") then emit (PlaySound s) st else st
  | None => st
  end.

(** The fields the row split does not carry over. *)
Definition ignore_fields : list string :=
  ["name"; "idx"; "batch_no"; "barcode"; "received_qty"; "serial_no";
   "has_item_scanned"].

Section Engine.
Context `{Frappe} (sc : scanner).

Definition get_warehouse_field (d : frm_doc) : string := warehouse_field sc d.

(** *** The line matcher *)

(** [batch_no && frappe.meta.has_field(cur_grid.doctype, this.batch_no_field)] *)
Definition is_batch_no_scan (batch_no : value) : bool :=
  truthy batch_no && has_field (batch_no_field sc).

(** [this.max_qty_field && frappe.meta.has_field(cur_grid.doctype, this.max_qty_field)] *)
Definition check_max_qty : bool :=
  match max_qty_field sc with
  | Some f => bool_decide (f ≠ "") && has_field f
  | None => false
  end.

(** [this.has_last_scanned_warehouse && this.get_warehouse_field()] *)
Definition scan_warehouse_field (d : frm_doc) : string :=
  if has_last_scanned_warehouse sc then get_warehouse_field d else "".

Definition has_warehouse_field (d : frm_doc) : bool :=
  bool_decide (scan_warehouse_field d ≠ "") && has_field (scan_warehouse_field d).

(** [has_warehouse_field ? this.frm.doc.last_scanned_warehouse || default_warehouse : null] *)
Definition scan_warehouse (d : frm_doc) (default_warehouse : value) : value :=
  if has_warehouse_field d
  then js_or (get (header d) "last_scanned_warehouse") default_warehouse
  else VNull.

(** The property [row[this.max_qty_field]] reads: an option that was
    not given is the key "undefined". *)
Definition max_qty_key : string := default "undefined" (max_qty_field sc).

Definition matching_row (d : frm_doc) (item_code batch_no uom default_warehouse : value)
    (r : row) : bool :=
  let item_match := loose_eq (get r "item_code") item_code in
  let batch_match :=
    negb (truthy (get r (batch_no_field sc)))
    || loose_eq (get r (batch_no_field sc)) batch_no in
  let uom_match := negb (truthy uom) || loose_eq (get r (uom_field sc)) uom in
  let qty_in_limit :=
    num_lt (flt (get r (qty_field sc))) (flt (get r max_qty_key)) in
  let item_scanned := truthy (get r "has_item_scanned") in
  let warehouse := scan_warehouse d default_warehouse in
  let warehouse_match :=
    if has_warehouse_field d && truthy warehouse
       && truthy (get r (scan_warehouse_field d))
    then strict_eq (get r (scan_warehouse_field d)) warehouse
    else true in
  item_match && uom_match && warehouse_match && negb item_scanned
  && (negb (is_batch_no_scan batch_no) || batch_match)
  && (negb check_max_qty || qty_in_limit).

(** [items_table.find(matching_row) || items_table.find((d) => !d.item_code)],
    as the position of the row found. *)
Definition get_row_to_modify_on_scan (d : frm_doc)
    (item_code batch_no uom barcode default_warehouse : value) : option nat :=
  match list_find
          (λ r, matching_row d item_code batch_no uom default_warehouse r = true)
          (items d) with
  | Some (i, _) => Some i
  | None =>
      fst <$> list_find (λ r, truthy (get r "item_code") = false) (items d)
  end.

(** *** The steps of the field-write pipeline *)

(** [frappe.model.add_child(this.frm.doc, cur_grid.doctype, this.items_table_name)]:
    the new row goes last, its [idx] is the new length. *)
Definition add_child (st : state) : nat * state :=
  let rows := items (doc st) in
  let r := <["idx" := VNum (Fin (Z.of_nat (length rows) + 1))]> (get_new_doc rows) in
  (length rows, emit (AddChild (length rows)) (with_items (rows ++ [r]) st)).

(** [row[this.serial_no_field]?.includes(serial_no)] and the alert.
    [None]: the field holds a number, which has no [includes], and the
    call throws. *)
Definition is_duplicate_serial_no (i : nat) (serial_no : value) (st : state)
    : option (bool * state) :=
  match get (row_at i st) (serial_no_field sc) with
  | VUndef | VNull => Some (false, st)
  | VStr s =>
      if includes s (to_str serial_no)
      then Some (true, show_alert (SerialNoAlreadyAdded serial_no) "orange" st)
      else Some (false, st)
  | VNum _ => None
  end.

Definition set_selector_trigger_flag (data : row) (st : state) : state :=
  let require_selecting_batch :=
    truthy (get data "has_batch_no") && negb (truthy (get data "batch_no")) in
  let require_selecting_serial :=
    truthy (get data "has_serial_no") && negb (truthy (get data "serial_no")) in
  if negb (require_selecting_batch || require_selecting_serial)
  then set_hide_serial_batch_dialog true st
  else st.

Definition revert_selector_flag (st : state) : state :=
  set_trigger_from_barcode_scanner false (set_hide_serial_batch_dialog false st).

Definition set_barcode_uom (i : nat) (uom : value) (st : state) : state :=
  if truthy uom && has_field (uom_field sc)
  then set_value i {[uom_field sc := uom]} st
  else st.

(** The new text of the serial field: appended after a newline when
    the field already holds something. *)
Definition new_serial_nos (existing serial_no : value) : value :=
  if truthy existing
  then VStr (to_str existing +:+ nl +:+ to_str serial_no)
  else serial_no.

Definition set_serial_no (i : nat) (serial_no : value) (st : state) : state :=
  if truthy serial_no && has_field (serial_no_field sc)
  then set_value i
         {[serial_no_field sc :=
             new_serial_nos (get (row_at i st) (serial_no_field sc)) serial_no]} st
  else st.

Definition set_batch_no (i : nat) (batch_no : value) (st : state) : state :=
  if truthy batch_no && has_field (batch_no_field sc)
  then set_value i {[batch_no_field sc := batch_no]} st
  else st.

Definition set_barcode (i : nat) (barcode : value) (st : state) : state :=
  if truthy barcode && has_field (barcode_field sc)
  then set_value i {[barcode_field sc := barcode]} st
  else st.

Definition set_warehouse (i : nat) (st : state) : state :=
  if negb (has_last_scanned_warehouse sc) then st
  else
    let last_scanned_warehouse := get (header (doc st)) "last_scanned_warehouse" in
    if negb (truthy last_scanned_warehouse) then st
    else
      let field := get_warehouse_field (doc st) in
      if bool_decide (field = "") || negb (has_field field)
      then st
      else set_value i {[field := last_scanned_warehouse]} st.

Definition show_scan_message (idx : value) (is_existing_row : bool) (qty : value)
    (st : state) : state :=
  let qty := match qty with VUndef => VNum (Fin 1) | _ => qty end in
  if is_existing_row
  then show_alert (QtyIncreased idx qty) "green" st
  else show_alert (ItemAdded idx) "green" st.

(** [increment(value)] of [set_item]: the row's quantity goes up by
    [value], written together with the item code. *)
Definition increment (i : nat) (item_code v : value) (st : state) : state :=
  let st := set_trigger_from_barcode_scanner true st in
  let qty :=
    num_add (Number (js_or (get (row_at i st) (qty_field sc)) (VNum (Fin 0))))
            (Number v) in
  set_value i
    (<[qty_field sc := VNum qty]>
       (<["use_serial_batch_fields" := VNum (Fin 1)]>
          {["item_code" := item_code]})) st.

(** [get_fields_for_dialog]: the values the scan dialog opens with. *)
Definition get_fields_for_dialog (r : row) (barcode batch_no serial_no : value) : row :=
  let fields : row :=
    <["scanned_qty" := VNum (Fin 1)]>
      {["qty" := js_or (get r (qty_field sc)) (VNum (Fin 1))]} in
  let fields := if truthy batch_no then <["batch_no" := batch_no]> fields else fields in
  let fields := if truthy serial_no then <["serial_no" := serial_no]> fields else fields in
  if truthy barcode then <["barcode" := barcode]> fields else fields.

(** [prepare_item_for_scan]: the dialog is built and shown; what follows
    waits for its primary action. *)
Definition prepare_item_for_scan (i : nat) (barcode batch_no serial_no : value)
    (st : state) : state :=
  emit DialogShow
    (with_dialog (Some (get_fields_for_dialog (row_at i st) barcode batch_no serial_no)) st).

(** [set_item].  [answer] is what the operator types into the quantity
    prompt, [None] when the prompt is dismissed; the prompt's field is
    required, so an answer is never [undefined].  The result is the
    value the promise resolves with, [None] when nothing resolves it. *)
Definition set_item (answer : option value) (i : nat)
    (item_code barcode batch_no serial_no : value) (st : state)
    : option value * state :=
  if prompt_qty sc then
    let st := emit (Prompt item_code) st in
    match answer with
    | Some v => (Some v, increment i item_code v st)
    | None => (None, st)
    end
  else if frm_has_items st then
    (None, prepare_item_for_scan i barcode batch_no serial_no st)
  else (Some (VNum (Fin 1)), increment i item_code (VNum (Fin 1)) st).

(** The tasks [update_table] hands to [frappe.run_serially] for the row
    at [i], each run after the one before it has finished. *)
Definition update_table_tasks (answer : option value) (data : row) (i : nat)
    (is_new_row : bool) (st : state) : outcome * state :=
  let item_code := get data "item_code" in
  let barcode := get data "barcode" in
  let batch_no := get data "batch_no" in
  let serial_no := get data "serial_no" in
  let uom := get data "uom" in
  let st := set_selector_trigger_flag data st in
  let st := set_barcode_uom i uom st in
  let st := set_serial_no i serial_no st in
  let st := set_batch_no i batch_no st in
  let st := set_barcode i barcode st in
  let st := set_warehouse i st in
  match set_item answer i item_code barcode batch_no serial_no st with
  | (None, st) => (Pending, st)
  | (Some qty, st) =>
      let st :=
        show_scan_message (get (row_at i st) "idx") (negb is_new_row) qty st in
      let st := clean_up st in
      let st := revert_selector_flag st in
      (Resolved (Some i), st)
  end.

(** [update_table(data)] *)
Definition update_table (answer : option value) (data : row) (st : state)
    : outcome * state :=
  let st := set_trigger_from_barcode_scanner true st in
  let item_code := get data "item_code" in
  let barcode := get data "barcode" in
  let batch_no := get data "batch_no" in
  let serial_no := get data "serial_no" in
  let uom := get data "uom" in
  let default_warehouse := get data "default_warehouse" in
  let found :=
    get_row_to_modify_on_scan (doc st) item_code batch_no uom barcode
      default_warehouse in
  let is_new_row :=
    match found with
    | Some i => negb (truthy (get (row_at i st) "item_code"))
    | None => true
    end in
  let target :=
    match found with
    | Some i => Some (i, st)
    | None =>
        if dont_allow_new_row sc then None
        else
          let '(i, st) := add_child st in
          Some (i, with_has_items false (emit (Trigger "items_add" i) st))
    end in
  match target with
  | None =>
      (Rejected,
       clean_up (show_alert (MaximumQuantityScanned item_code) "red" st))
  | Some (i, st) =>
      match is_duplicate_serial_no i serial_no st with
      | None => (Rejected, st)
      | Some (true, st) => (Rejected, clean_up st)
      | Some (false, st) => update_table_tasks answer data i is_new_row st
      end
  end.

(** *** The scan dialog's primary action and the row split *)

(** [add_child_for_remaining_qty(prev_row)] *)
Definition add_child_for_remaining_qty (prev : nat) (st : state) : state :=
  if truthy (remaining_qty st) && num_lt (Fin 0) (Number (remaining_qty st)) then
    let prev_row := row_at prev st in
    let '(j, st) := add_child st in
    let r := filter (λ kv, kv.1 ∉ ignore_fields) prev_row ∪ row_at j st in
    let r := <[qty_field sc := remaining_qty st]> r in
    let r :=
      if bool_decide (qty_field sc = "qty") && has_field "stock_qty"
      then <["stock_qty" :=
               VNum (num_mul (Number (remaining_qty st))
                             (Number (get r "conversion_factor")))]> r
      else r in
    emit (Trigger "item_code" j) (with_items (<[j := r]> (items (doc st))) st)
  else st.

(** The dialog's "Update" action on the row at [i]; [dlg] holds the
    dialog's field values when the operator confirms. *)
Definition primary_action (i : nat) (item_code : value) (dlg : row) (st : state)
    : state :=
  let item_data : row :=
    <["has_item_scanned" := VNum (Fin 1)]>
      (<[qty_field sc := get dlg "scanned_qty"]>
         {["item_code" := item_code]}) in
  let st :=
    with_remaining_qty
      (VNum (num_sub (flt (get dlg "qty")) (flt (get dlg "scanned_qty")))) st in
  let st := set_value i item_data st in
  (* the handler ends with [this.dialog.hide()]; the tasks handed to
     [frappe.run_serially] start after the handler has returned *)
  let st := emit DialogHide (with_dialog None st) in
  let st := set_batch_no i (get dlg "batch_no") st in
  let st := set_barcode i (get dlg "barcode") st in
  let st := set_serial_no i (get dlg "serial_no") st in
  let st := add_child_for_remaining_qty i st in
  clean_up st.

(** *** Scans inside the dialog *)

(** What a scan inside the dialog can throw. *)
Inductive dialog_error :=
  | SerialNoAlreadyScanned (serial_no : value)
  | NotAFunction.

(** [this.dialog.set_value(k, v)]: a field of the dialog is assigned;
    for a field the dialog lacks nothing happens.  The scanner field is
    in every dialog, the other fields are those the dialog was opened
    with. *)
Definition dialog_set_value (k : string) (v : value) (dlg : row) : row :=
  if bool_decide (k = "barcode_scanner") || bool_decide (is_Some (dlg !! k))
  then <[k := v]> dlg
  else dlg.

(** [validate_duplicate_serial_no(serial_no)]: [Some e] when it throws. *)
Definition validate_duplicate_serial_no (serial_no : value) (dlg : row)
    : option dialog_error :=
  let held := get dlg "serial_no" in
  let serial_nos :=
    if truthy held then
      match held with
      | VStr text => Some (split (Ascii.ascii_of_nat 10) text)
      | _ => None
      end
    else Some [] in
  match serial_nos with
  | None => Some NotAFunction
  | Some serial_nos =>
      match serial_no with
      | VStr s =>
          if bool_decide (s ∈ serial_nos)
          then Some (SerialNoAlreadyScanned serial_no)
          else None
      | _ => None
      end
  end.

(** [update_dialog_values(scanned_item, r)] on the dialog's values, for
    [r.message = message]. *)
Definition update_dialog_values (scanned_item : value) (message : row) (dlg : row)
    : option dialog_error * row :=
  let item_code := get message "item_code" in
  let barcode := get message "barcode" in
  let batch_no := get message "batch_no" in
  let serial_no := get message "serial_no" in
  let dlg := dialog_set_value "barcode_scanner" (VStr "") dlg in
  if strict_eq item_code scanned_item
     && (strict_eq (get dlg "barcode") barcode || truthy batch_no || truthy serial_no)
  then
    let dlg :=
      if truthy batch_no then dialog_set_value "batch_no" batch_no dlg else dlg in
    let validated :=
      if truthy serial_no then
        match validate_duplicate_serial_no serial_no dlg with
        | Some e => (Some e, dlg)
        | None =>
            (None,
             dialog_set_value "serial_no"
               (VStr (to_str (get dlg "serial_no") +:+ nl +:+ to_str serial_no)) dlg)
        end
      else (None, dlg) in
    match validated with
    | (Some e, dlg) => (Some e, dlg)
    | (None, dlg) =>
        (None,
         dialog_set_value "scanned_qty"
           (VNum (num_add (flt (get dlg "scanned_qty")) (Fin 1))) dlg)
    end
  else (None, dlg).

(** The change handler of the dialog's scanner field, for the text
    [input] in it and the dialog that [prepare_item_for_scan] opened
    for the item [item_code]: the scan API is asked and a reply with a
    message goes to [update_dialog_values].  The handler is the
    dialog's: without a dialog there is no scan. *)
Definition dialog_scan (item_code input : value) (st : state)
    : option dialog_error * state :=
  match dialog st with
  | None => (None, st)
  | Some dlg =>
      if truthy input then
        let ctx_set_warehouse := get (header (doc st)) "set_warehouse" in
        let ctx_company := get (header (doc st)) "company" in
        let st := emit (ScanApiCall input ctx_set_warehouse ctx_company) st in
        match scan_api input ctx_set_warehouse ctx_company with
        | Some message =>
            let '(e, dlg) := update_dialog_values item_code message dlg in
            (e, with_dialog (Some dlg) st)
        | None => (None, st)
        end
      else (None, st)
  end.

(** *** Warehouse context and the entry point *)

(** [handle_warehouse_scan(data)].  The alert's text is built with
    [bold], which only a string has: for a warehouse that is not a
    string the call throws after the field is set, and the first
    component is [false]. *)
Definition handle_warehouse_scan (data : row) (st : state) : bool * state :=
  let warehouse := get data "warehouse" in
  let st := with_initialized true st in
  let st := frm_set_value "last_scanned_warehouse" warehouse st in
  match warehouse with
  | VStr _ => (true, show_alert (WarehouseWillBeSet warehouse) "green" st)
  | _ => (false, st)
  end.

Definition clear_warehouse_context (st : state) : state :=
  show_alert WarehouseCleared "blue"
    (frm_set_value "last_scanned_warehouse" VNull st).

(** [process_scan()] *)
Definition process_scan (answer : option value) (st : state) : outcome * state :=
  let input := scan_barcode st in
  let st := emit ClearScanField (with_scan_barcode (VStr "") st) in
  if negb (truthy input) then (Pending, st)
  else
    let ctx_set_warehouse := get (header (doc st)) "set_warehouse" in
    let ctx_company := get (header (doc st)) "company" in
    let st := emit (ScanApiCall input ctx_set_warehouse ctx_company) st in
    let not_found (st : state) :=
      let st :=
        show_alert (if has_last_scanned_warehouse sc
                    then CannotFindItemOrWarehouse else CannotFindItem) "red" st in
      let st := clean_up st in
      (Rejected, play_sound (fail_sound sc) st) in
    match scan_api input ctx_set_warehouse ctx_company with
    | None => not_found st
    | Some data =>
        if bool_decide (data = ∅)
           || (truthy (get data "warehouse") && negb (has_last_scanned_warehouse sc))
        then not_found st
        else if truthy (get data "warehouse") then
          match handle_warehouse_scan data st with
          | (true, st) => (Resolved None, play_sound (success_sound sc) st)
          | (false, st) => (Pending, st)
          end
        else
          match update_table answer data st with
          | (Resolved r, st) => (Resolved r, play_sound (success_sound sc) st)
          | (Rejected, st) => (Rejected, play_sound (fail_sound sc) st)
          | (Pending, st) => (Pending, st)
          end
    end.

End Engine.
End BarcodeScanner.

(** ** [erpnext.PointOfSale.Controller] *)

Module PointOfSale.

(** [res.message] of the availability service:
    [[available_qty, is_stock_item, is_negative_stock_allowed]]. *)
Record stock_reply := {
  available_qty : num;
  is_stock_item : bool;
  is_negative_stock_allowed : bool;
}.

Inductive error :=
  | NotAvailable (item_code warehouse : string)
  | StockNotEnough (item_code warehouse available_qty uom : string)
  | SerialNoTransacted (serial_no : string)
  | TypeError.

(** An awaited step ends normally or throws. *)
Inductive result :=
  | Ok
  | Thrown (e : error).

Inductive event :=
  | Freeze
  | Unfreeze
  | StockAvailabilityCall (item_code warehouse : value)
  | ReservedSerialNosCall (item_code warehouse : value)
  | SetValue (i : nat) (field : string) (v : value)
  | ClearDoc (name : value)
  | AddChild (i : nat)
  | Trigger (handler : string) (i : nat)
  | UpdateCartHtml (i : nat)
  | EditItemDetails (i : nat)
  | ShowAlert (message : string)
  | PlaySound (name : string)
  | ConsoleLog (e : error).

#[global] Instance error_eq_dec : EqDecision error.
Proof. solve_decision. Defined.

#[global] Instance result_eq_dec : EqDecision result.
Proof. solve_decision. Defined.

#[global] Instance cart_event_eq_dec : EqDecision event.
Proof. solve_decision. Defined.

Record state := {
  (** [frm.doc], without its items *)
  header : row;
  (** [frm.doc.items] *)
  items : list row;
  (** the session map [item_stock_map[item_code][warehouse]] *)
  item_stock_map : gmap string (gmap string stock_reply);
  (** [this.allow_negative_stock], from the stock settings *)
  allow_negative_stock : bool;
  (** [this.settings.warehouse] *)
  settings_warehouse : value;
  (** [this.item_details.current_item.name] *)
  current_item_name : value;
  (** whether the item details pane is visible *)
  item_details_visible : bool;
  (** what the availability service answers at this moment *)
  get_stock_availability : value → value → stock_reply;
  (** what the serial reservation service answers at this moment *)
  get_pos_reserved_serial_nos : value → value → list value;
  log : list event;
}.

Definition with_items (l : list row) (st : state) : state :=
  {| header := header st; items := l; item_stock_map := item_stock_map st;
     allow_negative_stock := allow_negative_stock st;
     settings_warehouse := settings_warehouse st;
     current_item_name := current_item_name st;
     item_details_visible := item_details_visible st;
     get_stock_availability := get_stock_availability st;
     get_pos_reserved_serial_nos := get_pos_reserved_serial_nos st;
     log := log st |}.

Definition with_item_stock_map (m : gmap string (gmap string stock_reply))
    (st : state) : state :=
  {| header := header st; items := items st; item_stock_map := m;
     allow_negative_stock := allow_negative_stock st;
     settings_warehouse := settings_warehouse st;
     current_item_name := current_item_name st;
     item_details_visible := item_details_visible st;
     get_stock_availability := get_stock_availability st;
     get_pos_reserved_serial_nos := get_pos_reserved_serial_nos st;
     log := log st |}.

(** The world moves on: the availability service answers differently. *)
Definition with_get_stock_availability (f : value → value → stock_reply)
    (st : state) : state :=
  {| header := header st; items := items st; item_stock_map := item_stock_map st;
     allow_negative_stock := allow_negative_stock st;
     settings_warehouse := settings_warehouse st;
     current_item_name := current_item_name st;
     item_details_visible := item_details_visible st;
     get_stock_availability := f;
     get_pos_reserved_serial_nos := get_pos_reserved_serial_nos st;
     log := log st |}.

Definition emit (e : event) (st : state) : state :=
  {| header := header st; items := items st; item_stock_map := item_stock_map st;
     allow_negative_stock := allow_negative_stock st;
     settings_warehouse := settings_warehouse st;
     current_item_name := current_item_name st;
     item_details_visible := item_details_visible st;
     get_stock_availability := get_stock_availability st;
     get_pos_reserved_serial_nos := get_pos_reserved_serial_nos st;
     log := log st ++ [e] |}.

Definition row_at (i : nat) (st : state) : row := default ∅ (items st !! i).

(** [s.bold()]; [None] when the receiver is not a string and the call
    throws. *)
Definition bold (v : value) : option string :=
  match v with
  | VStr s => Some ("<b>" +:+ s +:+ "</b>")
  | _ => None
  end.

Definition is_stock_query (e : event) : bool :=
  match e with
  | StockAvailabilityCall _ _ => true
  | _ => false
  end.

(** The number of remote availability queries made so far. *)
Definition stock_queries (st : state) : nat :=
  length (filter (λ e, is_stock_query e = true) (log st)).

(** A write of a field of a line. *)
Definition is_set_value (e : event) : bool :=
  match e with
  | SetValue _ _ _ => true
  | _ => false
  end.

Section Controller.
Context `{Frappe}.

(** The framework's [frappe.model.clear_doc(doctype, name)] on a child
    row: the row leaves its parent's table and the rows that stay are
    numbered again. *)
Definition clear_doc (name : value) (rows : list row) : list row :=
  imap (λ i r, <["idx" := VNum (Fin (Z.of_nat i + 1))]> r)
       (filter (λ r, loose_eq (get r "name") name = false) rows).

(** The framework's [frm.add_child("items", values)]: a new last row
    from its defaults and the given values, except [idx], [name] and
    undefined values. *)
Definition add_child (values : row) (st : state) : nat * state :=
  let rows := items st in
  let fresh := <["idx" := VNum (Fin (Z.of_nat (length rows) + 1))]> (get_new_doc rows) in
  let d := filter (λ kv, (kv.1 ∉ ["idx"; "name"]) ∧ (kv.2 ≠ VUndef)) values in
  (length rows, emit (AddChild (length rows)) (with_items (rows ++ [d ∪ fresh]) st)).

Definition set_value (i : nat) (field : string) (v : value) (st : state) : state :=
  emit (SetValue i field v)
    (with_items (alter (λ r, <[field := v]> r) i (items st)) st).

(** [get_available_stock(item_code, warehouse)]: the remote query, whose
    callback stores the reply in [item_stock_map]. *)
Definition get_available_stock (item_code warehouse : value) (st : state)
    : stock_reply * state :=
  let st := emit (StockAvailabilityCall item_code warehouse) st in
  let res := get_stock_availability st item_code warehouse in
  let of_item := default ∅ (item_stock_map st !! to_str item_code) in
  (res,
   with_item_stock_map
     (<[to_str item_code := <[to_str warehouse := res]> of_item]>
        (item_stock_map st)) st).

(** [check_stock_availability(item_row, qty_needed, warehouse)] for the
    row at position [i]. *)
Definition check_stock_availability (i : nat) (qty_needed : num) (warehouse : value)
    (st : state) : result * state :=
  let item_row := row_at i st in
  let '(resp, st) := get_available_stock (get item_row "item_code") warehouse st in
  let st := emit Unfreeze st in
  match bold (get item_row "stock_uom"), bold (get item_row "item_code"),
        bold warehouse with
  | Some bold_uom, Some bold_item_code, Some bold_warehouse =>
      let bold_available_qty := "<b>" +:+ to_str (VNum (available_qty resp)) +:+ "</b>" in
      if is_negative_stock_allowed resp then (Ok, st)
      else if negb (num_lt (Fin 0) (available_qty resp)) then
        if is_stock_item resp then
          let st := emit (ClearDoc (get item_row "name"))
                      (with_items (clear_doc (get item_row "name") (items st)) st) in
          (Thrown (NotAvailable bold_item_code bold_warehouse), st)
        else (Ok, st)
      else if is_stock_item resp && num_lt (available_qty resp) qty_needed then
        (Thrown (StockNotEnough bold_item_code bold_warehouse bold_available_qty bold_uom),
         st)
      else (Ok, emit Freeze st)
  | _, _, _ => (Thrown TypeError, st)
  end.

(** [check_serial_no_availablilty(item_code, warehouse, serial_no)] *)
Definition check_serial_no_availablilty (item_code warehouse serial_no : value)
    (st : state) : result * state :=
  let st := emit (ReservedSerialNosCall item_code warehouse) st in
  let res := get_pos_reserved_serial_nos st item_code warehouse in
  if existsb (strict_eq serial_no) res then
    match bold serial_no with
    | Some b => (Thrown (SerialNoTransacted b), st)
    | None => (Thrown TypeError, st)
    end
  else (Ok, st).

(** [get_item_from_frm(item)], as the position of the row found; [None]
    stands for the empty object returned when there is none. *)
Definition get_item_from_frm (item : row) (st : state) : option nat :=
  if truthy (get item "name") then
    fst <$> list_find (λ i, loose_eq (get i "name") (get item "name") = true) (items st)
  else
    let has_batch_no :=
      negb (strict_eq (get item "batch_no") (VStr "null"))
      && negb (strict_eq (get item "batch_no") VNull) in
    fst <$> list_find
      (λ i, strict_eq (get i "item_code") (get item "item_code")
            && (negb has_batch_no
                || (has_batch_no && strict_eq (get i "batch_no") (get item "batch_no")))
            && strict_eq (get i "uom") (get item "uom")
            && strict_eq (get i "price_list_rate") (VNum (flt (get item "rate")))
            = true)
      (items st).

Definition is_current_item_being_edited (item_row : row) (st : state) : bool :=
  loose_eq (get item_row "name") (current_item_name st).

(** The guard of the availability check when an existing line is
    edited: the field affects the quantity, the value is positive and
    negative stock is not allowed in the stock settings. *)
Definition check_due_on_edit (field : string) (v : value) (st : state) : bool :=
  bool_decide (field ∈ ["qty"; "conversion_factor"])
  && num_lt (Fin 0) (Number v)
  && negb (allow_negative_stock st).

(** The guard of the availability check when a line is added. *)
Definition check_due_on_add (field : string) (v : value) (st : state) : bool :=
  bool_decide (field = "qty")
  && negb (strict_eq v (VNum (Fin 0)))
  && negb (allow_negative_stock st).

(** The [try] block of [on_cart_update] when the line exists. *)
Definition update_existing (i : nat) (field : string) (v : value)
    (from_selector : bool) (item : row) (st : state) : result * state :=
  let item_row := row_at i st in
  let v := if bool_decide (field = "qty") then VNum (flt v) else v in
  let checked :=
    if check_due_on_edit field v st then
      let qty_needed :=
        if bool_decide (field = "qty")
        then num_mul (Number v) (Number (get item_row "conversion_factor"))
        else num_mul (Number (get item_row "qty")) (Number v) in
      check_stock_availability i qty_needed (get (header st) "set_warehouse") st
    else (Ok, st) in
  match checked with
  | (Thrown e, st) => (Thrown e, st)
  | (Ok, st) =>
      if is_current_item_being_edited item_row st || from_selector then
        let st := set_value i field v st in
        let st :=
          if truthy (get item "serial_no") && from_selector
          then set_value i "serial_no"
                 (VStr (to_str (get item_row "serial_no") +:+ nl
                        +:+ to_str (get item "serial_no"))) st
          else st in
        (Ok, emit (UpdateCartHtml i) st)
      else (Ok, st)
  end.

Definition check_serial_batch_selection_needed (item_row : row) : bool :=
  let serialized := truthy (get item_row "has_serial_no") in
  let batched := truthy (get item_row "has_batch_no") in
  let no_serial_selected := negb (truthy (get item_row "serial_no")) in
  let no_batch_selected := negb (truthy (get item_row "batch_no")) in
  (serialized && no_serial_selected)
  || (batched && no_batch_selected)
  || (serialized && batched && (no_batch_selected || no_serial_selected)).

Definition raise_customer_selection_alert (st : state) : state :=
  emit (PlaySound "error")
    (emit (ShowAlert "You must select a customer before adding an item.")
       (emit Unfreeze st)).

(** The [try] block of [on_cart_update] when the line does not exist. *)
Definition add_new (field : string) (v : value) (item : row) (st : state)
    : result * state :=
  if negb (truthy (get (header st) "customer"))
  then (Ok, raise_customer_selection_alert st)
  else if negb (truthy (get item "item_code")) then (Ok, st)
  else if loose_eq (get item "rate") VUndef || loose_eq (get item "rate") (VNum (Fin 0))
  then (Ok, emit (PlaySound "error") (emit (ShowAlert "Price is not set for the item.") st))
  else
    let new_item : row :=
      <["stock_uom" := get item "stock_uom"]>
        (<[field := v]>
           (<["uom" := get item "uom"]>
              (<["rate" := get item "rate"]>
                 (<["batch_no" := get item "batch_no"]>
                    {["item_code" := get item "item_code"]})))) in
    let serial_checked :=
      if truthy (get item "serial_no") then
        match check_serial_no_availablilty (get item "item_code")
                (get (header st) "set_warehouse") (get item "serial_no") st with
        | (Ok, st) => (Ok, <["serial_no" := get item "serial_no"]> new_item, st)
        | (Thrown e, st) => (Thrown e, new_item, st)
        end
      else (Ok, new_item, st) in
    match serial_checked with
    | (Thrown e, _, st) => (Thrown e, st)
    | (Ok, new_item, st) =>
        let new_item := <["use_serial_batch_fields" := VNum (Fin 1)]> new_item in
        let new_item := <["warehouse" := settings_warehouse st]> new_item in
        let serial_count :=
          match v with
          | VStr s => Some (VNum (Fin (Z.of_nat (length (split (Ascii.ascii_of_nat 10) s)))))
          | _ => None
          end in
        match (if bool_decide (field = "serial_no")
               then (λ q, <["qty" := q]> new_item) <$> serial_count
               else Some new_item) with
        | None => (Thrown TypeError, st)
        | Some new_item =>
            let '(i, st) := add_child new_item st in
            let checked :=
              if check_due_on_add field v st then
                check_stock_availability i
                  (num_mul (Number v) (Number (get (row_at i st) "conversion_factor")))
                  (get (header st) "set_warehouse") st
              else (Ok, st) in
            match checked with
            | (Thrown e, st) => (Thrown e, st)
            | (Ok, st) =>
                let st := emit (Trigger "qty" i) (emit (Trigger "item_code" i) st) in
                let st := emit (UpdateCartHtml i) st in
                let st :=
                  if item_details_visible st then emit (EditItemDetails i) st else st in
                (Ok,
                 if check_serial_batch_selection_needed (row_at i st)
                    && negb (item_details_visible st)
                 then emit (EditItemDetails i) st else st)
            end
        end
    end.

(** [on_cart_update({field, value, item})]: a thrown error is logged and
    the screen is unfrozen in every case. *)
Definition on_cart_update (field : string) (v : value) (item : row) (st : state)
    : state :=
  let st := emit Freeze st in
  let found := get_item_from_frm item st in
  let item_row := match found with Some i => row_at i st | None => ∅ end in
  let from_selector := bool_decide (field = "qty") && strict_eq v (VStr "+1") in
  let v :=
    if from_selector then VNum (num_add (flt (get item_row "qty")) (flt v)) else v in
  let tried :=
    match found with
    | Some i =>
        if bool_decide (item_row = ∅) then add_new field v item st
        else update_existing i field v from_selector item st
    | None => add_new field v item st
    end in
  match tried with
  | (Ok, st) => emit Unfreeze st
  | (Thrown e, st) => emit Unfreeze (emit (ConsoleLog e) st)
  end.

(** One round of [clone_new_batch_item_in_frm]: the line of the item
    is copied to a new last line, which takes the batch, the batch's
    serial numbers and their number as its quantity; the cart is
    redrawn for every line of the item. *)
Definition clone_new_batch_item (item : row) (st : state)
    (entry : string * list string) : state :=
  let item_to_clone :=
    match list_find (λ i, loose_eq (get i "name") (get item "name") = true)
            (items st) with
    | Some (_, r) => r
    | None => ∅
    end in
  let '(j, st) := add_child item_to_clone st in
  let new_row :=
    <["qty" := VNum (Fin (Z.of_nat (length entry.2)))]>
      (<["serial_no" := VStr (String.concat nl entry.2)]>
         (<["batch_no" := VStr entry.1]> (row_at j st))) in
  let st := with_items (<[j := new_row]> (items st)) st in
  foldl (λ st k,
           if strict_eq (get item "item_code") (get (row_at k st) "item_code")
           then emit (UpdateCartHtml k) st else st)
    st (seq 0 (length (items st))).

(** [clone_new_batch_item_in_frm(batch_serial_map, item)]; the map is
    given by its entries, in the order of [Object.keys]. *)
Definition clone_new_batch_item_in_frm (batch_serial_map : list (string * list string))
    (item : row) (st : state) : state :=
  foldl (clone_new_batch_item item) st batch_serial_map.

End Controller.
End PointOfSale.

(** ** [erpnext.PointOfSale.ItemSelector]: the item search *)

Module ItemSelector.

(** [message] of the item search service, as far as the selector reads
    it. *)
Record reply := {
  found_items : list row;
  barcode : value;
}.

Inductive event :=
  | StartLoading
  | StopLoading
  | GetItemsCall (price_list item_group : value) (search_term : string)
      (pos_profile : value)
  | RenderItemList (items : list row)
  | AddFilteredItemToCart.

Record state := {
  (** [events.get_frm().doc.selling_price_list] *)
  selling_price_list : value;
  (** [this.price_list], [this.item_group], [this.pos_profile] *)
  price_list : value;
  item_group : value;
  pos_profile : value;
  (** [this.search_index[price list][search term]]; own properties
      only: a name every object inherits ([constructor], [__proto__])
      is outside the model, as a price list and as a search term *)
  search_index : gmap string (gmap string (list row));
  (** [this.items] *)
  items : list row;
  auto_add_item : bool;
  (** [this.search_field.$input[0].value] *)
  search_input : value;
  (** what the search service answers at this moment for a price list,
      an item group, a search term and a profile; [None] when the call
      fails *)
  get_items : value → value → string → value → option reply;
  log : list event;
}.

Definition emit (e : event) (st : state) : state :=
  {| selling_price_list := selling_price_list st; price_list := price_list st;
     item_group := item_group st; pos_profile := pos_profile st;
     search_index := search_index st; items := items st;
     auto_add_item := auto_add_item st; search_input := search_input st;
     get_items := get_items st; log := log st ++ [e] |}.

Definition with_search_index (m : gmap string (gmap string (list row))) (st : state)
    : state :=
  {| selling_price_list := selling_price_list st; price_list := price_list st;
     item_group := item_group st; pos_profile := pos_profile st;
     search_index := m; items := items st;
     auto_add_item := auto_add_item st; search_input := search_input st;
     get_items := get_items st; log := log st |}.

Definition with_items (l : list row) (st : state) : state :=
  {| selling_price_list := selling_price_list st; price_list := price_list st;
     item_group := item_group st; pos_profile := pos_profile st;
     search_index := search_index st; items := l;
     auto_add_item := auto_add_item st; search_input := search_input st;
     get_items := get_items st; log := log st |}.

Definition with_search_input (v : value) (st : state) : state :=
  {| selling_price_list := selling_price_list st; price_list := price_list st;
     item_group := item_group st; pos_profile := pos_profile st;
     search_index := search_index st; items := items st;
     auto_add_item := auto_add_item st; search_input := v;
     get_items := get_items st; log := log st |}.

(** The world moves on: the operator picks another item group, types
    into the search field, and the search service answers
    differently. *)
Definition moved_on (group input : value)
    (f : value → value → string → value → option reply) (st : state) : state :=
  {| selling_price_list := selling_price_list st; price_list := price_list st;
     item_group := group; pos_profile := pos_profile st;
     search_index := search_index st; items := items st;
     auto_add_item := auto_add_item st; search_input := input;
     get_items := f; log := log st |}.

Definition is_get_items_call (e : event) : bool :=
  match e with
  | GetItemsCall _ _ _ _ => true
  | _ => false
  end.

(** The number of calls of the search service made so far. *)
Definition get_items_calls (st : state) : nat :=
  length (filter (λ e, is_get_items_call e = true) (log st)).

Section Search.
(** [String.prototype.toLowerCase] *)
Context (toLowerCase : string → string).

(** [add_filtered_item_to_cart]: the item is clicked and the search
    field emptied. *)
Definition add_filtered_item_to_cart (st : state) : state :=
  with_search_input (VStr "") (emit AddFilteredItemToCart st).

(** The items are shown, and the only one is added when that is asked
    for and the search field holds a text. *)
Definition show_items (l : list row) (st : state) : state :=
  let st := emit (RenderItemList l) (with_items l st) in
  if auto_add_item st && truthy (search_input st)
     && bool_decide (length (items st) = 1)
  then add_filtered_item_to_cart st
  else st.

(** [filter_items({ search_term })] *)
Definition filter_items (search_term : string) (st : state) : state :=
  let st := emit StartLoading st in
  let key := to_str (selling_price_list st) in
  let searching := truthy (VStr search_term) in
  let term := if searching then toLowerCase search_term else search_term in
  let st :=
    if searching
    then with_search_index
           (<[key := default ∅ (search_index st !! key)]> (search_index st)) st
    else st in
  let memoized :=
    if searching then search_index st !! key ≫= (.!! term) else None in
  match memoized with
  | Some l => show_items l st
  | None =>
      let price_list := js_or (selling_price_list st) (price_list st) in
      let st :=
        emit (GetItemsCall price_list (item_group st) term (pos_profile st)) st in
      match get_items st price_list (item_group st) term (pos_profile st) with
      | Some message =>
          let st :=
            if truthy (VStr term) && negb (truthy (barcode message))
            then with_search_index
                   (<[key := <[term := found_items message]>
                               (default ∅ (search_index st !! key))]>
                      (search_index st)) st
            else st in
          emit StopLoading (show_items (found_items message) st)
      | None => emit StopLoading st
      end
  end.

End Search.
End ItemSelector.

(** ** The Job Card form: the time logs *)

Module JobCard.

(** [get_last_completed_row(time_logs)]; [None] when nothing is
    returned. *)
Definition get_last_completed_row (time_logs : list row) : option row :=
  let completed_rows := filter (λ d, truthy (get d "to_time") = true) time_logs in
  if bool_decide (length completed_rows ≠ 0)
  then completed_rows !! (length completed_rows - 1)
  else None.

(** [get_last_row(time_logs)] *)
Definition get_last_row (time_logs : list row) : row :=
  default ∅ (time_logs !! (length time_logs - 1)).

(** Whether [complete_job_card] asks for the end time: the test before
    the End Time field is added to the dialog. *)
Definition asks_end_time (sub_operations time_logs : list row) : bool :=
  let last_completed_row := get_last_completed_row time_logs in
  let last_row :=
    if bool_decide (length sub_operations ≠ 0) && bool_decide (length time_logs ≠ 0)
    then get_last_row time_logs
    else ∅ in
  match last_completed_row with
  | None => true
  | Some r => negb (truthy (get r "to_time")) || negb (truthy (get last_row "to_time"))
  end.

End JobCard.

(** ** The specification's side

    Conditions and readings that the statements below compare the code
    with, worded as the specification words them. *)

Module Spec.
Import BarcodeScanner.

Section LineMatcher.
Context `{Frappe} (sc : scanner) (d : frm_doc).
Context (item_code batch_no uom default_warehouse : value).

(** A maximum-quantity field is configured for the table: the option
    is given to the scanner and names a field of the table. *)
Definition max_qty_configured (f : string) : Prop :=
  max_qty_field sc = Some f ∧ f ≠ "" ∧ has_field f = true.

(** The warehouse context is active, with [f] as the lines' warehouse
    field: the form has the field [last_scanned_warehouse], and the
    scanner's warehouse field is named and is a field of the table. *)
Definition warehouse_context_active (f : string) : Prop :=
  has_last_scanned_warehouse sc = true
  ∧ warehouse_field sc d = f ∧ f ≠ "" ∧ has_field f = true.

(** The six conditions a line has to meet to absorb an item scan, for
    [context] as the warehouse that the context carries. *)
Definition eligible_in (context : value) (r : row) : Prop :=
  (* 1: the item codes are equal *)
  loose_eq (get r "item_code") item_code = true
  (* 2: a scanned batch on a table that tracks batches: unset or equal *)
  ∧ (truthy batch_no = true → has_field (batch_no_field sc) = true →
     truthy (get r (batch_no_field sc)) = false
     ∨ loose_eq (get r (batch_no_field sc)) batch_no = true)
  (* 3: a scanned UOM is the line's UOM *)
  ∧ (truthy uom = true → loose_eq (get r (uom_field sc)) uom = true)
  (* 4: with a maximum-quantity field, the quantity is below the maximum *)
  ∧ (∀ f, max_qty_configured f →
       num_lt (flt (get r (qty_field sc))) (flt (get r f)) = true)
  (* 5: the line is not marked as scanned *)
  ∧ truthy (get r "has_item_scanned") = false
  (* 6: with an active warehouse context, the warehouses of the line
     and of the context, when both are there, are the same *)
  ∧ (∀ f, warehouse_context_active f →
       truthy (get r f) = true → truthy context = true →
       strict_eq (get r f) context = true).

(** The conditions as they are worded for the matcher: the warehouse
    that the context carries is the last scanned warehouse. *)
Definition eligible_as_worded : row → Prop :=
  eligible_in (get (header d) "last_scanned_warehouse").

(** The warehouse that the matcher compares a line's warehouse with:
    the last scanned warehouse, or else the default warehouse that the
    scan carries for its item. *)
Definition context_warehouse : value :=
  js_or (get (header d) "last_scanned_warehouse") default_warehouse.

(** The conditions of the matcher. *)
Definition eligible : row → Prop := eligible_in context_warehouse.

(** A placeholder: a line whose item code is empty. *)
Definition placeholder (r : row) : Prop := truthy (get r "item_code") = false.

End LineMatcher.
(** A string of spaces, tabs and line breaks only (the empty string
    included). *)
Fixpoint whitespace_only (s : string) : bool :=
  match s with
  | "" => true
  | String c rest =>
      bool_decide (c ∈ [" "%char; ascii_of_nat 9; ascii_of_nat 10; ascii_of_nat 13])
      && whitespace_only rest
  end.

(** An empty or whitespace-only scan input. *)
Definition blank_input (v : value) : bool :=
  match v with
  | VUndef | VNull => true
  | VStr s => whitespace_only s
  | VNum _ => false
  end.

(** The events that are calls of the scan API. *)
Definition is_scan_api_call (e : event) : bool :=
  match e with
  | ScanApiCall _ _ _ => true
  | _ => false
  end.

Section Scans.
Context `{Frappe} (sc : scanner).

(** The line the matcher gives for the data of an item scan. *)
Definition matched_line (data : row) (st : state) : option nat :=
  get_row_to_modify_on_scan sc (doc st) (get data "item_code")
    (get data "batch_no") (get data "uom") (get data "barcode")
    (get data "default_warehouse").

(** A line's serial list: the lines of its serial field. *)
Definition serial_list (r : row) : list string :=
  match get r (serial_no_field sc) with
  | VStr s => split (ascii_of_nat 10) s
  | _ => []
  end.

(** The warning for a serial number that is already on the line. *)
Definition duplicate_serial_warning (serial_no : value) : event :=
  ShowAlert (SerialNoAlreadyAdded serial_no) "orange".

(** The warning when a scan would need a row that may not be added. *)
Definition row_limit_warning (item_code : value) : event :=
  ShowAlert (MaximumQuantityScanned item_code) "red".

(** [st'] has the parent document and the lines of [st], the lines
    changed at most in the fields [fs]. *)
Definition same_but (fs : list string) (st st' : state) : Prop :=
  header (doc st') = header (doc st)
  ∧ length (items (doc st')) = length (items (doc st))
  ∧ ∀ j k, k ∉ fs → get (row_at j st') k = get (row_at j st) k.

(** One conditional write of a field of the line at [i]. *)
Definition write (c : bool) (i : nat) (field : string) (v : value) : list event :=
  if c then [SetValue i {[field := v]}] else [].

(** The writes of the pipeline that come before the quantity step, for
    the line at [i]: the selector flag, the UOM, the serial number, the
    batch number, the barcode and the warehouse of the context.
    [serials] is the text written to the serial field, [warehouse] the
    warehouse field and value written (if the context has one). *)
Definition writes_before_quantity (data : row) (i : nat) (serials : value)
    (warehouse : option (string * value)) : list event :=
  (if negb ((truthy (get data "has_batch_no") && negb (truthy (get data "batch_no")))
            || (truthy (get data "has_serial_no")
                && negb (truthy (get data "serial_no"))))
   then [SetFlag "hide_serial_batch_dialog" true] else [])
  ++ write (truthy (get data "uom") && has_field (uom_field sc)) i
       (uom_field sc) (get data "uom")
  ++ write (truthy (get data "serial_no") && has_field (serial_no_field sc)) i
       (serial_no_field sc) serials
  ++ write (truthy (get data "batch_no") && has_field (batch_no_field sc)) i
       (batch_no_field sc) (get data "batch_no")
  ++ write (truthy (get data "barcode") && has_field (barcode_field sc)) i
       (barcode_field sc) (get data "barcode")
  ++ match warehouse with
     | Some (f, w) => [SetValue i {[f := w]}]
     | None => []
     end.

(** The quantity step when it completes, and the clearing of the
    transient flags after it.  [item_data] is what the step writes and
    [shown] the message it shows. *)
Definition quantity_and_clearing (data : row) (i : nat) (item_data : row)
    (shown : message) : list event :=
  (if prompt_qty sc then [Prompt (get data "item_code")] else [])
  ++ [SetFlag "trigger_from_barcode_scanner" true; SetValue i item_data;
      ShowAlert shown "green"]
  ++ [CleanUp; SetFlag "hide_serial_batch_dialog" false;
      SetFlag "trigger_from_barcode_scanner" false].

(** The quantity step when it waits for the operator: the quantity
    prompt, or the scan dialog. *)
Definition quantity_step_waiting (data : row) : list event :=
  if prompt_qty sc then [Prompt (get data "item_code")] else [DialogShow].

(** The fixed sequence of the pipeline for the line at [i]: the writes
    before the quantity step, the quantity step, and the clearing of
    the transient flags. *)
Definition fixed_sequence (data : row) (i : nat) (serials : value)
    (warehouse : option (string * value)) (item_data : row) (shown : message)
    : list event :=
  writes_before_quantity data i serials warehouse
  ++ quantity_and_clearing data i item_data shown.

(** The serial field is none of the fields the later steps write. *)
Definition serial_field_kept : Prop :=
  (serial_no_field sc ∉
     [batch_no_field sc; barcode_field sc; "item_code"; "use_serial_batch_fields";
      qty_field sc])
  ∧ ∀ d, warehouse_field sc d ≠ serial_no_field sc.

(** The warehouse field is chosen from the parent document's own
    fields (a fixed name is). *)
Definition warehouse_field_of_header : Prop :=
  ∀ d d', header d = header d' → warehouse_field sc d = warehouse_field sc d'.

(** An event that writes a field of a line. *)
Definition is_field_write (e : event) : Prop :=
  match e with
  | SetValue _ _ => True
  | _ => False
  end.

(** [st'] has the parent document of [st] and its lines, the line at
    [i] apart. *)
Definition same_lines_but (i : nat) (st st' : state) : Prop :=
  header (doc st') = header (doc st)
  ∧ length (items (doc st')) = length (items (doc st))
  ∧ ∀ j, j ≠ i → items (doc st') !! j = items (doc st) !! j.

(** The session has a warehouse context: the form has the field and
    the field holds a warehouse. *)
Definition context_active (st : state) : bool :=
  has_last_scanned_warehouse sc
  && truthy (get (header (doc st)) "last_scanned_warehouse").

(** The fields of a line that an item scan can write. *)
Definition scan_fields (st : state) : list string :=
  [uom_field sc; serial_no_field sc; batch_no_field sc; barcode_field sc;
   "item_code"; "use_serial_batch_fields"; qty_field sc]
  ++ (if context_active st then [warehouse_field sc (doc st)] else []).

(** The quantity field is none of the fields the earlier steps write. *)
Definition qty_field_kept : Prop :=
  (qty_field sc ∉
     [uom_field sc; serial_no_field sc; batch_no_field sc; barcode_field sc])
  ∧ ∀ d, warehouse_field sc d ≠ qty_field sc.

(** The row a new last line of the table starts as. *)
Definition fresh_line (st : state) : row :=
  <["idx" := VNum (Fin (Z.of_nat (length (items (doc st))) + 1))]>
    (get_new_doc (items (doc st))).

(** The line an item scan works on, as it is before the scan: the
    matched line, or a new one. *)
Definition line_before (data : row) (st : state) : row :=
  match matched_line data st with
  | Some i => row_at i st
  | None => fresh_line st
  end.

(** The position of the line an item scan works on: the matched
    line, or the new last line. *)
Definition target_line (data : row) (st : state) : nat :=
  default (length (items (doc st))) (matched_line data st).

(** The text of a serial field as the list of its serial numbers. *)
Definition serials_of (v : value) : list string :=
  match v with
  | VStr text => if bool_decide (text = "") then [] else split (ascii_of_nat 10) text
  | _ => []
  end.

End Scans.
End Spec.

(** ** A concrete form

    One implementation of the framework services and a few scanner
    configurations and documents, on which the definitions are run. *)

Module Demo.
Import BarcodeScanner.

Fixpoint digits (s : string) (acc : Z) : option Z :=
  match s with
  | "" => Some acc
  | String c rest =>
      let n := Z.of_nat (Ascii.nat_of_ascii c) in
      if bool_decide (48 ≤ n ≤ 57)%Z then digits rest (10 * acc + (n - 48)) else None
  end.

(** Plain decimal integer numerals, with an optional sign. *)
Definition decimal (s : string) : option Z :=
  match s with
  | "" => None
  | String "-"%char rest =>
      if bool_decide (rest = "") then None else Z.opp <$> digits rest 0
  | String "+"%char rest =>
      if bool_decide (rest = "") then None else digits rest 0
  | _ => digits s 0
  end.

(** The fields of the child table. *)
Definition child_fields : list string :=
  ["item_code"; "qty"; "picked_qty"; "uom"; "batch_no"; "serial_no"; "barcode";
   "warehouse"; "conversion_factor"; "stock_qty"; "has_item_scanned"].

Definition scan_barcode_api (search_value set_warehouse company : value) : option row :=
  match search_value with
  | VStr "A-001" => Some {["item_code" := VStr "A"]}
  | VStr "A-LOT7" =>
      Some (<["batch_no" := VStr "LOT7"]> (<["has_batch_no" := VNum (Fin 1)]>
              {["item_code" := VStr "A"]}))
  | VStr "A-S1" =>
      Some (<["serial_no" := VStr "S1"]> (<["has_serial_no" := VNum (Fin 1)]>
              {["item_code" := VStr "A"]}))
  | VStr "B-001" => Some {["item_code" := VStr "B"]}
  | VStr "WH-STORES" => Some {["warehouse" := VStr "Stores"]}
  | _ => Some ∅
  end.

Definition frappe : Frappe := {|
  to_number s :=
    if bool_decide (s = "") then Fin 0
    else match decimal s with Some z => Fin z | None => NaN end;
  flt_str s := default 0%Z (decimal s);
  has_field f := bool_decide (f ∈ child_fields);
  get_new_doc rows :=
    <["doctype" := VStr "Order Item"]>
      {["name" := VStr ("new-order-item-" +:+ pretty (length rows + 1))]};
  scan_api := scan_barcode_api;
|}.

(** The constructor's defaults. *)
Definition plain : scanner := {|
  barcode_field := "barcode";
  serial_no_field := "serial_no";
  batch_no_field := "batch_no";
  uom_field := "uom";
  qty_field := "qty";
  warehouse_field := λ _, "warehouse";
  max_qty_field := None;
  dont_allow_new_row := false;
  prompt_qty := false;
  success_sound := None;
  fail_sound := None;
  has_last_scanned_warehouse := false;
|}.

(** A form with the last-scanned-warehouse field. *)
Definition with_context : scanner := {|
  barcode_field := "barcode";
  serial_no_field := "serial_no";
  batch_no_field := "batch_no";
  uom_field := "uom";
  qty_field := "qty";
  warehouse_field := λ _, "warehouse";
  max_qty_field := None;
  dont_allow_new_row := false;
  prompt_qty := false;
  success_sound := Some "submit";
  fail_sound := Some "error";
  has_last_scanned_warehouse := true;
|}.

(** The scanner asks for the quantity of every scan. *)
Definition prompting : scanner := {|
  barcode_field := "barcode";
  serial_no_field := "serial_no";
  batch_no_field := "batch_no";
  uom_field := "uom";
  qty_field := "qty";
  warehouse_field := λ _, "warehouse";
  max_qty_field := None;
  dont_allow_new_row := false;
  prompt_qty := true;
  success_sound := None;
  fail_sound := None;
  has_last_scanned_warehouse := false;
|}.

(** A pick list: the picked quantity is capped by the quantity to pick
    and no row is added by a scan. *)
Definition pick_list : scanner := {|
  barcode_field := "barcode";
  serial_no_field := "serial_no";
  batch_no_field := "batch_no";
  uom_field := "uom";
  qty_field := "picked_qty";
  warehouse_field := λ _, "warehouse";
  max_qty_field := Some "qty";
  dont_allow_new_row := true;
  prompt_qty := false;
  success_sound := None;
  fail_sound := None;
  has_last_scanned_warehouse := false;
|}.

Definition line (name item_code : string) (qty : Z) : row :=
  <["qty" := VNum (Fin qty)]>
    (<["item_code" := VStr item_code]>
       (<["doctype" := VStr "Order Item"]> {["name" := VStr name]})).

Definition start (rows : list row) (input : value) : state := {|
  doc := {| header := {["customer" := VStr "Walk-in"]}; items := rows |};
  frm_has_items := false;
  trigger_from_barcode_scanner := false;
  hide_serial_batch_dialog := false;
  scan_barcode := input;
  remaining_qty := VUndef;
  dialog := None;
  last_scanned_warehouse_initialized := false;
  log := [];
|}.

(** What the scan API answers for three of the codes. *)
Definition item_a : row := {["item_code" := VStr "A"]}.

Definition item_a_lot7 : row :=
  <["batch_no" := VStr "LOT7"]>
    (<["has_batch_no" := VNum (Fin 1)]> {["item_code" := VStr "A"]}).

Definition item_a_s1 : row :=
  <["serial_no" := VStr "S1"]>
    (<["has_serial_no" := VNum (Fin 1)]> {["item_code" := VStr "A"]}).

Definition item_b : row := {["item_code" := VStr "B"]}.

(** Two lines of item A: one of another batch, one without a batch. *)
Definition other_batch : row := <["batch_no" := VStr "LOT9"]> (line "r1" "A" 1).

Definition no_batch : row := line "r2" "A" 1.

Definition two_batches : frm_doc :=
  {| header := ∅; items := [other_batch; no_batch] |}.

(** One line of item A, quantity 2, nothing scanned yet. *)
Definition one_line : state := start [line "r1" "A" 2] VUndef.

(** The same, on a form that marks its items as given ([frm.has_items]). *)
Definition one_line_of_given_items : state := with_has_items true one_line.

(** One line of item A that holds the serial numbers S1 and S2. *)
Definition holding_s1_s2 : state :=
  start [<["serial_no" := VStr ("S1" +:+ nl +:+ "S2")]> (line "r1" "A" 2)] VUndef.

(** One line of item A that holds the serial number S12. *)
Definition holding_s12 : state :=
  start [<["serial_no" := VStr "S12"]> (line "r1" "A" 2)] VUndef.

(** A pick list with its only line of item B picked in full. *)
Definition picked_in_full : state :=
  start [<["picked_qty" := VNum (Fin 4)]> (line "r1" "B" 4)] VUndef.

(** A line of five of batch LOT7, and the dialog confirmed with two
    of the five scanned. *)
Definition five_of_lot7 : state :=
  start [<["idx" := VNum (Fin 1)]> (<["batch_no" := VStr "LOT7"]> (line "r1" "A" 5))]
    VUndef.

Definition two_of_five : row :=
  <["batch_no" := VStr "LOT7"]>
    (<["scanned_qty" := VNum (Fin 2)]> {["qty" := VNum (Fin 5)]}).

(** The scan field holds a warehouse code, an empty text, a blank. *)
Definition warehouse_code_typed : state := start [line "r1" "A" 2] (VStr "WH-STORES").

Definition nothing_typed : state := start [line "r1" "A" 2] (VStr "").

Definition blank_typed : state := start [line "r1" "A" 2] (VStr " ").

(** The warehouse Stores is the last scanned warehouse. *)
Definition in_stores : state :=
  frm_set_value "last_scanned_warehouse" (VStr "Stores") one_line.

(** A line of item A and a line of item B. *)
Definition two_lines : state := start [line "r1" "A" 2; line "r2" "B" 1] VUndef.

(** The scan field holds a code that the scan API does not know. *)
Definition unknown_code_typed : state := start [line "r1" "A" 2] (VStr "ZZZ").

(** The dialog confirmed with all five of the five scanned. *)
Definition five_of_five : row :=
  <["batch_no" := VStr "LOT7"]>
    (<["scanned_qty" := VNum (Fin 5)]> {["qty" := VNum (Fin 5)]}).

(** The scan dialog of a batch scan on a line of two: the state that
    the scan leaves, and the dialog's values. *)
Definition lot7_dialog_open : state :=
  (update_table (H := frappe) plain None item_a_lot7 one_line_of_given_items).2.

Definition lot7_dialog : row :=
  <["batch_no" := VStr "LOT7"]>
    (<["scanned_qty" := VNum (Fin 1)]> {["qty" := VNum (Fin 2)]}).

(** A dialog that holds the serial number S12. *)
Definition s12_dialog : row :=
  <["serial_no" := VStr "S12"]>
    (<["scanned_qty" := VNum (Fin 1)]> {["qty" := VNum (Fin 2)]}).

(** The same services for a child table with other fields. *)
Definition table (fields : list string) : Frappe := {|
  to_number := to_number (Frappe := frappe);
  flt_str := flt_str (Frappe := frappe);
  has_field f := bool_decide (f ∈ fields);
  get_new_doc := get_new_doc (Frappe := frappe);
  scan_api := scan_barcode_api;
|}.

(** A table without a serial number field, one without a warehouse
    field, and one that keeps batches in a field named lot. *)
Definition without_serial_field : Frappe :=
  table ["item_code"; "qty"; "uom"; "batch_no"; "barcode"; "warehouse"].

Definition without_warehouse_field : Frappe :=
  table ["item_code"; "qty"; "uom"; "batch_no"; "serial_no"; "barcode"].




(** A pick list on a form with the last-scanned-warehouse field. *)
Definition picking_in_context : scanner := {|
  barcode_field := "barcode";
  serial_no_field := "serial_no";
  batch_no_field := "batch_no";
  uom_field := "uom";
  qty_field := "picked_qty";
  warehouse_field := λ _, "warehouse";
  max_qty_field := Some "qty";
  dont_allow_new_row := true;
  prompt_qty := false;
  success_sound := None;
  fail_sound := None;
  has_last_scanned_warehouse := true;
|}.

Definition to_pick (name warehouse : string) (picked : Z) : row :=
  <["warehouse" := VStr warehouse]>
    (<["picked_qty" := VNum (Fin picked)]> (line name "A" 5)).

(** Three lines of five of item A, with Stores as the last scanned
    warehouse: one picked in full, one to pick in Yard, one to pick in
    Stores. *)
Definition three_of_a : frm_doc :=
  {| header := {["last_scanned_warehouse" := VStr "Stores"]};
     items := [to_pick "r1" "Stores" 5; to_pick "r2" "Yard" 1;
               to_pick "r3" "Stores" 1] |}.

(** One line of item A in Yard, and no warehouse scanned. *)
Definition in_yard : row := <["warehouse" := VStr "Yard"]> (line "r1" "A" 2).

Definition one_line_in_yard : frm_doc := {| header := ∅; items := [in_yard] |}.

(** What the scan API answers for a box of item A that carries a
    serial number, a batch and its barcode. *)
Definition box_of_a : row :=
  <["barcode" := VStr "4006381"]>
    (<["batch_no" := VStr "LOT7"]>
       (<["serial_no" := VStr "S1"]>
          (<["uom" := VStr "Box"]>
             (<["has_batch_no" := VNum (Fin 1)]>
                (<["has_serial_no" := VNum (Fin 1)]> {["item_code" := VStr "A"]}))))).

(** One line of two boxes of item A, with Stores as the last scanned
    warehouse; and the same on a form that marks its items as given. *)
Definition boxes_in_stores : state :=
  frm_set_value "last_scanned_warehouse" (VStr "Stores")
    (start [<["idx" := VNum (Fin 1)]> (<["uom" := VStr "Box"]> (line "r1" "A" 2))]
       VUndef).

Definition given_boxes_in_stores : state := with_has_items true boxes_in_stores.

(** With Stores as the last scanned warehouse: a placeholder line that
    has the warehouse Yard, and a line that holds the serial number
    S1. *)
Definition placeholder_in_yard : state :=
  frm_set_value "last_scanned_warehouse" (VStr "Stores")
    (start [<["warehouse" := VStr "Yard"]>
              (<["doctype" := VStr "Order Item"]> {["name" := VStr "r1"]})] VUndef).

Definition holding_s1_in_stores : state :=
  frm_set_value "last_scanned_warehouse" (VStr "Stores")
    (start [<["serial_no" := VStr "S1"]> (line "r1" "A" 2)] VUndef).

(** The same as [in_stores], on a form that marks its items as given. *)
Definition given_items_in_stores : state := with_has_items true in_stores.

End Demo.

Module DemoPOS.
Import PointOfSale.

Definition line : row :=
  <["conversion_factor" := VNum (Fin 1)]>
    (<["qty" := VNum (Fin 1)]>
       (<["stock_uom" := VStr "Nos"]>
          (<["item_code" := VStr "A"]> {["name" := VStr "row-1"]}))).

(** A cart with one line, which is the item being edited. *)
Definition cart (reply : stock_reply) : state := {|
  header := <["set_warehouse" := VStr "Stores"]> {["customer" := VStr "Walk-in"]};
  items := [line];
  item_stock_map := ∅;
  allow_negative_stock := false;
  settings_warehouse := VStr "Stores";
  current_item_name := VStr "row-1";
  item_details_visible := true;
  get_stock_availability := λ _ _, reply;
  get_pos_reserved_serial_nos := λ _ _, [];
  log := [];
|}.

Definition in_stock (n : Z) : stock_reply :=
  {| available_qty := Fin n; is_stock_item := true; is_negative_stock_allowed := false |}.

(** The operator sets the quantity of the line. *)
Definition edit_qty (n : Z) (st : state) : state :=
  on_cart_update (H := Demo.frappe) "qty" (VNum (Fin n)) {["name" := VStr "row-1"]} st.

(** An invoice without a customer, and an empty cart. *)
Definition anonymous : state := {|
  header := {["set_warehouse" := VStr "Stores"]};
  items := [];
  item_stock_map := ∅;
  allow_negative_stock := false;
  settings_warehouse := VStr "Stores";
  current_item_name := VUndef;
  item_details_visible := false;
  get_stock_availability := λ _ _, in_stock 5;
  get_pos_reserved_serial_nos := λ _ _, [VStr "S1"];
  log := [];
|}.

(** The same for the customer Walk-in; the serial number S1 is
    reserved for another invoice. *)
Definition empty_cart : state := {|
  header := <["set_warehouse" := VStr "Stores"]> {["customer" := VStr "Walk-in"]};
  items := [];
  item_stock_map := ∅;
  allow_negative_stock := false;
  settings_warehouse := VStr "Stores";
  current_item_name := VUndef;
  item_details_visible := false;
  get_stock_availability := λ _ _, in_stock 5;
  get_pos_reserved_serial_nos := λ _ _, [VStr "S1"];
  log := [];
|}.

(** What the item selector sends for a click on item B, and on its
    unit with the serial number S1. *)
Definition clicked_b : row :=
  <["stock_uom" := VStr "Nos"]>
    (<["rate" := VNum (Fin 10)]> {["item_code" := VStr "B"]}).

Definition clicked_b_s1 : row := <["serial_no" := VStr "S1"]> clicked_b.

(** A cart with one priced line of item A, and the click on item A. *)
Definition priced_cart : state := {|
  header := <["set_warehouse" := VStr "Stores"]> {["customer" := VStr "Walk-in"]};
  items := [<["price_list_rate" := VNum (Fin 10)]> line];
  item_stock_map := ∅;
  allow_negative_stock := false;
  settings_warehouse := VStr "Stores";
  current_item_name := VStr "row-9";
  item_details_visible := false;
  get_stock_availability := λ _ _, in_stock 5;
  get_pos_reserved_serial_nos := λ _ _, [];
  log := [];
|}.


(** A cart of two lines, and a cart whose only line has no stock UOM. *)
Definition cart_of_two (reply : stock_reply) : state :=
  with_items
    [<["idx" := VNum (Fin 1)]> line;
     <["idx" := VNum (Fin 2)]>
       (<["item_code" := VStr "B"]> (<["name" := VStr "row-2"]> line))]
    (cart reply).

Definition cart_without_stock_uom (reply : stock_reply) : state :=
  with_items [delete "stock_uom" line] (cart reply).

End DemoPOS.

Module DemoSelector.
Import ItemSelector.

Definition lower_char (c : ascii) : ascii :=
  let n := nat_of_ascii c in
  if bool_decide (65 ≤ n ≤ 90) then ascii_of_nat (n + 32) else c.

(** Lower case, for the letters A to Z. *)
Fixpoint lower (s : string) : string :=
  match s with
  | "" => ""
  | String c rest => String (lower_char c) (lower rest)
  end.

Definition nut : row := {["item_code" := VStr "NUT-M8"]}.

(** The search service knows a nut by its name and by its barcode. *)
Definition search (price_list item_group : value) (term : string) (pos_profile : value)
    : option reply :=
  if bool_decide (term = "nut") then Some {| found_items := [nut]; barcode := VUndef |}
  else if bool_decide (term = "4711")
       then Some {| found_items := [nut]; barcode := VStr "4711" |}
       else Some {| found_items := []; barcode := VUndef |}.

Definition opened : state := {|
  selling_price_list := VStr "Standard Selling";
  price_list := VStr "Standard Selling";
  item_group := VStr "All Item Groups";
  pos_profile := VStr "Counter";
  search_index := ∅;
  items := [];
  auto_add_item := false;
  search_input := VStr "";
  get_items := search;
  log := [];
|}.

(** The service has stopped answering. *)
Definition silent (price_list item_group : value) (term : string) (pos_profile : value)
    : option reply := None.

End DemoSelector.

(** ** Tactics *)

(** [x ∈ [a; b; ...]] for an [x] that is one of the listed terms. *)
Ltac listed := repeat first [apply list_elem_of_here | apply list_elem_of_further].

(** A closed decidable statement, by evaluation. *)
Ltac decided := apply (bool_decide_unpack _); vm_compute; exact I.

(** A closed conjunction of equations, each by evaluation. *)
Ltac evaluated := repeat apply conj; first [decided | vm_compute; reflexivity].

(** The six conditions of the matcher on a concrete line, by evaluation. *)
Ltac conditions :=
  unfold Spec.eligible, Spec.eligible_as_worded, Spec.eligible_in;
  repeat split;
  try (intros f (Hon & <- & _)); try (intros f (Hf & _); vm_compute in Hf);
  simplify_eq; vm_compute; intros; try discriminate; auto.

(** * Properties *)

Import BarcodeScanner.

Section LineMatcherFacts.
Context `{Frappe} (sc : scanner).

(** The guard of the quantity cap is on exactly when a maximum-quantity
    field is configured, and that field is the one compared with. *)
Lemma check_max_qty_configured :
  check_max_qty sc = true ↔ ∃ f, Spec.max_qty_configured sc f.
Proof.
  unfold check_max_qty, Spec.max_qty_configured. split.
  - destruct (max_qty_field sc) as [f|]; [| done].
    intros [Hf Hfield]%andb_true_iff. apply bool_decide_eq_true in Hf. by exists f.
  - intros (f & -> & Hf & ->). by rewrite bool_decide_eq_true_2.
Qed.

Lemma max_qty_configured_key f : Spec.max_qty_configured sc f → max_qty_key sc = f.
Proof. intros (Hf & _). unfold max_qty_key. by rewrite Hf. Qed.

Lemma qty_in_limit_configured (r : row) :
  negb (check_max_qty sc)
  || num_lt (flt (get r (qty_field sc))) (flt (get r (max_qty_key sc))) = true
  ↔ ∀ f, Spec.max_qty_configured sc f →
      num_lt (flt (get r (qty_field sc))) (flt (get r f)) = true.
Proof.
  split.
  - intros Hlimit f Hf. rewrite <- (max_qty_configured_key f Hf).
    assert (Hon : check_max_qty sc = true) by (apply check_max_qty_configured; eauto).
    by rewrite Hon in Hlimit.
  - intros Hall. destruct (check_max_qty sc) eqn:Hon; [| done].
    apply check_max_qty_configured in Hon as (f & Hf).
    rewrite (max_qty_configured_key f Hf). by apply Hall.
Qed.

(** The guard of the warehouse comparison is on exactly when the
    warehouse context is active, and the field compared is the lines'
    warehouse field. *)
Lemma has_warehouse_field_active d :
  has_warehouse_field sc d = true ↔ ∃ f, Spec.warehouse_context_active sc d f.
Proof.
  unfold has_warehouse_field, scan_warehouse_field, get_warehouse_field,
    Spec.warehouse_context_active. split.
  - destruct (has_last_scanned_warehouse sc); [| done].
    intros [Hf Hfield]%andb_true_iff. apply bool_decide_eq_true in Hf. eauto.
  - intros (f & -> & -> & Hf & ->). by rewrite bool_decide_eq_true_2.
Qed.

Lemma warehouse_context_active_field d f :
  Spec.warehouse_context_active sc d f → scan_warehouse_field sc d = f.
Proof.
  intros (Hl & Hf & _). unfold scan_warehouse_field, get_warehouse_field.
  by rewrite Hl.
Qed.

Lemma warehouse_match_active d default_warehouse (r : row) :
  (if has_warehouse_field sc d && truthy (scan_warehouse sc d default_warehouse)
      && truthy (get r (scan_warehouse_field sc d))
   then strict_eq (get r (scan_warehouse_field sc d))
          (scan_warehouse sc d default_warehouse)
   else true) = true
  ↔ ∀ f, Spec.warehouse_context_active sc d f →
      truthy (get r f) = true →
      truthy (Spec.context_warehouse d default_warehouse) = true →
      strict_eq (get r f) (Spec.context_warehouse d default_warehouse) = true.
Proof.
  unfold scan_warehouse. fold (Spec.context_warehouse d default_warehouse).
  destruct (has_warehouse_field sc d) eqn:Hon.
  - apply has_warehouse_field_active in Hon as (f & Hf).
    rewrite (warehouse_context_active_field d f Hf). cbn [andb]. split.
    + intros Hmatch f' Hf' Hline Hctx.
      assert (f' = f) as ->.
      { destruct Hf as (_ & <- & _), Hf' as (_ & <- & _). done. }
      by rewrite Hctx, Hline in Hmatch.
    + intros Hall.
      destruct (truthy (Spec.context_warehouse d default_warehouse)) eqn:Hctx;
        [| done].
      destruct (truthy (get r f)) eqn:Hline; [| done]. by apply Hall.
  - cbn [andb]. split; [| done]. intros _ f Hf.
    assert (Hon' : has_warehouse_field sc d = true)
      by (apply has_warehouse_field_active; eauto).
    congruence.
Qed.

(** [matching_row] is the conjunction of the six conditions. *)
Lemma matching_row_eligible d item_code batch_no uom default_warehouse r :
  matching_row sc d item_code batch_no uom default_warehouse r = true
  ↔ Spec.eligible sc d item_code batch_no uom default_warehouse r.
Proof.
  unfold matching_row, Spec.eligible, Spec.eligible_in.
  rewrite !andb_true_iff, qty_in_limit_configured, warehouse_match_active.
  unfold is_batch_no_scan.
  rewrite !orb_true_iff, !negb_true_iff, andb_false_iff.
  destruct (truthy batch_no), (has_field (batch_no_field sc)), (truthy uom);
    intuition congruence.
Qed.

Lemma list_find_first {A} (P : A → Prop) `{∀ x, Decision (P x)} (l : list A) i x :
  l !! i = Some x → P x → (∀ j y, l !! j = Some y → j < i → ¬ P y) →
  list_find P l = Some (i, x).
Proof. intros. apply list_find_Some. auto. Qed.

Lemma list_find_none {A} (P : A → Prop) `{∀ x, Decision (P x)} (l : list A) :
  (∀ x, x ∈ l → ¬ P x) → list_find P l = None.
Proof. intros Hl. apply list_find_None, Forall_forall. exact Hl. Qed.

Section Matched.
Context (d : frm_doc) (item_code batch_no uom barcode default_warehouse : value).

#[local] Abbreviation found :=
  (get_row_to_modify_on_scan sc d item_code batch_no uom barcode default_warehouse).
#[local] Abbreviation eligible :=
  (Spec.eligible sc d item_code batch_no uom default_warehouse).

(** The first eligible line is the line found. *)
Lemma found_first_eligible i r :
  items d !! i = Some r → eligible r →
  (∀ j r', items d !! j = Some r' → j < i → ¬ eligible r') →
  found = Some i.
Proof.
  intros Hi Hr Hbefore. unfold found, get_row_to_modify_on_scan.
  rewrite (list_find_first _ _ i r); [done | done | |].
  - by apply matching_row_eligible.
  - intros j y Hj Hlt Hy. apply (Hbefore j y Hj Hlt).
    by apply matching_row_eligible.
Qed.

Lemma no_eligible_no_match :
  (∀ r, r ∈ items d → ¬ eligible r) →
  list_find
    (λ r, matching_row sc d item_code batch_no uom default_warehouse r = true)
    (items d) = None.
Proof.
  intros Hnone. apply list_find_none. intros r Hr Hm. apply (Hnone r Hr).
  by apply matching_row_eligible.
Qed.

(** Without an eligible line, the first placeholder is the line found. *)
Lemma found_first_placeholder i r :
  (∀ r, r ∈ items d → ¬ eligible r) →
  items d !! i = Some r → Spec.placeholder r →
  (∀ j r', items d !! j = Some r' → j < i → ¬ Spec.placeholder r') →
  found = Some i.
Proof.
  intros Hnone Hi Hr Hbefore. unfold found, get_row_to_modify_on_scan.
  rewrite (no_eligible_no_match Hnone). by rewrite (list_find_first _ _ i r).
Qed.

(** Without an eligible line and without a placeholder, no line is found. *)
Lemma found_none :
  (∀ r, r ∈ items d → ¬ eligible r) →
  (∀ r, r ∈ items d → ¬ Spec.placeholder r) →
  found = None.
Proof.
  intros Hnone Hno. unfold found, get_row_to_modify_on_scan.
  rewrite (no_eligible_no_match Hnone). by rewrite list_find_none.
Qed.

(** The line found is in the table, and is eligible or a placeholder. *)
Lemma found_row j :
  found = Some j →
  ∃ r, items d !! j = Some r ∧ (eligible r ∨ Spec.placeholder r).
Proof.
  unfold found, get_row_to_modify_on_scan. intros Hfound.
  destruct (list_find _ (items d)) as [[i x]|] eqn:Hfind.
  - injection Hfound as ->. apply list_find_Some in Hfind as (Hx & Hm & _).
    exists x. split; [done |]. left. by apply matching_row_eligible.
  - clear Hfind.
    destruct (list_find _ (items d)) as [[i x]|] eqn:Hph; simplify_eq/=.
    apply list_find_Some in Hph as (Hx & Hp & _). exists x. auto.
Qed.

(** A line whose batch is set and is not the scanned batch is not
    eligible for a batch scan on a table that tracks batches. *)
Lemma other_batch_not_eligible r :
  truthy batch_no = true → has_field (batch_no_field sc) = true →
  truthy (get r (batch_no_field sc)) = true →
  loose_eq (get r (batch_no_field sc)) batch_no = false →
  ¬ eligible r.
Proof.
  intros Hb Hf Hset Hne (_ & Hbatch & _). destruct (Hbatch Hb Hf); congruence.
Qed.

(** C1.  The line matcher returns the first line, in entry order, that
    meets the six conditions, where a maximum-quantity field counts as
    configured when it is given and is a field of the table, and where
    the warehouse of the context is the last scanned warehouse or, when
    none has been scanned, the default warehouse that the scan carries;
    when no line meets the conditions, the first placeholder line; when
    there is none either, nothing (a new line is to be appended).  For
    a batch scan on a table that tracks batches, a line whose batch is
    set and differs from the scanned batch is never the line returned
    for its item, and of two lines, one with an unset batch and one
    with another batch, the unset one is returned in either order. *)
Theorem get_row_to_modify_on_scan_first_eligible :
  (∀ i r, items d !! i = Some r → eligible r →
     (∀ j r', items d !! j = Some r' → j < i → ¬ eligible r') →
     found = Some i)
  ∧ ((∀ r, r ∈ items d → ¬ eligible r) →
     (∀ i r, items d !! i = Some r → Spec.placeholder r →
        (∀ j r', items d !! j = Some r' → j < i → ¬ Spec.placeholder r') →
        found = Some i)
     ∧ ((∀ r, r ∈ items d → ¬ Spec.placeholder r) → found = None))
  ∧ (∀ j r, found = Some j → items d !! j = Some r →
       truthy batch_no = true → has_field (batch_no_field sc) = true →
       ¬ Spec.placeholder r →
       truthy (get r (batch_no_field sc)) = false
       ∨ loose_eq (get r (batch_no_field sc)) batch_no = true)
  ∧ (∀ unset other i,
       items d = [unset; other] ∧ i = 0 ∨ items d = [other; unset] ∧ i = 1 →
       eligible unset →
       truthy batch_no = true → has_field (batch_no_field sc) = true →
       truthy (get unset (batch_no_field sc)) = false →
       truthy (get other (batch_no_field sc)) = true →
       loose_eq (get other (batch_no_field sc)) batch_no = false →
       found = Some i).
Proof.
  split; [exact found_first_eligible | split; [| split]].
  - intros Hnone. split.
    + intros i r. by apply found_first_placeholder.
    + by apply found_none.
  - intros j r Hfound Hj Hb Hf Hitem.
    destruct (found_row j Hfound) as (r' & Hj' & [Hel | Hph]).
    + assert (r' = r) as -> by congruence.
      destruct (truthy (get r (batch_no_field sc))) eqn:Hset; [| by left].
      destruct (loose_eq (get r (batch_no_field sc)) batch_no) eqn:Heq; [by right |].
      by destruct (other_batch_not_eligible r).
    + assert (r' = r) as -> by congruence. done.
  - intros unset other i Horder Hel Hb Hf Hunset Hset Hne.
    destruct Horder as [[Hitems ->] | [Hitems ->]].
    + apply (found_first_eligible 0 unset); [by rewrite Hitems | done | lia].
    + apply (found_first_eligible 1 unset); [by rewrite Hitems | done |].
      intros j r' Hj Hlt. assert (j = 0) as -> by lia.
      rewrite Hitems in Hj. injection Hj as <-. by apply other_batch_not_eligible.
Qed.

End Matched.

End LineMatcherFacts.

(** ** Strings: containment and splitting *)

Lemma append_nil_l (s : string) : "" +:+ s = s.
Proof. reflexivity. Qed.

Lemma append_cons (c : ascii) (s t : string) : String c s +:+ t = String c (s +:+ t).
Proof. reflexivity. Qed.

Lemma append_nil_r (s : string) : s +:+ "" = s.
Proof. induction s as [|c s IH]; [done |]. by rewrite append_cons, IH. Qed.

Lemma prefix_app (s t : string) : String.prefix s (s +:+ t) = true.
Proof.
  induction s as [|c s IH].
  - rewrite append_nil_l. by destruct t.
  - rewrite append_cons. simpl. destruct (ascii_dec c c); [exact IH | done].
Qed.

Lemma includes_prefix (hay s : string) :
  String.prefix s hay = true → includes hay s = true.
Proof.
  intros Hp. destruct hay; unfold includes; fold includes; by rewrite Hp.
Qed.

Lemma includes_middle (a s b : string) : includes (a +:+ s +:+ b) s = true.
Proof.
  induction a as [|c a IH].
  - rewrite append_nil_l. apply includes_prefix, prefix_app.
  - rewrite append_cons. simpl. rewrite IH. apply orb_true_r.
Qed.

Lemma includes_self (s : string) : includes s s = true.
Proof.
  pose proof (includes_middle "" s "") as Hm.
  by rewrite append_nil_l, append_nil_r in Hm.
Qed.

Lemma split_head (sep : ascii) (text w : string) (ws : list string) :
  split sep text = w :: ws → ∃ b, text = w +:+ b.
Proof.
  revert w ws. induction text as [|c rest IH]; simpl; intros w ws Hs.
  - injection Hs as <- _. by exists "".
  - case_bool_decide.
    + injection Hs as <- _. by exists (String c rest).
    + destruct (split sep rest) as [|w0 ws0] eqn:E.
      * injection Hs as <- _. by exists rest.
      * injection Hs as <- _. destruct (IH w0 ws0 eq_refl) as [b ->].
        by exists b.
Qed.

Lemma split_elem_middle (sep : ascii) (text w : string) :
  w ∈ split sep text → ∃ a b, text = a +:+ w +:+ b.
Proof.
  induction text as [|c rest IH]; simpl; intros Hw.
  - apply list_elem_of_singleton in Hw as ->. by exists "", "".
  - case_bool_decide.
    + apply elem_of_cons in Hw as [-> | Hw].
      * by exists "", (String c rest).
      * destruct (IH Hw) as (a & b & ->). by exists (String c a), b.
    + destruct (split sep rest) as [|w0 ws0] eqn:E.
      * apply list_elem_of_singleton in Hw as ->. by exists "", rest.
      * apply elem_of_cons in Hw as [-> | Hw].
        -- destruct (split_head _ _ _ _ E) as [b ->]. by exists "", b.
        -- destruct IH as (a & b & ->); [by right |]. by exists (String c a), b.
Qed.

(** A member of the list that splitting gives occurs in the text. *)
Lemma split_elem_includes (sep : ascii) (text w : string) :
  w ∈ split sep text → includes text w = true.
Proof.
  intros Hw. destruct (split_elem_middle _ _ _ Hw) as (a & b & ->).
  apply includes_middle.
Qed.

(** ** Scans that are turned away *)

Section Rejections.
Context `{Frappe} (sc : scanner).

(** A scan whose serial number occurs in the text of the matched line's
    serial field is rejected after the warning, and nothing else has
    happened. *)
Lemma update_table_duplicate answer data st i serials :
  Spec.matched_line sc data st = Some i →
  get (row_at i st) (serial_no_field sc) = VStr serials →
  includes serials (to_str (get data "serial_no")) = true →
  update_table sc answer data st =
    (Rejected,
     clean_up (show_alert (SerialNoAlreadyAdded (get data "serial_no")) "orange"
                 (set_trigger_from_barcode_scanner true st))).
Proof.
  unfold Spec.matched_line, update_table. intros Hm Hrow Hinc. cbn [doc].
  change (doc (set_trigger_from_barcode_scanner true st)) with (doc st).
  rewrite Hm. unfold is_duplicate_serial_no.
  change (row_at i (set_trigger_from_barcode_scanner true st)) with (row_at i st).
  by rewrite Hrow, Hinc.
Qed.

(** A scan for which the matcher gives no line, while rows may not be
    added, is rejected after the warning, and nothing else has
    happened. *)
Lemma update_table_row_limit answer data st :
  Spec.matched_line sc data st = None →
  dont_allow_new_row sc = true →
  update_table sc answer data st =
    (Rejected,
     clean_up (show_alert (MaximumQuantityScanned (get data "item_code")) "red"
                 (set_trigger_from_barcode_scanner true st))).
Proof.
  unfold Spec.matched_line, update_table. intros Hm Hpol.
  change (doc (set_trigger_from_barcode_scanner true st)) with (doc st).
  by rewrite Hm, Hpol.
Qed.

End Rejections.

(** ** What a step leaves alone *)

Section Frames.
Context `{Frappe} (sc : scanner).

Lemma get_union_l (a b : row) k v : a !! k = Some v → get (a ∪ b) k = v.
Proof. intros Ha. unfold get. by rewrite (lookup_union_Some_l _ _ _ _ Ha). Qed.

Lemma get_union_r (a b : row) k : a !! k = None → get (a ∪ b) k = get b k.
Proof. intros Ha. unfold get. by rewrite lookup_union_r. Qed.

Lemma get_insert_eq (r : row) k v : get (<[k := v]> r) k = v.
Proof. unfold get. by rewrite lookup_insert_eq. Qed.

Lemma get_insert_ne (r : row) k k' v : k ≠ k' → get (<[k := v]> r) k' = get r k'.
Proof. intros. unfold get. by rewrite lookup_insert_ne. Qed.

Lemma row_at_set_value i fields st :
  is_Some (items (doc st) !! i) →
  row_at i (set_value i fields st) = fields ∪ row_at i st.
Proof.
  intros [r Hr]. unfold row_at, set_value. cbn.
  by rewrite list_lookup_alter_eq, Hr.
Qed.

Lemma row_at_set_value_ne i j fields st :
  i ≠ j → row_at j (set_value i fields st) = row_at j st.
Proof.
  intros. unfold row_at, set_value. cbn. by rewrite list_lookup_alter_ne.
Qed.

Lemma get_set_value_other i j fields st k :
  fields !! k = None →
  get (row_at j (set_value i fields st)) k = get (row_at j st) k.
Proof.
  intros Hk. destruct (decide (i = j)) as [<- |]; [| by rewrite row_at_set_value_ne].
  destruct (items (doc st) !! i) as [r|] eqn:Hr.
  - rewrite row_at_set_value by eauto. by apply get_union_r.
  - unfold row_at, set_value. cbn. by rewrite list_lookup_alter_eq, Hr.
Qed.

Lemma same_but_doc fs st st' : doc st' = doc st → Spec.same_but fs st st'.
Proof. intros Hd. unfold Spec.same_but, row_at. by rewrite Hd. Qed.

Lemma same_but_trans fs st1 st2 st3 :
  Spec.same_but fs st1 st2 → Spec.same_but fs st2 st3 → Spec.same_but fs st1 st3.
Proof.
  intros (Hh1 & Hl1 & Hg1) (Hh2 & Hl2 & Hg2). repeat split; [congruence.. |].
  intros j k Hk. by rewrite Hg2, Hg1.
Qed.

Lemma same_but_set_value fs i fields st :
  (∀ k, is_Some (fields !! k) → k ∈ fs) →
  Spec.same_but fs st (set_value i fields st).
Proof.
  intros Hdom. repeat split.
  - cbn. apply length_alter.
  - intros j k Hk. apply get_set_value_other.
    destruct (fields !! k) eqn:E; [|done]. exfalso. apply Hk, Hdom. eauto.
Qed.

Lemma same_but_write fs i f v st :
  f ∈ fs → Spec.same_but fs st (set_value i {[f := v]} st).
Proof.
  intros Hf. apply same_but_set_value. intros k [x Hx].
  apply lookup_singleton_Some in Hx as [<- _]. done.
Qed.

Lemma same_but_set_barcode_uom fs i uom st :
  uom_field sc ∈ fs → Spec.same_but fs st (set_barcode_uom sc i uom st).
Proof.
  intros. unfold set_barcode_uom.
  destruct (_ && _); [by apply same_but_write | by apply same_but_doc].
Qed.

Lemma same_but_set_serial_no fs i serial_no st :
  serial_no_field sc ∈ fs → Spec.same_but fs st (set_serial_no sc i serial_no st).
Proof.
  intros. unfold set_serial_no.
  destruct (_ && _); [by apply same_but_write | by apply same_but_doc].
Qed.

Lemma same_but_set_batch_no fs i batch_no st :
  batch_no_field sc ∈ fs → Spec.same_but fs st (set_batch_no sc i batch_no st).
Proof.
  intros. unfold set_batch_no.
  destruct (_ && _); [by apply same_but_write | by apply same_but_doc].
Qed.

Lemma same_but_set_barcode fs i barcode st :
  barcode_field sc ∈ fs → Spec.same_but fs st (set_barcode sc i barcode st).
Proof.
  intros. unfold set_barcode.
  destruct (_ && _); [by apply same_but_write | by apply same_but_doc].
Qed.

Lemma same_but_set_warehouse fs i st :
  get_warehouse_field sc (doc st) ∈ fs → Spec.same_but fs st (set_warehouse sc i st).
Proof.
  intros. unfold set_warehouse.
  repeat (case_match; try by apply same_but_doc). by apply same_but_write.
Qed.

Lemma same_but_increment fs i item_code v st :
  "item_code" ∈ fs → "use_serial_batch_fields" ∈ fs → qty_field sc ∈ fs →
  Spec.same_but fs st (increment sc i item_code v st).
Proof.
  intros Hi Hu Hq. unfold increment.
  eapply same_but_trans; [by apply (same_but_doc _ _ (set_trigger_from_barcode_scanner true st)) |].
  apply same_but_set_value. intros k [x Hx].
  destruct (decide (k = qty_field sc)) as [-> | Hne]; [done |].
  rewrite lookup_insert_ne in Hx by done.
  destruct (decide (k = "use_serial_batch_fields")) as [-> | Hne']; [done |].
  rewrite lookup_insert_ne in Hx by done.
  apply lookup_singleton_Some in Hx as [<- _]. done.
Qed.

End Frames.

(** ** The order of the field writes *)

Section Pipeline.
Context `{Frappe} (sc : scanner).

Lemma log_set_selector_trigger_flag data st :
  log (set_selector_trigger_flag data st) =
  log st ++
  (if negb ((truthy (get data "has_batch_no") && negb (truthy (get data "batch_no")))
            || (truthy (get data "has_serial_no")
                && negb (truthy (get data "serial_no"))))
   then [SetFlag "hide_serial_batch_dialog" true] else []).
Proof.
  unfold set_selector_trigger_flag. destruct (negb _); [done |].
  by rewrite app_nil_r.
Qed.

Lemma doc_set_selector_trigger_flag data st :
  doc (set_selector_trigger_flag data st) = doc st.
Proof. unfold set_selector_trigger_flag. by destruct (negb _). Qed.

Lemma log_set_barcode_uom i uom st :
  log (set_barcode_uom sc i uom st) =
  log st ++ Spec.write (truthy uom && has_field (uom_field sc)) i (uom_field sc) uom.
Proof.
  unfold set_barcode_uom, Spec.write. destruct (_ && _); [done |].
  by rewrite app_nil_r.
Qed.

Lemma log_set_serial_no i serial_no st :
  log (set_serial_no sc i serial_no st) =
  log st ++ Spec.write (truthy serial_no && has_field (serial_no_field sc)) i
              (serial_no_field sc)
              (new_serial_nos (get (row_at i st) (serial_no_field sc)) serial_no).
Proof.
  unfold set_serial_no, Spec.write. destruct (_ && _); [done |].
  by rewrite app_nil_r.
Qed.

Lemma log_set_batch_no i batch_no st :
  log (set_batch_no sc i batch_no st) =
  log st ++ Spec.write (truthy batch_no && has_field (batch_no_field sc)) i
              (batch_no_field sc) batch_no.
Proof.
  unfold set_batch_no, Spec.write. destruct (_ && _); [done |].
  by rewrite app_nil_r.
Qed.

Lemma log_set_barcode i barcode st :
  log (set_barcode sc i barcode st) =
  log st ++ Spec.write (truthy barcode && has_field (barcode_field sc)) i
              (barcode_field sc) barcode.
Proof.
  unfold set_barcode, Spec.write. destruct (_ && _); [done |].
  by rewrite app_nil_r.
Qed.

(** The warehouse step writes nothing, or the last scanned warehouse. *)
Lemma log_set_warehouse i st :
  ∃ warehouse,
    log (set_warehouse sc i st) =
    log st ++ match warehouse with
              | Some (f, w) => [SetValue i {[f := w]}]
              | None => []
              end
    ∧ ∀ f w, warehouse = Some (f, w) →
        has_last_scanned_warehouse sc = true
        ∧ w = get (header (doc st)) "last_scanned_warehouse"
        ∧ truthy w = true.
Proof.
  unfold set_warehouse.
  destruct (has_last_scanned_warehouse sc) eqn:Hl; simpl;
    [| exists None; by rewrite app_nil_r].
  destruct (truthy (get (header (doc st)) "last_scanned_warehouse")) eqn:Hw; simpl;
    [| exists None; by rewrite app_nil_r].
  destruct (_ || _); [exists None; by rewrite app_nil_r |].
  eexists (Some (_, _)). split; [done |]. intros f w [= <- <-]. done.
Qed.

Lemma log_show_scan_message idx existing qty st :
  ∃ shown,
    log (show_scan_message idx existing qty st) = log st ++ [ShowAlert shown "green"].
Proof. unfold show_scan_message. destruct existing; eauto. Qed.

(** The quantity step, when it completes: the prompt (in prompt mode),
    the scanner flag, one write that carries the quantity. *)
Lemma set_item_resolved answer i item_code barcode batch_no serial_no st qty st' :
  set_item sc answer i item_code barcode batch_no serial_no st = (Some qty, st') →
  ∃ item_data,
    log st' =
      log st ++ (if prompt_qty sc then [Prompt item_code] else [])
      ++ [SetFlag "trigger_from_barcode_scanner" true; SetValue i item_data]
    ∧ is_Some (item_data !! qty_field sc)
    ∧ st' = increment sc i item_code qty
              (if prompt_qty sc then emit (Prompt item_code) st else st).
Proof.
  unfold set_item. intros Hs.
  destruct (prompt_qty sc).
  - destruct answer as [v|]; [| done]. injection Hs as <- <-.
    eexists. split; [| split; [| done]].
    + unfold increment. cbn. by rewrite <- !app_assoc.
    + rewrite lookup_insert_eq. eauto.
  - destruct (frm_has_items st); [done |]. injection Hs as <- <-.
    eexists. split; [| split; [| done]].
    + unfold increment. cbn. by rewrite <- !app_assoc.
    + rewrite lookup_insert_eq. eauto.
Qed.

(** The writes before the warehouse step leave the parent document's
    own fields as they are. *)
Lemma header_before_warehouse data i st :
  header (doc (set_barcode sc i (get data "barcode")
                 (set_batch_no sc i (get data "batch_no")
                    (set_serial_no sc i (get data "serial_no")
                       (set_barcode_uom sc i (get data "uom")
                          (set_selector_trigger_flag data st))))))
  = header (doc st).
Proof.
  set (s1 := set_selector_trigger_flag data st).
  set (s2 := set_barcode_uom sc i (get data "uom") s1).
  set (s3 := set_serial_no sc i (get data "serial_no") s2).
  set (s4 := set_batch_no sc i (get data "batch_no") s3).
  assert (Hsame : Spec.same_but
    [uom_field sc; serial_no_field sc; batch_no_field sc; barcode_field sc] st
    (set_barcode sc i (get data "barcode") s4)).
  { apply (same_but_trans _ st s1);
      [apply same_but_doc, doc_set_selector_trigger_flag |].
    apply (same_but_trans _ s1 s2); [apply same_but_set_barcode_uom; listed |].
    apply (same_but_trans _ s2 s3); [apply same_but_set_serial_no; listed |].
    apply (same_but_trans _ s3 s4); [apply same_but_set_batch_no; listed |].
    apply same_but_set_barcode; listed. }
  by destruct Hsame.
Qed.

(** The tasks, when the quantity step completes, are the fixed
    sequence, and the flags end cleared. *)
Lemma update_table_tasks_resolved answer data i is_new_row st r st' :
  update_table_tasks sc answer data i is_new_row st = (Resolved r, st') →
  r = Some i
  ∧ trigger_from_barcode_scanner st' = false
  ∧ hide_serial_batch_dialog st' = false
  ∧ ∃ serials warehouse item_data shown,
      log st' = log st ++ Spec.fixed_sequence sc data i serials warehouse item_data shown
      ∧ (∃ existing, serials = new_serial_nos existing (get data "serial_no"))
      ∧ is_Some (item_data !! qty_field sc)
      ∧ ∀ f w, warehouse = Some (f, w) →
          has_last_scanned_warehouse sc = true
          ∧ w = get (header (doc st)) "last_scanned_warehouse"
          ∧ truthy w = true.
Proof.
  unfold update_table_tasks.
  set (s1 := set_selector_trigger_flag data st).
  set (s2 := set_barcode_uom sc i (get data "uom") s1).
  set (s3 := set_serial_no sc i (get data "serial_no") s2).
  set (s4 := set_batch_no sc i (get data "batch_no") s3).
  set (s5 := set_barcode sc i (get data "barcode") s4).
  set (s6 := set_warehouse sc i s5).
  destruct (set_item _ _ _ _ _ _ _ s6) as [[qty|] s7] eqn:Hitem; [| done].
  intros [= <- <-]. split; [done |]. split; [done |]. split; [done |].
  destruct (set_item_resolved _ _ _ _ _ _ _ _ _ Hitem) as (item_data & Hlog7 & Hqty & _).
  destruct (log_set_warehouse i s5) as (warehouse & Hlog6 & Hwh).
  destruct (log_show_scan_message (get (row_at i s7) "idx") (negb is_new_row) qty s7)
    as (shown & Hshown).
  exists (new_serial_nos (get (row_at i s2) (serial_no_field sc)) (get data "serial_no")),
    warehouse, item_data, shown.
  split; [| split; [by eexists | split; [done |]]].
  - unfold revert_selector_flag, clean_up. cbn. rewrite Hshown, Hlog7.
    change (log s6) with (log (set_warehouse sc i s5)). rewrite Hlog6.
    unfold s5, s4, s3, s2, s1.
    rewrite log_set_barcode, log_set_batch_no, log_set_serial_no,
      log_set_barcode_uom, log_set_selector_trigger_flag.
    unfold Spec.fixed_sequence, Spec.writes_before_quantity,
      Spec.quantity_and_clearing.
    by rewrite <- !app_assoc.
  - intros f w Hf. destruct (Hwh f w Hf) as (Hl & -> & Ht). split; [done |].
    assert (Hhead : header (doc s5) = header (doc st)); [| by rewrite <- Hhead].
    assert (Hsame : Spec.same_but
      [uom_field sc; serial_no_field sc; batch_no_field sc; barcode_field sc] st s5).
    { apply (same_but_trans _ st s1);
        [apply same_but_doc, doc_set_selector_trigger_flag |].
      apply (same_but_trans _ s1 s2); [apply same_but_set_barcode_uom; listed |].
      apply (same_but_trans _ s2 s3); [apply same_but_set_serial_no; listed |].
      apply (same_but_trans _ s3 s4); [apply same_but_set_batch_no; listed |].
      apply same_but_set_barcode; listed. }
    by destruct Hsame.
Qed.

(** The quantity step, when it waits: the prompt or the dialog is
    shown, and nothing is written. *)
Lemma set_item_pending answer i item_code barcode batch_no serial_no st st' :
  set_item sc answer i item_code barcode batch_no serial_no st = (None, st') →
  log st' = log st ++ (if prompt_qty sc then [Prompt item_code] else [DialogShow])
  ∧ doc st' = doc st
  ∧ trigger_from_barcode_scanner st' = trigger_from_barcode_scanner st
  ∧ hide_serial_batch_dialog st' = hide_serial_batch_dialog st.
Proof.
  unfold set_item. intros Hs. destruct (prompt_qty sc).
  - destruct answer as [v|]; [done |]. by injection Hs as <-.
  - destruct (frm_has_items st); [| done]. by injection Hs as <-.
Qed.

(** The tasks, when the quantity step waits, are the writes before the
    quantity step and the prompt or the dialog; they never end
    rejected. *)
Lemma update_table_tasks_waiting answer data i is_new_row st o st' :
  update_table_tasks sc answer data i is_new_row st = (o, st') →
  o ≠ Rejected
  ∧ (o = Pending →
     ∃ serials warehouse,
       log st' =
         log st ++ Spec.writes_before_quantity sc data i serials warehouse
         ++ Spec.quantity_step_waiting sc data
       ∧ (∃ existing, serials = new_serial_nos existing (get data "serial_no"))
       ∧ ∀ f w, warehouse = Some (f, w) →
           has_last_scanned_warehouse sc = true
           ∧ w = get (header (doc st)) "last_scanned_warehouse"
           ∧ truthy w = true).
Proof.
  unfold update_table_tasks.
  set (s1 := set_selector_trigger_flag data st).
  set (s2 := set_barcode_uom sc i (get data "uom") s1).
  set (s3 := set_serial_no sc i (get data "serial_no") s2).
  set (s4 := set_batch_no sc i (get data "batch_no") s3).
  set (s5 := set_barcode sc i (get data "barcode") s4).
  set (s6 := set_warehouse sc i s5).
  destruct (set_item _ _ _ _ _ _ _ s6) as [[qty|] s7] eqn:Hitem.
  { intros [= <- <-]. split; done. }
  intros [= <- <-]. split; [done |]. intros _.
  destruct (set_item_pending _ _ _ _ _ _ _ _ Hitem) as (Hlog7 & _).
  destruct (log_set_warehouse i s5) as (warehouse & Hlog6 & Hwh).
  exists (new_serial_nos (get (row_at i s2) (serial_no_field sc)) (get data "serial_no")),
    warehouse.
  split; [| split; [by eexists |]].
  - rewrite Hlog7. change (log s6) with (log (set_warehouse sc i s5)). rewrite Hlog6.
    unfold s5, s4, s3, s2, s1.
    rewrite log_set_barcode, log_set_batch_no, log_set_serial_no,
      log_set_barcode_uom, log_set_selector_trigger_flag.
    unfold Spec.writes_before_quantity, Spec.quantity_step_waiting.
    by rewrite <- !app_assoc.
  - intros f w Hf. destruct (Hwh f w Hf) as (Hl & -> & Ht). split; [done |].
    split; [| done]. unfold s5, s4, s3, s2, s1. by rewrite header_before_warehouse.
Qed.

(** A scan that is not rejected reached the tasks, for a line that is
    in the table: the matched line, or a new last line. *)
Lemma update_table_reaches_tasks answer data st o st' :
  update_table sc answer data st = (o, st') → o ≠ Rejected →
  ∃ i is_new_row st0 setup,
    update_table_tasks sc answer data i is_new_row st0 = (o, st')
    ∧ log st0 = log st ++ setup
    ∧ (∀ e, e ∈ setup → ¬ Spec.is_field_write e)
    ∧ header (doc st0) = header (doc st)
    ∧ is_Some (items (doc st0) !! i)
    ∧ (Spec.matched_line sc data st = Some i ∧ doc st0 = doc st
       ∨ Spec.matched_line sc data st = None
         ∧ i = length (items (doc st))
         ∧ ∃ r, items (doc st0) = items (doc st) ++ [r]).
Proof.
  unfold update_table, Spec.matched_line. intros Hrun Hnot.
  change (doc (set_trigger_from_barcode_scanner true st)) with (doc st) in Hrun.
  destruct (get_row_to_modify_on_scan sc (doc st) _ _ _ _ _) as [i|] eqn:Hfound.
  - destruct (is_duplicate_serial_no _ _ _ _) as [[[] s0]|] eqn:Hdup;
      [by injection Hrun as <- | | by injection Hrun as <-].
    assert (s0 = set_trigger_from_barcode_scanner true st) as ->.
    { unfold is_duplicate_serial_no in Hdup.
      repeat case_match; by simplify_eq. }
    destruct (found_row sc _ _ _ _ _ _ i Hfound) as (r & Hr & _).
    eexists i, _, _, [_]. split; [exact Hrun |].
    split; [reflexivity |]. split.
    { intros e He. apply list_elem_of_singleton in He as ->. by intros []. }
    split; [done |]. split; [by eexists |]. by left.
  - destruct (dont_allow_new_row sc); [by injection Hrun as <- |].
    cbn in Hrun.
    destruct (is_duplicate_serial_no _ _ _ _) as [[[] s0]|] eqn:Hdup;
      [by injection Hrun as <- | | by injection Hrun as <-].
    match type of Hdup with
    | is_duplicate_serial_no _ _ _ ?s = _ => assert (s0 = s) as ->
    end.
    { unfold is_duplicate_serial_no in Hdup.
      repeat case_match; by simplify_eq. }
    eexists (length (items (doc st))), _, _, [_; _; _].
    split; [exact Hrun |]. split; [cbn; by rewrite <- !app_assoc |]. split.
    { intros e He. rewrite !elem_of_cons in He.
      destruct He as [-> | [-> | [-> | He]]]; [by intros [].. |].
      by apply not_elem_of_nil in He. }
    split; [done |]. split.
    { cbn. rewrite lookup_app_r by done. rewrite Nat.sub_diag. by eexists. }
    right. split; [done |]. split; [done |]. by eexists.
Qed.

(** X23.  The order of the writes of a scan that is not rejected:
    after the setup, which writes no field, [update_table] logs the
    selector flag, the UOM, the serial number, the batch number, the
    barcode and the warehouse of the context, in this order, on the one
    line the scan works on.  When the quantity step completes, the
    quantity write and the clearing of the transient flags follow, and
    the scan resolves with both flags off; when it waits for the
    operator, the prompt or the dialog is all that follows. *)
Theorem update_table_fixed_sequence answer data st o st' :
  update_table sc answer data st = (o, st') → o ≠ Rejected →
  ∃ setup serials warehouse,
    (∀ e, e ∈ setup → ¬ Spec.is_field_write e)
    ∧ (∃ existing, serials = new_serial_nos existing (get data "serial_no"))
    ∧ (∀ f w, warehouse = Some (f, w) →
         has_last_scanned_warehouse sc = true
         ∧ w = get (header (doc st)) "last_scanned_warehouse"
         ∧ truthy w = true)
    ∧ match o with
      | Resolved r =>
          r = Some (Spec.target_line sc data st)
          ∧ trigger_from_barcode_scanner st' = false
          ∧ hide_serial_batch_dialog st' = false
          ∧ ∃ item_data shown,
              is_Some (item_data !! qty_field sc)
              ∧ log st' =
                  log st ++ setup
                  ++ Spec.writes_before_quantity sc data (Spec.target_line sc data st)
                       serials warehouse
                  ++ Spec.quantity_and_clearing sc data (Spec.target_line sc data st)
                       item_data shown
      | _ =>
          log st' =
            log st ++ setup
            ++ Spec.writes_before_quantity sc data (Spec.target_line sc data st)
                 serials warehouse
            ++ Spec.quantity_step_waiting sc data
      end.
Proof.
  intros Hrun Hnot.
  destruct (update_table_reaches_tasks _ _ _ _ _ Hrun Hnot)
    as (j & is_new_row & st0 & setup & Htasks & Hlog0 & Hsetup & Hhead & _ & Hline).
  assert (Hj : Spec.target_line sc data st = j).
  { unfold Spec.target_line. by destruct Hline as [[-> _] | (-> & -> & _)]. }
  rewrite Hj. destruct o as [r| |]; [| done |].
  - destruct (update_table_tasks_resolved _ _ _ _ _ _ _ Htasks)
      as (-> & Htrig & Hhide & serials & warehouse & item_data & shown
          & Hlog & Hserials & Hqty & Hwh).
    exists setup, serials, warehouse.
    split; [done |]. split; [done |]. split.
    { intros f w Hf. rewrite <- Hhead. exact (Hwh f w Hf). }
    split; [done |]. split; [done |]. split; [done |].
    exists item_data, shown. split; [done |].
    rewrite Hlog, Hlog0. unfold Spec.fixed_sequence. by rewrite <- !app_assoc.
  - destruct (update_table_tasks_waiting _ _ _ _ _ _ _ Htasks) as (_ & Hwait).
    destruct (Hwait eq_refl) as (serials & warehouse & Hlog & Hserials & Hwh).
    exists setup, serials, warehouse.
    split; [done |]. split; [done |]. split.
    { intros f w Hf. rewrite <- Hhead. exact (Hwh f w Hf). }
    rewrite Hlog, Hlog0. by rewrite <- !app_assoc.
Qed.

End Pipeline.

(** ** Duplicate serial numbers and the row limit *)

Lemma includes_app_r (a b s : string) :
  includes b s = true → includes (a +:+ b) s = true.
Proof.
  intros Hb. induction a as [|c a IH]; [done |].
  rewrite append_cons. simpl. rewrite IH. apply orb_true_r.
Qed.

Lemma num_lt_irrefl (x : num) : num_lt x x = false.
Proof. destruct x; [| done]. simpl. apply bool_decide_eq_false. lia. Qed.

Section TurnedAway.
Context `{Frappe} (sc : scanner).

Lemma new_serial_nos_includes existing s :
  ∃ text, new_serial_nos existing (VStr s) = VStr text ∧ includes text s = true.
Proof.
  unfold new_serial_nos. destruct (truthy existing); eexists; (split; [done |]).
  - simpl. apply includes_app_r, includes_app_r, includes_self.
  - apply includes_self.
Qed.

Lemma same_but_set_item fs answer i item_code barcode batch_no serial_no st :
  "item_code" ∈ fs → "use_serial_batch_fields" ∈ fs → qty_field sc ∈ fs →
  Spec.same_but fs st
    (set_item sc answer i item_code barcode batch_no serial_no st).2.
Proof.
  intros Hi Hu Hq. unfold set_item. destruct (prompt_qty sc).
  - destruct answer as [v|]; [| by apply same_but_doc].
    apply (same_but_trans _ st (emit (Prompt item_code) st));
      [by apply same_but_doc | by apply same_but_increment].
  - destruct (frm_has_items st); [by apply same_but_doc |].
    by apply same_but_increment.
Qed.

Lemma doc_update_table_tasks answer data i is_new_row st :
  let s6 :=
    set_warehouse sc i
      (set_barcode sc i (get data "barcode")
         (set_batch_no sc i (get data "batch_no")
            (set_serial_no sc i (get data "serial_no")
               (set_barcode_uom sc i (get data "uom")
                  (set_selector_trigger_flag data st))))) in
  doc (update_table_tasks sc answer data i is_new_row st).2 =
  doc (set_item sc answer i (get data "item_code") (get data "barcode")
         (get data "batch_no") (get data "serial_no") s6).2.
Proof.
  intros s6. unfold update_table_tasks. fold s6.
  destruct (set_item _ _ _ _ _ _ _ _) as [[?|] ?]; [destruct is_new_row |];
    reflexivity.
Qed.

Lemma same_but_is_Some fs st st' i :
  Spec.same_but fs st st' →
  is_Some (items (doc st) !! i) → is_Some (items (doc st') !! i).
Proof.
  intros (_ & Hlen & _). rewrite !lookup_lt_is_Some. by rewrite Hlen.
Qed.

(** After the tasks, the scanned serial number stands in the serial
    field of the line. *)
Lemma tasks_serial_recorded answer data i is_new_row st s :
  is_Some (items (doc st) !! i) →
  get data "serial_no" = VStr s → s ≠ "" →
  has_field (serial_no_field sc) = true →
  Spec.serial_field_kept sc →
  ∃ text,
    get (row_at i (update_table_tasks sc answer data i is_new_row st).2)
      (serial_no_field sc) = VStr text
    ∧ includes text s = true.
Proof.
  intros Hi Hs Hne Hfield [Hkept Hwh].
  set (s1 := set_selector_trigger_flag data st).
  set (s2 := set_barcode_uom sc i (get data "uom") s1).
  set (s3 := set_serial_no sc i (get data "serial_no") s2).
  set (s4 := set_batch_no sc i (get data "batch_no") s3).
  set (s5 := set_barcode sc i (get data "barcode") s4).
  set (s6 := set_warehouse sc i s5).
  set (s7 := (set_item sc answer i (get data "item_code") (get data "barcode")
                (get data "batch_no") (get data "serial_no") s6).2).
  assert (Hi2 : is_Some (items (doc s2) !! i)).
  { apply (same_but_is_Some [uom_field sc] st); [| done].
    apply (same_but_trans _ st s1);
      [apply same_but_doc, doc_set_selector_trigger_flag |].
    apply same_but_set_barcode_uom. listed. }
  destruct (new_serial_nos_includes (get (row_at i s2) (serial_no_field sc)) s)
    as (text & Htext & Hinc).
  exists text. split; [| done].
  assert (Hrow3 : get (row_at i s3) (serial_no_field sc) = VStr text).
  { unfold s3, set_serial_no. rewrite Hs, Hfield. simpl.
    rewrite bool_decide_eq_true_2 by done. simpl.
    rewrite row_at_set_value by done. rewrite Htext.
    apply get_union_l, lookup_singleton_eq. }
  transitivity (get (row_at i s3) (serial_no_field sc)); [| exact Hrow3].
  assert (Hsame : Spec.same_but
    [batch_no_field sc; barcode_field sc; get_warehouse_field sc (doc s5);
     "item_code"; "use_serial_batch_fields"; qty_field sc] s3 s7).
  { apply (same_but_trans _ s3 s4); [apply same_but_set_batch_no; listed |].
    apply (same_but_trans _ s4 s5); [apply same_but_set_barcode; listed |].
    apply (same_but_trans _ s5 s6); [apply same_but_set_warehouse; listed |].
    apply same_but_set_item; listed. }
  destruct Hsame as (_ & _ & Hget).
  unfold row_at at 1. rewrite doc_update_table_tasks. fold s1 s2 s3 s4 s5 s6 s7.
  apply Hget. rewrite !elem_of_cons. rewrite !elem_of_cons in Hkept.
  intros [E | [E | [Hw | [E | [E | [E | Hnil]]]]]]; try (apply Hkept; tauto).
  by apply (Hwh (doc s5)).
Qed.

Lemma serial_list_includes r s :
  s ∈ Spec.serial_list sc r →
  ∃ text, get r (serial_no_field sc) = VStr text ∧ includes text s = true.
Proof.
  unfold Spec.serial_list. destruct (get r (serial_no_field sc)) as [| | |text];
    try (intros Hs; by apply not_elem_of_nil in Hs).
  intros Hs. exists text. split; [done |]. by apply (split_elem_includes _ _ _ Hs).
Qed.

(** The rejection of a duplicate, with what is left behind. *)
Lemma update_table_duplicate_outcome answer data st i text :
  Spec.matched_line sc data st = Some i →
  get (row_at i st) (serial_no_field sc) = VStr text →
  includes text (to_str (get data "serial_no")) = true →
  ∃ st',
    update_table sc answer data st = (Rejected, st')
    ∧ doc st' = doc st
    ∧ log st' =
        log st ++ [SetFlag "trigger_from_barcode_scanner" true;
                   Spec.duplicate_serial_warning (get data "serial_no"); CleanUp].
Proof.
  intros Hm Hrow Hinc. eexists. split; [by eapply update_table_duplicate |].
  split; [done |]. cbn. by rewrite <- !app_assoc.
Qed.

(** C3.  A scan whose serial number is in the matched line's serial
    list is rejected before any field write: the document is as it
    was, and all that happened is the scanner flag, the orange warning
    and the clean-up.  [process_scan] turns the rejection into its own
    rejection, after the warning.  On a table that has the serial
    number field, after a scan of a serial number that was not
    rejected, a second scan of it against the same line is rejected in
    this way. *)
Theorem duplicate_serial_rejected :
  (∀ answer data st i s,
     Spec.matched_line sc data st = Some i →
     get data "serial_no" = VStr s →
     s ∈ Spec.serial_list sc (row_at i st) →
     ∃ st',
       update_table sc answer data st = (Rejected, st')
       ∧ doc st' = doc st
       ∧ log st' =
           log st ++ [SetFlag "trigger_from_barcode_scanner" true;
                      Spec.duplicate_serial_warning (VStr s); CleanUp])
  ∧ (∀ answer st data i s,
       truthy (scan_barcode st) = true →
       scan_api (scan_barcode st) (get (header (doc st)) "set_warehouse")
         (get (header (doc st)) "company") = Some data →
       data ≠ ∅ → truthy (get data "warehouse") = false →
       Spec.matched_line sc data st = Some i →
       get data "serial_no" = VStr s →
       s ∈ Spec.serial_list sc (row_at i st) →
       ∃ st',
         process_scan sc answer st = (Rejected, st')
         ∧ doc st' = doc st
         ∧ Spec.duplicate_serial_warning (VStr s) ∈ log st')
  ∧ (∀ answer1 data1 st o st1 s answer2 data2,
       has_field (serial_no_field sc) = true →
       Spec.serial_field_kept sc →
       get data1 "serial_no" = VStr s → s ≠ "" →
       update_table sc answer1 data1 st = (o, st1) → o ≠ Rejected →
       get data2 "serial_no" = VStr s →
       Spec.matched_line sc data2 st1 = Some (Spec.target_line sc data1 st) →
       ∃ st2,
         update_table sc answer2 data2 st1 = (Rejected, st2)
         ∧ doc st2 = doc st1
         ∧ Spec.duplicate_serial_warning (VStr s) ∈ log st2).
Proof.
  split; [| split].
  - intros answer data st i s Hm Hs Hin.
    destruct (serial_list_includes _ _ Hin) as (text & Hrow & Hinc).
    rewrite <- Hs. apply (update_table_duplicate_outcome _ _ _ i text); [done.. |].
    by rewrite Hs.
  - intros answer st data i s Hinput Hapi Hdata Hwh Hm Hs Hin.
    destruct (serial_list_includes _ _ Hin) as (text & Hrow & Hinc).
    unfold process_scan. rewrite Hinput. cbn [negb doc header].
    change (header (doc (emit ClearScanField (with_scan_barcode (VStr "") st))))
      with (header (doc st)).
    rewrite Hapi, Hwh. rewrite bool_decide_eq_false_2 by done. cbn [orb andb].
    set (st0 := emit _ (emit ClearScanField _)).
    destruct (update_table_duplicate_outcome answer data st0 i text)
      as (st' & -> & Hdoc & Hlog); [done | done | by rewrite Hs |].
    eexists. split; [done |]. split.
    + unfold play_sound. by repeat case_match.
    + assert (Hin' : Spec.duplicate_serial_warning (VStr s) ∈ log st').
      { rewrite Hlog, <- Hs. apply elem_of_app. right. listed. }
      unfold play_sound. repeat case_match; try done.
      cbn. apply elem_of_app. by left.
  - intros answer1 data1 st o st1 s answer2 data2 Hfield Hkept Hs1 Hne Hrun Hnot
      Hs2 Hm.
    destruct (update_table_reaches_tasks _ _ _ _ _ _ Hrun Hnot)
      as (i & is_new_row & st0 & setup & Htasks & _ & _ & _ & Hi & Hline).
    assert (Htarget : Spec.target_line sc data1 st = i).
    { unfold Spec.target_line. by destruct Hline as [[-> _] | (-> & -> & _)]. }
    rewrite Htarget in Hm.
    destruct (tasks_serial_recorded answer1 data1 i is_new_row st0 s)
      as (text & Hrow & Hinc); [done.. |].
    rewrite Htasks in Hrow. cbn in Hrow.
    destruct (update_table_duplicate_outcome answer2 data2 st1 i text)
      as (st2 & Hrej & Hdoc & Hlog); [done | done | by rewrite Hs2 |].
    exists st2. split; [done |]. split; [done |].
    rewrite Hlog, <- Hs2. apply elem_of_app. right. listed.
Qed.

(** C10.  The duplicate test is a substring test on the text of the
    serial field: a scan whose serial number occurs anywhere in that
    text is rejected with the document as it was, and such a serial
    number need not be a member of the line's serial list (S1 occurs in
    S12). *)
Theorem duplicate_serial_is_substring_test :
  (∀ answer data st i text,
     Spec.matched_line sc data st = Some i →
     get (row_at i st) (serial_no_field sc) = VStr text →
     includes text (to_str (get data "serial_no")) = true →
     ∃ st',
       update_table sc answer data st = (Rejected, st')
       ∧ doc st' = doc st
       ∧ Spec.duplicate_serial_warning (get data "serial_no") ∈ log st')
  ∧ ∀ r, get r (serial_no_field sc) = VStr "S12" →
      includes "S12" "S1" = true ∧ "S1" ∉ Spec.serial_list sc r.
Proof.
  split.
  - intros answer data st i text Hm Hrow Hinc.
    destruct (update_table_duplicate_outcome answer data st i text)
      as (st' & Hrej & Hdoc & Hlog); [done.. |].
    exists st'. split; [done |]. split; [done |].
    rewrite Hlog. apply elem_of_app. right. listed.
  - intros r Hr. split; [done |]. unfold Spec.serial_list. rewrite Hr.
    cbn. intros Hin. apply list_elem_of_singleton in Hin. done.
Qed.

(** C6.  A scan for which the matcher gives no line, on a scanner that
    may not add rows, is rejected with the red warning and the document
    as it was.  So it is when the only line of the scanned item has its
    quantity at the maximum and no line is a placeholder: the table
    keeps its length. *)
Theorem row_limit_rejected :
  (∀ answer data st,
     Spec.matched_line sc data st = None →
     dont_allow_new_row sc = true →
     ∃ st',
       update_table sc answer data st = (Rejected, st')
       ∧ doc st' = doc st
       ∧ log st' =
           log st ++ [SetFlag "trigger_from_barcode_scanner" true;
                      Spec.row_limit_warning (get data "item_code"); CleanUp])
  ∧ (∀ answer data st i r,
       dont_allow_new_row sc = true →
       check_max_qty sc = true →
       items (doc st) !! i = Some r →
       flt (get r (qty_field sc)) = flt (get r (max_qty_key sc)) →
       (∀ j r', items (doc st) !! j = Some r' → j ≠ i →
          loose_eq (get r' "item_code") (get data "item_code") = false) →
       (∀ r', r' ∈ items (doc st) → truthy (get r' "item_code") = true) →
       ∃ st',
         update_table sc answer data st = (Rejected, st')
         ∧ length (items (doc st')) = length (items (doc st))
         ∧ Spec.row_limit_warning (get data "item_code") ∈ log st').
Proof.
  assert (Hgen : ∀ answer data st,
     Spec.matched_line sc data st = None →
     dont_allow_new_row sc = true →
     ∃ st',
       update_table sc answer data st = (Rejected, st')
       ∧ doc st' = doc st
       ∧ log st' =
           log st ++ [SetFlag "trigger_from_barcode_scanner" true;
                      Spec.row_limit_warning (get data "item_code"); CleanUp]).
  { intros answer data st Hm Hpol. eexists.
    split; [by apply update_table_row_limit |]. split; [done |].
    cbn. by rewrite <- !app_assoc. }
  split; [exact Hgen |].
  intros answer data st i r Hpol Hmax Hi Hcap Hothers Hnoph.
  destruct (Hgen answer data st) as (st' & Hrej & Hdoc & Hlog); [| done |].
  - apply found_none.
    + intros r' Hr' Hel. apply list_elem_of_lookup in Hr' as [j Hj].
      destruct (decide (j = i)) as [-> | Hji].
      * assert (r' = r) as -> by congruence.
        destruct Hel as (_ & _ & _ & Hlimit & _).
        apply check_max_qty_configured in Hmax as (f & Hf).
        specialize (Hlimit f Hf). rewrite <- (max_qty_configured_key sc f Hf) in Hlimit.
        rewrite Hcap, num_lt_irrefl in Hlimit. done.
      * destruct Hel as (Hitem & _). rewrite (Hothers j r' Hj Hji) in Hitem. done.
    + intros r' Hr' Hph. unfold Spec.placeholder in Hph.
      rewrite (Hnoph r' Hr') in Hph. done.
  - exists st'. split; [done |]. split; [by rewrite Hdoc |].
    rewrite Hlog. apply elem_of_app. right. listed.
Qed.

End TurnedAway.

(** ** The entry point *)

Section EntryPoint.
Context `{Frappe} (sc : scanner).

(** C9.  On an empty scan input, [process_scan] ends at once without a
    match: the scan field is cleared, the scan API is not called, no
    alert is shown and the document is as it was. *)
Theorem process_scan_empty_input answer st :
  truthy (scan_barcode st) = false →
  ∃ st',
    process_scan sc answer st = (Pending, st')
    ∧ doc st' = doc st
    ∧ log st' = log st ++ [ClearScanField].
Proof.
  intros Hempty. unfold process_scan. rewrite Hempty. cbn [negb].
  eexists. split; [done |]. done.
Qed.

End EntryPoint.

(** ** The warehouse context *)

Section WarehouseContext.
Context `{Frappe} (sc : scanner).

(** Up to the warehouse step, the tasks write the UOM, serial, batch
    and barcode fields only. *)
Lemma same_but_before_warehouse data i st :
  Spec.same_but
    [uom_field sc; serial_no_field sc; batch_no_field sc; barcode_field sc] st
    (set_barcode sc i (get data "barcode")
       (set_batch_no sc i (get data "batch_no")
          (set_serial_no sc i (get data "serial_no")
             (set_barcode_uom sc i (get data "uom")
                (set_selector_trigger_flag data st))))).
Proof.
  set (s1 := set_selector_trigger_flag data st).
  set (s2 := set_barcode_uom sc i (get data "uom") s1).
  set (s3 := set_serial_no sc i (get data "serial_no") s2).
  set (s4 := set_batch_no sc i (get data "batch_no") s3).
  apply (same_but_trans _ st s1);
    [apply same_but_doc, doc_set_selector_trigger_flag |].
  apply (same_but_trans _ s1 s2); [apply same_but_set_barcode_uom; listed |].
  apply (same_but_trans _ s2 s3); [apply same_but_set_serial_no; listed |].
  apply (same_but_trans _ s3 s4); [apply same_but_set_batch_no; listed |].
  apply same_but_set_barcode; listed.
Qed.

(** After the tasks, the line holds the last scanned warehouse. *)
Lemma tasks_warehouse_written answer data i is_new_row st wf w :
  is_Some (items (doc st) !! i) →
  has_last_scanned_warehouse sc = true →
  get (header (doc st)) "last_scanned_warehouse" = w → truthy w = true →
  Spec.warehouse_field_of_header sc →
  warehouse_field sc (doc st) = wf → wf ≠ "" → has_field wf = true →
  wf ∉ ["item_code"; "use_serial_batch_fields"; qty_field sc] →
  let st' := (update_table_tasks sc answer data i is_new_row st).2 in
  get (row_at i st') wf = w ∧ header (doc st') = header (doc st).
Proof.
  intros Hi Hlsw Hw Htruthy Hheader Hconst Hwf Hfield Hlater st'.
  pose proof (same_but_before_warehouse data i st) as Hsame5.
  set (s5 := set_barcode sc i (get data "barcode") _) in Hsame5.
  set (s6 := set_warehouse sc i s5).
  set (s7 := (set_item sc answer i (get data "item_code") (get data "barcode")
                (get data "batch_no") (get data "serial_no") s6).2).
  assert (Hdoc : doc st' = doc s7) by apply doc_update_table_tasks.
  assert (Hi5 : is_Some (items (doc s5) !! i)) by by eapply same_but_is_Some.
  destruct Hsame5 as (Hhead5 & _ & _).
  assert (Hconst5 : warehouse_field sc (doc s5) = wf).
  { by rewrite (Hheader (doc s5) (doc st)). }
  assert (Hs6 : s6 = set_value i {[wf := w]} s5).
  { unfold s6, set_warehouse, get_warehouse_field.
    rewrite Hlsw, Hhead5, Hw, Htruthy, Hconst5, Hfield. simpl.
    by rewrite bool_decide_eq_false_2. }
  assert (Hrow6 : get (row_at i s6) wf = w).
  { rewrite Hs6, row_at_set_value by done. apply get_union_l, lookup_singleton_eq. }
  assert (Hsame7 : Spec.same_but ["item_code"; "use_serial_batch_fields"; qty_field sc]
                     s6 s7) by (apply same_but_set_item; listed).
  destruct Hsame7 as (Hhead7 & _ & Hget7).
  unfold row_at. rewrite Hdoc. split.
  - fold (row_at i s7). by rewrite Hget7.
  - rewrite Hhead7, Hs6. cbn. exact Hhead5.
Qed.

(** C7.  On a form that has the last-scanned-warehouse field, a scan
    that the scan API classifies as a warehouse only sets
    [last_scanned_warehouse] and announces it: no line is touched, the
    matcher and the write pipeline are not entered.  With a warehouse in
    that field, every item scan that is not rejected, whether it
    completes or waits for the operator, leaves the warehouse in the
    warehouse field of the line it works on, on a table that has this
    field and whatever the line held there before; the context stays. *)
Theorem warehouse_scan_sets_context :
  (∀ answer st data w,
     truthy (scan_barcode st) = true →
     scan_api (scan_barcode st) (get (header (doc st)) "set_warehouse")
       (get (header (doc st)) "company") = Some data →
     get data "warehouse" = VStr w → w ≠ "" →
     has_last_scanned_warehouse sc = true →
     ∃ st',
       process_scan sc answer st = (Resolved None, st')
       ∧ items (doc st') = items (doc st)
       ∧ header (doc st') =
           <["last_scanned_warehouse" := VStr w]> (header (doc st))
       ∧ trigger_from_barcode_scanner st' = trigger_from_barcode_scanner st
       ∧ hide_serial_batch_dialog st' = hide_serial_batch_dialog st
       ∧ log st' =
           log st
           ++ [ClearScanField;
               ScanApiCall (scan_barcode st) (get (header (doc st)) "set_warehouse")
                 (get (header (doc st)) "company");
               FrmSetValue "last_scanned_warehouse" (VStr w);
               ShowAlert (WarehouseWillBeSet (VStr w)) "green"]
           ++ match success_sound sc with
              | Some s => if bool_decide (s ≠ "") then [PlaySound s] else []
              | None => []
              end)
  ∧ (∀ answer data st o st' wf w,
       has_last_scanned_warehouse sc = true →
       get (header (doc st)) "last_scanned_warehouse" = w → truthy w = true →
       Spec.warehouse_field_of_header sc →
       warehouse_field sc (doc st) = wf → wf ≠ "" → has_field wf = true →
       wf ∉ ["item_code"; "use_serial_batch_fields"; qty_field sc] →
       update_table sc answer data st = (o, st') → o ≠ Rejected →
       get (row_at (Spec.target_line sc data st) st') wf = w
       ∧ get (header (doc st')) "last_scanned_warehouse" = w
       ∧ ∀ r, o = Resolved r → r = Some (Spec.target_line sc data st)).
Proof.
  split.
  - intros answer st data w Hinput Hapi Hwh Hw Hlsw.
    assert (Hdata : data ≠ ∅).
    { intros ->. unfold get in Hwh. by rewrite lookup_empty in Hwh. }
    unfold process_scan, handle_warehouse_scan. rewrite Hinput. cbn [negb doc header].
    change (header (doc (emit ClearScanField (with_scan_barcode (VStr "") st))))
      with (header (doc st)).
    rewrite Hapi, Hwh, Hlsw. cbn [truthy].
    rewrite (bool_decide_eq_true_2 (w ≠ "")) by done.
    rewrite bool_decide_eq_false_2 by done. cbn [orb andb negb].
    eexists. split; [done |].
    unfold play_sound. destruct (success_sound sc) as [s|].
    + destruct (bool_decide (s ≠ "")); cbn; rewrite <- ?app_assoc; done.
    + cbn. rewrite <- ?app_assoc. done.
  - intros answer data st o st' wf w Hlsw Hw Htruthy Hheader Hconst Hwf Hfield Hlater
      Hrun Hnot.
    destruct (update_table_reaches_tasks _ _ _ _ _ _ Hrun Hnot)
      as (i & is_new_row & st0 & setup & Htasks & _ & _ & Hhead & Hi & Hline).
    assert (Htarget : Spec.target_line sc data st = i).
    { unfold Spec.target_line. by destruct Hline as [[-> _] | (-> & -> & _)]. }
    rewrite Htarget.
    destruct (tasks_warehouse_written answer data i is_new_row st0 wf w)
      as (Hrow & Hhead'); [done | done | by rewrite Hhead | done | done | | done.. |].
    { by rewrite (Hheader (doc st0) (doc st)). }
    rewrite Htasks in Hrow, Hhead'. cbn in Hrow, Hhead'.
    split; [done |]. split; [by rewrite Hhead', Hhead |].
    intros r ->.
    by destruct (update_table_tasks_resolved _ _ _ _ _ _ _ _ Htasks) as (-> & _).
Qed.

End WarehouseContext.

(** ** The scan dialog and the row split *)

Section RowSplit.
Context `{Frappe} (sc : scanner).

Lemma items_set_value i fields st :
  items (doc (set_value i fields st)) =
  <[i := row_at i (set_value i fields st)]> (items (doc st)).
Proof.
  unfold row_at. cbn. set (l := items (doc st)). set (f := λ r : row, fields ∪ r).
  rewrite list_lookup_alter_eq. destruct (l !! i) as [x|] eqn:Hx; cbn.
  - apply list_eq. intros j. destruct (decide (i = j)) as [E |].
    + subst j. rewrite list_lookup_alter_eq, Hx, list_lookup_insert_eq; [done |].
      by eapply lookup_lt_Some.
    + by rewrite list_lookup_alter_ne, list_lookup_insert_ne.
  - apply lookup_ge_None in Hx. rewrite list_insert_ge by done.
    apply list_eq. intros j. rewrite list_lookup_alter.
    case_decide; [subst j | done]. by rewrite (lookup_ge_None_2 l i).
Qed.

(** The three writes of the dialog's action change the line at [i]
    only, in the batch, barcode and serial fields only. *)
Lemma dialog_writes i batch_no barcode serial_no st :
  let st' :=
    set_serial_no sc i serial_no (set_barcode sc i barcode (set_batch_no sc i batch_no st)) in
  items (doc st') = <[i := row_at i st']> (items (doc st))
  ∧ remaining_qty st' = remaining_qty st
  ∧ Spec.same_but [batch_no_field sc; barcode_field sc; serial_no_field sc] st st'.
Proof.
  intros st'. split; [| split].
  - unfold st', set_serial_no, set_barcode, set_batch_no.
    repeat case_match; rewrite ?items_set_value, ?list_insert_insert_eq; try done.
    unfold row_at. symmetry. apply list_insert_id'. intros Hi.
    by destruct (lookup_lt_is_Some_2 _ _ Hi) as [x ->].
  - unfold st', set_serial_no, set_barcode, set_batch_no. by repeat case_match.
  - apply (same_but_trans _ st (set_batch_no sc i batch_no st));
      [apply same_but_set_batch_no; listed |].
    apply (same_but_trans _ _ (set_barcode sc i barcode (set_batch_no sc i batch_no st)));
      [apply same_but_set_barcode; listed |].
    apply same_but_set_serial_no; listed.
Qed.



End RowSplit.

(** ** The availability check of the point of sale *)

Section Availability.
Import PointOfSale.
Context `{Frappe}.

Lemma stock_queries_emit e st :
  stock_queries (emit e st) =
  stock_queries st + (if is_stock_query e then 1 else 0).
Proof.
  unfold stock_queries. cbn. rewrite filter_app, length_app. f_equal.
  destruct (is_stock_query e) eqn:He.
  - by rewrite filter_cons_True.
  - rewrite filter_cons_False; [done |]. by rewrite He.
Qed.

Lemma check_due_on_edit_allowed field v st :
  allow_negative_stock st = true → check_due_on_edit field v st = false.
Proof. intros Ha. unfold check_due_on_edit. rewrite Ha. apply andb_false_r. Qed.

Lemma check_due_on_add_allowed field v st :
  allow_negative_stock st = true → check_due_on_add field v st = false.
Proof. intros Ha. unfold check_due_on_add. rewrite Ha. apply andb_false_r. Qed.

Lemma stock_queries_with_items l st :
  stock_queries (with_items l st) = stock_queries st.
Proof. done. Qed.

Lemma stock_queries_with_item_stock_map m st :
  stock_queries (with_item_stock_map m st) = stock_queries st.
Proof. done. Qed.

(** Every availability check asks the service once. *)
Lemma stock_queries_check i qty_needed warehouse st :
  stock_queries (check_stock_availability i qty_needed warehouse st).2 =
  S (stock_queries st).
Proof.
  unfold check_stock_availability, get_available_stock.
  repeat case_match; cbn [snd];
    repeat rewrite ?stock_queries_emit, ?stock_queries_with_items,
      ?stock_queries_with_item_stock_map;
    cbn; lia.
Qed.

(** With negative stock allowed in the stock settings, a cart update
    makes no availability query. *)
Lemma on_cart_update_allowed field v item st :
  allow_negative_stock st = true →
  stock_queries (on_cart_update field v item st) = stock_queries st.
Proof.
  intros Ha. unfold on_cart_update.
  assert (Hex : ∀ i v' fs st0, allow_negative_stock st0 = true →
    stock_queries (update_existing i field v' fs item st0).2 = stock_queries st0).
  { intros i v' fs st0 Ha0. unfold update_existing.
    rewrite check_due_on_edit_allowed by done.
    repeat case_match; simplify_eq/=; unfold set_value;
      repeat rewrite ?stock_queries_emit, ?stock_queries_with_items;
      cbn; lia. }
  assert (Hadd : ∀ v' st0, allow_negative_stock st0 = true →
    stock_queries (add_new field v' item st0).2 = stock_queries st0).
  { intros v' st0 Ha0. unfold add_new, check_serial_no_availablilty,
      raise_customer_selection_alert, add_child.
    repeat (case_match; simplify_eq/=;
            rewrite ?check_due_on_add_allowed in * by done);
      simplify_eq/=;
      repeat rewrite ?stock_queries_emit, ?stock_queries_with_items;
      cbn; lia. }
  set (st0 := emit Freeze st).
  assert (Ha0 : allow_negative_stock st0 = true) by done.
  assert (Hq0 : stock_queries st0 = stock_queries st).
  { unfold st0. rewrite stock_queries_emit. cbn. lia. }
  destruct (get_item_from_frm item st0) as [i|].
  - destruct (bool_decide (row_at i st0 = ∅)).
    + specialize (Hadd
        (if bool_decide (field = "qty") && strict_eq v (VStr "+1")
         then VNum (num_add (flt (get (row_at i st0) "qty")) (flt v)) else v) st0 Ha0).
      destruct (add_new _ _ _ _) as [[|e] s]; cbn [snd] in Hadd;
        repeat rewrite stock_queries_emit; cbn; lia.
    + specialize (Hex i
        (if bool_decide (field = "qty") && strict_eq v (VStr "+1")
         then VNum (num_add (flt (get (row_at i st0) "qty")) (flt v)) else v)
        (bool_decide (field = "qty") && strict_eq v (VStr "+1")) st0 Ha0).
      destruct (update_existing _ _ _ _ _ _) as [[|e] s]; cbn [snd] in Hex;
        repeat rewrite stock_queries_emit; cbn; lia.
  - specialize (Hadd
      (if bool_decide (field = "qty") && strict_eq v (VStr "+1")
       then VNum (num_add (flt (get ∅ "qty")) (flt v)) else v) st0 Ha0).
    destruct (add_new _ _ _ _) as [[|e] s]; cbn [snd] in Hadd;
      repeat rewrite stock_queries_emit; cbn; lia.
Qed.

Lemma clear_doc_removes (name : string) rows r :
  r ∈ clear_doc (VStr name) rows → get r "name" ≠ VStr name.
Proof.
  unfold clear_doc. intros Hr. apply elem_of_lookup_imap_1 in Hr as (j & y & -> & Hy).
  apply list_elem_of_lookup_2, list_elem_of_filter in Hy as [Hne _].
  unfold get. rewrite lookup_insert_ne by done. fold (get y "name").
  intros E. rewrite E in Hne. cbn in Hne. by rewrite bool_decide_eq_true_2 in Hne.
Qed.

Lemma clear_doc_shorter (name : string) rows r :
  r ∈ rows → get r "name" = VStr name →
  length (clear_doc (VStr name) rows) < length rows.
Proof.
  intros Hr Hname. unfold clear_doc. rewrite length_imap.
  apply (length_filter_lt _ _ r); [done |]. rewrite Hname. cbn.
  by rewrite bool_decide_eq_true_2.
Qed.

(** Apart from their numbering, the rows that [clear_doc] leaves are
    the rows with another name, in their order, and they are numbered
    from 1. *)
Lemma clear_doc_keeps name rows :
  delete "idx" <$> clear_doc name rows
  = delete "idx" <$> filter (λ r, loose_eq (get r "name") name = false) rows
  ∧ ∀ j r, clear_doc name rows !! j = Some r →
      get r "idx" = VNum (Fin (Z.of_nat j + 1)).
Proof.
  unfold clear_doc. set (kept := filter _ rows). split.
  - apply list_eq. intros j. rewrite !list_lookup_fmap, list_lookup_imap.
    destruct (kept !! j) as [r|]; [| done]. cbn. by rewrite delete_insert_eq.
  - intros j r Hj. rewrite list_lookup_imap in Hj.
    destruct (kept !! j) as [r0|]; [| done]. injection Hj as <-.
    apply get_insert_eq.
Qed.

(** C5.  The availability check, on a line with its item code, stock
    UOM and line id and for a named warehouse: if the reply allows
    negative stock it succeeds and touches no line; otherwise a
    non-stock item succeeds whatever the available quantity, a stock
    item with nothing available fails and its line is removed from the
    order, every line with another id being kept in its place in the
    order and the lines numbered again, and a stock item with less than
    the needed quantity fails with every line kept.  With negative stock
    allowed in the stock settings the check is not due and a cart update
    makes no availability query. *)
Theorem check_stock_availability_policy :
  (∀ i qty_needed wh st item_row ic uom nm,
     items st !! i = Some item_row →
     get item_row "item_code" = VStr ic →
     get item_row "stock_uom" = VStr uom →
     get item_row "name" = VStr nm →
     let reply := get_stock_availability st (VStr ic) (VStr wh) in
     let run := check_stock_availability i qty_needed (VStr wh) st in
     (is_negative_stock_allowed reply = true → run.1 = Ok ∧ items run.2 = items st)
     ∧ (is_negative_stock_allowed reply = false →
        (is_stock_item reply = false → run.1 = Ok ∧ items run.2 = items st)
        ∧ (is_stock_item reply = true →
           (∀ a, available_qty reply = Fin a → (a ≤ 0)%Z →
              run.1 = Thrown (NotAvailable ("<b>" +:+ ic +:+ "</b>")
                                ("<b>" +:+ wh +:+ "</b>"))
              ∧ (∀ r, r ∈ items run.2 → get r "name" ≠ VStr nm)
              ∧ length (items run.2) < length (items st)
              ∧ delete "idx" <$> items run.2
                = delete "idx" <$>
                    filter (λ r, loose_eq (get r "name") (VStr nm) = false) (items st)
              ∧ (∀ j r, items run.2 !! j = Some r →
                   get r "idx" = VNum (Fin (Z.of_nat j + 1))))
           ∧ (∀ a n, available_qty reply = Fin a → qty_needed = Fin n →
              (0 < a < n)%Z →
              (∃ e, run.1 = Thrown e) ∧ items run.2 = items st))))
  ∧ (∀ field v item st,
       allow_negative_stock st = true →
       check_due_on_edit field v st = false
       ∧ check_due_on_add field v st = false
       ∧ stock_queries (on_cart_update field v item st) = stock_queries st).
Proof.
  split.
  - intros i qty_needed wh st item_row ic uom nm Hi Hic Huom Hnm reply run.
    assert (Hrow : row_at i st = item_row) by (unfold row_at; by rewrite Hi).
    unfold run, check_stock_availability, get_available_stock.
    rewrite Hrow, Hic, Huom, Hnm. cbn [bold emit get_stock_availability]. fold reply.
    destruct (is_negative_stock_allowed reply) eqn:Hneg.
    { split; [done | intros; done]. }
    split; [done |]. intros _. split.
    + intros Hstock. rewrite Hstock.
      destruct (negb (num_lt (Fin 0) (available_qty reply))); [done |]. done.
    + intros Hstock. rewrite Hstock. split.
      * intros a Ha Hle. rewrite Ha. cbn [num_lt].
        rewrite bool_decide_eq_false_2 by lia. cbn.
        destruct (clear_doc_keeps (VStr nm) (items st)) as (Hkept & Hidx).
        split; [done |]. split; [| split; [| split; [exact Hkept | exact Hidx]]].
        -- intros r. apply clear_doc_removes.
        -- apply (clear_doc_shorter nm _ item_row); [| done].
           by eapply list_elem_of_lookup_2.
      * intros a n Ha -> Han. rewrite Ha. cbn [num_lt].
        rewrite bool_decide_eq_true_2 by lia. cbn [negb andb].
        rewrite bool_decide_eq_true_2 by lia. cbn. eauto.
  - intros field v item st Ha. split; [by apply check_due_on_edit_allowed |].
    split; [by apply check_due_on_add_allowed | by apply on_cart_update_allowed].
Qed.

(** C8.  Every availability check queries the service: it makes one
    remote query, stores the reply under its item and warehouse in the
    session map, leaves every other entry of the map in place, and its
    result is the same whatever the map held. *)
Theorem availability_check_always_queries i qty_needed warehouse st :
  let run := check_stock_availability i qty_needed warehouse st in
  let item_code := get (row_at i st) "item_code" in
  let reply := get_stock_availability st item_code warehouse in
  stock_queries run.2 = S (stock_queries st)
  ∧ (∃ of_item,
       item_stock_map run.2 !! to_str item_code = Some of_item
       ∧ of_item !! to_str warehouse = Some reply)
  ∧ (∀ a b x of_item,
       item_stock_map st !! a = Some of_item → of_item !! b = Some x →
       (a, b) ≠ (to_str item_code, to_str warehouse) →
       ∃ of_item', item_stock_map run.2 !! a = Some of_item' ∧ of_item' !! b = Some x)
  ∧ (∀ m,
       (check_stock_availability i qty_needed warehouse (with_item_stock_map m st)).1
       = run.1).
Proof.
  intros run item_code reply. split; [apply stock_queries_check |].
  assert (Hmap : item_stock_map run.2 =
    <[to_str item_code :=
        <[to_str warehouse := reply]>
          (default ∅ (item_stock_map st !! to_str item_code))]> (item_stock_map st)).
  { unfold run, check_stock_availability, get_available_stock.
    repeat case_match; reflexivity. }
  split; [| split].
  - rewrite Hmap. eexists. split; [apply lookup_insert_eq |]. apply lookup_insert_eq.
  - intros a b x of_item Ha Hb Hne. rewrite Hmap.
    destruct (decide (a = to_str item_code)) as [-> |].
    + eexists. split; [apply lookup_insert_eq |]. rewrite Ha. cbn.
      rewrite lookup_insert_ne; [done |]. congruence.
    + exists of_item. by rewrite lookup_insert_ne.
  - intros m. unfold run, check_stock_availability, get_available_stock.
    change (row_at i (with_item_stock_map m st)) with (row_at i st).
    cbn [emit with_item_stock_map get_stock_availability].
    repeat case_match; reflexivity.
Qed.

End Availability.

(** * The statements on the concrete form *)

Section Concrete.
#[local] Existing Instance Demo.frappe.

(** On a pick list with Stores as the last scanned warehouse, of three
    lines of item A, one picked in full, one to pick in Yard and one to
    pick in Stores, a scan of item A finds the third.  Of a line of
    batch LOT9 and a line without a batch, a scan of batch LOT7 finds
    the second; a scan without a batch finds the first. *)
Lemma get_row_to_modify_on_scan_first_eligible_witness :
  get_row_to_modify_on_scan Demo.picking_in_context Demo.three_of_a
    (VStr "A") VUndef VUndef VUndef VUndef = Some 2
  ∧ get_row_to_modify_on_scan Demo.plain Demo.two_batches
      (VStr "A") (VStr "LOT7") VUndef VUndef VUndef = Some 1
  ∧ get_row_to_modify_on_scan Demo.plain Demo.two_batches
      (VStr "A") VUndef VUndef VUndef VUndef = Some 0.
Proof.
  split; [| split].
  - destruct (get_row_to_modify_on_scan_first_eligible Demo.picking_in_context
                Demo.three_of_a (VStr "A") VUndef VUndef VUndef VUndef)
      as (Hfirst & _).
    apply (Hfirst 2 (Demo.to_pick "r3" "Stores" 1)).
    + reflexivity.
    + conditions.
    + intros [|[|j]] r' Hj Hlt; [| | lia]; injection Hj as <-.
      * intros (_ & _ & _ & Hcap & _).
        assert (Hfull : num_lt (flt (get (Demo.to_pick "r1" "Stores" 5) "picked_qty"))
                          (flt (get (Demo.to_pick "r1" "Stores" 5) "qty")) = true).
        { apply (Hcap "qty"). by repeat split. }
        vm_compute in Hfull. discriminate.
      * intros (_ & _ & _ & _ & _ & Hwarehouse).
        assert (Hsame : strict_eq (get (Demo.to_pick "r2" "Yard" 1) "warehouse")
                          (VStr "Stores") = true).
        { apply (Hwarehouse "warehouse").
          - by repeat split.
          - reflexivity.
          - reflexivity. }
        vm_compute in Hsame. discriminate.
  - destruct (get_row_to_modify_on_scan_first_eligible Demo.plain Demo.two_batches
                (VStr "A") (VStr "LOT7") VUndef VUndef VUndef) as (_ & _ & _ & Hpair).
    apply (Hpair Demo.no_batch Demo.other_batch 1).
    + right. split; reflexivity.
    + conditions.
    + reflexivity.
    + reflexivity.
    + decided.
    + decided.
    + decided.
  - destruct (get_row_to_modify_on_scan_first_eligible Demo.plain Demo.two_batches
                (VStr "A") VUndef VUndef VUndef VUndef) as (Hfirst & _).
    apply (Hfirst 0 Demo.other_batch).
    + reflexivity.
    + conditions.
    + intros j r' _ Hlt. lia.
Defined.

(** On a form with the last-scanned-warehouse field where no warehouse
    has been scanned, a scan of item A whose reply carries Stores as
    the item's default warehouse does not find the line of item A that
    is in Yard, although the line meets the six conditions with the
    last scanned warehouse as the warehouse of the context: the
    matcher compares the line's warehouse with the default warehouse.
    Without a default warehouse the line is found. *)
Lemma default_warehouse_is_compared :
  items Demo.one_line_in_yard !! 0 = Some Demo.in_yard
  ∧ get (header Demo.one_line_in_yard) "last_scanned_warehouse" = VUndef
  ∧ Spec.eligible_as_worded Demo.with_context Demo.one_line_in_yard
      (VStr "A") VUndef VUndef Demo.in_yard
  ∧ get_row_to_modify_on_scan Demo.with_context Demo.one_line_in_yard
      (VStr "A") VUndef VUndef VUndef (VStr "Stores") = None
  ∧ get_row_to_modify_on_scan Demo.with_context Demo.one_line_in_yard
      (VStr "A") VUndef VUndef VUndef VUndef = Some 0.
Proof.
  split; [reflexivity |]. split; [reflexivity |]. split; [conditions |].
  split; decided.
Qed.

(** A scan of a box of item A, with its serial number, batch and
    barcode, on the line of boxes, with Stores as the last scanned
    warehouse: the writes come in the fixed order and the flags end
    cleared. *)
Lemma update_table_fixed_sequence_witness :
  log (update_table Demo.with_context None Demo.box_of_a Demo.boxes_in_stores).2
  = log Demo.boxes_in_stores
    ++ [SetFlag "trigger_from_barcode_scanner" true;
        SetFlag "hide_serial_batch_dialog" true;
        SetValue 0 {["uom" := VStr "Box"]};
        SetValue 0 {["serial_no" := VStr "S1"]};
        SetValue 0 {["batch_no" := VStr "LOT7"]};
        SetValue 0 {["barcode" := VStr "4006381"]};
        SetValue 0 {["warehouse" := VStr "Stores"]};
        SetFlag "trigger_from_barcode_scanner" true;
        SetValue 0 (<["qty" := VNum (Fin 3)]>
                      (<["use_serial_batch_fields" := VNum (Fin 1)]>
                         {["item_code" := VStr "A"]}));
        ShowAlert (QtyIncreased (VNum (Fin 1)) (VNum (Fin 1))) "green";
        CleanUp;
        SetFlag "hide_serial_batch_dialog" false;
        SetFlag "trigger_from_barcode_scanner" false]
  ∧ ∃ setup serials warehouse item_data shown,
      (∀ e, e ∈ setup → ¬ Spec.is_field_write e)
      ∧ log (update_table Demo.with_context None Demo.box_of_a Demo.boxes_in_stores).2
        = log Demo.boxes_in_stores ++ setup
          ++ Spec.writes_before_quantity Demo.with_context Demo.box_of_a 0
               serials warehouse
          ++ Spec.quantity_and_clearing Demo.with_context Demo.box_of_a 0
               item_data shown.
Proof.
  split; [decided |].
  destruct (update_table_fixed_sequence Demo.with_context None Demo.box_of_a
              Demo.boxes_in_stores (Resolved (Some 0))
              (update_table Demo.with_context None Demo.box_of_a
                 Demo.boxes_in_stores).2)
    as (setup & serials & warehouse & Hsetup & _ & _ & _ & _ & _
        & item_data & shown & _ & Hlog).
  - decided.
  - discriminate.
  - by exists setup, serials, warehouse, item_data, shown.
Defined.

(** C2.  A scan of a box of item A on its line, on a form that marks
    its items as given: the UOM, serial number, batch number, barcode
    and warehouse are written in the fixed order, the scan dialog is
    shown, and the tasks stop there: the scan stays pending, nothing
    clears the transient flags, and both stay set.  So it is when the
    scanner prompts for the quantity and the prompt is dismissed.  The
    same scan on a form that does not mark its items as given runs to
    the end and leaves both flags cleared. *)
Theorem update_table_waiting_keeps_flags :
  ((update_table Demo.with_context None Demo.box_of_a Demo.given_boxes_in_stores).1
   = Pending
   ∧ log (update_table Demo.with_context None Demo.box_of_a
            Demo.given_boxes_in_stores).2
     = log Demo.given_boxes_in_stores
       ++ [SetFlag "trigger_from_barcode_scanner" true;
           SetFlag "hide_serial_batch_dialog" true;
           SetValue 0 {["uom" := VStr "Box"]};
           SetValue 0 {["serial_no" := VStr "S1"]};
           SetValue 0 {["batch_no" := VStr "LOT7"]};
           SetValue 0 {["barcode" := VStr "4006381"]};
           SetValue 0 {["warehouse" := VStr "Stores"]};
           DialogShow]
   ∧ trigger_from_barcode_scanner
       (update_table Demo.with_context None Demo.box_of_a
          Demo.given_boxes_in_stores).2 = true
   ∧ hide_serial_batch_dialog
       (update_table Demo.with_context None Demo.box_of_a
          Demo.given_boxes_in_stores).2 = true
   ∧ get (row_at 0 (update_table Demo.with_context None Demo.box_of_a
                      Demo.given_boxes_in_stores).2) "qty" = VNum (Fin 2))
  ∧ ((update_table Demo.prompting None Demo.item_a_lot7 Demo.one_line).1 = Pending
     ∧ log (update_table Demo.prompting None Demo.item_a_lot7 Demo.one_line).2
       = [SetFlag "trigger_from_barcode_scanner" true;
          SetFlag "hide_serial_batch_dialog" true;
          SetValue 0 {["batch_no" := VStr "LOT7"]};
          Prompt (VStr "A")]
     ∧ trigger_from_barcode_scanner
         (update_table Demo.prompting None Demo.item_a_lot7 Demo.one_line).2 = true
     ∧ hide_serial_batch_dialog
         (update_table Demo.prompting None Demo.item_a_lot7 Demo.one_line).2 = true)
  ∧ ((update_table Demo.with_context None Demo.box_of_a Demo.boxes_in_stores).1
     = Resolved (Some 0)
     ∧ trigger_from_barcode_scanner
         (update_table Demo.with_context None Demo.box_of_a
            Demo.boxes_in_stores).2 = false
     ∧ hide_serial_batch_dialog
         (update_table Demo.with_context None Demo.box_of_a
            Demo.boxes_in_stores).2 = false
     ∧ get (row_at 0 (update_table Demo.with_context None Demo.box_of_a
                        Demo.boxes_in_stores).2) "qty" = VNum (Fin 3)).
Proof. evaluated. Qed.

(** S1 scanned against a line that holds S1 and S2; S1 scanned twice
    against a line that held no serial number; and S1 scanned again
    while the scan dialog of its first scan is open. *)
Lemma duplicate_serial_rejected_witness :
  (∃ st',
     update_table Demo.plain None Demo.item_a_s1 Demo.holding_s1_s2 = (Rejected, st')
     ∧ doc st' = doc Demo.holding_s1_s2
     ∧ log st' =
         log Demo.holding_s1_s2
         ++ [SetFlag "trigger_from_barcode_scanner" true;
             Spec.duplicate_serial_warning (VStr "S1"); CleanUp])
  ∧ (∃ st2,
       update_table Demo.plain None Demo.item_a_s1
         (update_table Demo.plain None Demo.item_a_s1 Demo.one_line).2 = (Rejected, st2)
       ∧ doc st2 = doc (update_table Demo.plain None Demo.item_a_s1 Demo.one_line).2
       ∧ Spec.duplicate_serial_warning (VStr "S1") ∈ log st2)
  ∧ (update_table Demo.plain None Demo.item_a_s1 Demo.one_line_of_given_items).1
    = Pending
  ∧ (∃ st2,
       update_table Demo.plain None Demo.item_a_s1
         (update_table Demo.plain None Demo.item_a_s1 Demo.one_line_of_given_items).2
       = (Rejected, st2)
       ∧ Spec.duplicate_serial_warning (VStr "S1") ∈ log st2).
Proof.
  destruct (duplicate_serial_rejected Demo.plain) as (Hgen & _ & Htwice).
  assert (Hkept : Spec.serial_field_kept Demo.plain).
  { split; [decided | intros d; vm_compute; discriminate]. }
  split; [| split; [| split]].
  - apply (Hgen None Demo.item_a_s1 Demo.holding_s1_s2 0 "S1").
    + decided.
    + reflexivity.
    + decided.
  - apply (Htwice None Demo.item_a_s1 Demo.one_line (Resolved (Some 0)) _ "S1" None
             Demo.item_a_s1).
    + reflexivity.
    + exact Hkept.
    + reflexivity.
    + discriminate.
    + decided.
    + discriminate.
    + reflexivity.
    + decided.
  - decided.
  - destruct (Htwice None Demo.item_a_s1 Demo.one_line_of_given_items Pending
                (update_table Demo.plain None Demo.item_a_s1
                   Demo.one_line_of_given_items).2 "S1" None Demo.item_a_s1)
      as (st2 & Hrun & _ & Hwarned).
    + reflexivity.
    + exact Hkept.
    + reflexivity.
    + discriminate.
    + decided.
    + discriminate.
    + reflexivity.
    + decided.
    + by exists st2.
Defined.

(** On a table that has no serial number field, the serial number S1
    is not written to the line: a second scan of S1 against the same
    line completes like the first, and the quantity goes from 2 to 3
    and to 4. *)
Lemma second_scan_without_serial_field_completes :
  has_field (Frappe := Demo.without_serial_field) (serial_no_field Demo.plain) = false
  ∧ update_table (H := Demo.without_serial_field) Demo.plain None Demo.item_a_s1
      Demo.one_line
    = (Resolved (Some 0),
       (update_table (H := Demo.without_serial_field) Demo.plain None Demo.item_a_s1
          Demo.one_line).2)
  ∧ Spec.matched_line (H := Demo.without_serial_field) Demo.plain Demo.item_a_s1
      (update_table (H := Demo.without_serial_field) Demo.plain None Demo.item_a_s1
         Demo.one_line).2 = Some 0
  ∧ (update_table (H := Demo.without_serial_field) Demo.plain None Demo.item_a_s1
       (update_table (H := Demo.without_serial_field) Demo.plain None Demo.item_a_s1
          Demo.one_line).2).1 = Resolved (Some 0)
  ∧ get (row_at 0 Demo.one_line) "qty" = VNum (Fin 2)
  ∧ get (row_at 0
           (update_table (H := Demo.without_serial_field) Demo.plain None
              Demo.item_a_s1
              (update_table (H := Demo.without_serial_field) Demo.plain None
                 Demo.item_a_s1 Demo.one_line).2).2) "qty" = VNum (Fin 4)
  ∧ get (row_at 0
           (update_table (H := Demo.without_serial_field) Demo.plain None
              Demo.item_a_s1
              (update_table (H := Demo.without_serial_field) Demo.plain None
                 Demo.item_a_s1 Demo.one_line).2).2) "serial_no" = VUndef.
Proof. evaluated. Qed.

(** S1 scanned against a line that holds S12. *)
Lemma duplicate_serial_is_substring_test_witness :
  (∃ st',
     update_table Demo.plain None Demo.item_a_s1 Demo.holding_s12 = (Rejected, st')
     ∧ doc st' = doc Demo.holding_s12
     ∧ Spec.duplicate_serial_warning (get Demo.item_a_s1 "serial_no") ∈ log st')
  ∧ includes "S12" "S1" = true
  ∧ "S1" ∉ Spec.serial_list Demo.plain (row_at 0 Demo.holding_s12).
Proof.
  destruct (duplicate_serial_is_substring_test Demo.plain) as (Hsub & Hlist). split.
  - apply (Hsub None Demo.item_a_s1 Demo.holding_s12 0 "S12").
    + vm_compute. reflexivity.
    + vm_compute. reflexivity.
    + vm_compute. reflexivity.
  - apply Hlist. vm_compute. reflexivity.
Defined.



(** Item B scanned on a pick list whose line of B is picked in full. *)
Lemma row_limit_rejected_witness :
  (∃ st',
     update_table Demo.pick_list None Demo.item_b Demo.picked_in_full = (Rejected, st')
     ∧ doc st' = doc Demo.picked_in_full
     ∧ log st' =
         log Demo.picked_in_full
         ++ [SetFlag "trigger_from_barcode_scanner" true;
             Spec.row_limit_warning (get Demo.item_b "item_code"); CleanUp])
  ∧ (∃ st',
       update_table Demo.pick_list None Demo.item_b Demo.picked_in_full = (Rejected, st')
       ∧ length (items (doc st')) = length (items (doc Demo.picked_in_full))
       ∧ Spec.row_limit_warning (get Demo.item_b "item_code") ∈ log st').
Proof.
  destruct (row_limit_rejected Demo.pick_list) as (Hgen & Hcap). split.
  - apply (Hgen None Demo.item_b Demo.picked_in_full).
    + vm_compute. reflexivity.
    + reflexivity.
  - eapply (Hcap None Demo.item_b Demo.picked_in_full 0).
    + reflexivity.
    + vm_compute. reflexivity.
    + reflexivity.
    + vm_compute. reflexivity.
    + intros [|j] r' Hj Hne; [done | discriminate].
    + intros r' Hr'. apply list_elem_of_singleton in Hr' as ->.
      vm_compute. reflexivity.
Defined.

(** The code of the warehouse Stores scanned on a form with the
    context field; with Stores as the context, item A scanned on its
    line, which completes, and on a form that marks its items as
    given, where the scan waits in the dialog. *)
Lemma warehouse_scan_sets_context_witness :
  (∃ st',
     process_scan Demo.with_context None Demo.warehouse_code_typed = (Resolved None, st')
     ∧ items (doc st') = items (doc Demo.warehouse_code_typed)
     ∧ get (header (doc st')) "last_scanned_warehouse" = VStr "Stores")
  ∧ (update_table Demo.with_context None Demo.item_a Demo.in_stores).1
    = Resolved (Some 0)
  ∧ get (row_at 0 (update_table Demo.with_context None Demo.item_a Demo.in_stores).2)
      "warehouse" = VStr "Stores"
  ∧ (update_table Demo.with_context None Demo.item_a Demo.given_items_in_stores).1
    = Pending
  ∧ get (row_at 0 (update_table Demo.with_context None Demo.item_a
                     Demo.given_items_in_stores).2) "warehouse" = VStr "Stores".
Proof.
  destruct (warehouse_scan_sets_context Demo.with_context) as (Hscan & Hitem).
  split; [| split; [decided | split; [| split; [decided |]]]].
  - destruct (Hscan None Demo.warehouse_code_typed {["warehouse" := VStr "Stores"]}
                "Stores") as (st' & Hrun & Hitems & Hhead & _).
    + reflexivity.
    + decided.
    + reflexivity.
    + discriminate.
    + reflexivity.
    + exists st'. split; [done |]. split; [done |].
      rewrite Hhead. apply get_insert_eq.
  - destruct (Hitem None Demo.item_a Demo.in_stores (Resolved (Some 0))
                (update_table Demo.with_context None Demo.item_a Demo.in_stores).2
                "warehouse" (VStr "Stores")) as (Hrow & _).
    + reflexivity.
    + decided.
    + reflexivity.
    + intros d d' _. reflexivity.
    + reflexivity.
    + discriminate.
    + decided.
    + decided.
    + decided.
    + discriminate.
    + exact Hrow.
  - destruct (Hitem None Demo.item_a Demo.given_items_in_stores Pending
                (update_table Demo.with_context None Demo.item_a
                   Demo.given_items_in_stores).2
                "warehouse" (VStr "Stores")) as (Hrow & _).
    + reflexivity.
    + decided.
    + reflexivity.
    + intros d d' _. reflexivity.
    + reflexivity.
    + discriminate.
    + decided.
    + decided.
    + decided.
    + discriminate.
    + exact Hrow.
Defined.

(** Four scans after which the scanned warehouse is not where the
    specification has it.  On a form without the
    last-scanned-warehouse field, a code that the scan API classifies
    as a warehouse is answered as not found: the scan is rejected and
    no warehouse context is set.  With Stores as the last scanned
    warehouse: a scan of item A fills the placeholder line and
    overwrites its warehouse Yard with Stores; a scan of the serial
    number S1 that the line holds is rejected and the line gets no
    warehouse; and on a table without the warehouse field the scan of
    item A completes and no warehouse is written. *)
Lemma warehouse_context_exceptions :
  (scan_api (VStr "WH-STORES") VUndef VUndef = Some {["warehouse" := VStr "Stores"]}
   ∧ (process_scan Demo.plain None Demo.warehouse_code_typed).1 = Rejected
   ∧ get (header (doc (process_scan Demo.plain None Demo.warehouse_code_typed).2))
       "last_scanned_warehouse" = VUndef
   ∧ log (process_scan Demo.plain None Demo.warehouse_code_typed).2
     = [ClearScanField; ScanApiCall (VStr "WH-STORES") VUndef VUndef;
        ShowAlert CannotFindItem "red"; CleanUp])
  ∧ (Spec.matched_line Demo.with_context Demo.item_a Demo.placeholder_in_yard = Some 0
     ∧ get (row_at 0 Demo.placeholder_in_yard) "warehouse" = VStr "Yard"
     ∧ (update_table Demo.with_context None Demo.item_a Demo.placeholder_in_yard).1
       = Resolved (Some 0)
     ∧ get (row_at 0 (update_table Demo.with_context None Demo.item_a
                        Demo.placeholder_in_yard).2) "warehouse" = VStr "Stores")
  ∧ (Spec.matched_line Demo.with_context Demo.item_a_s1 Demo.holding_s1_in_stores
     = Some 0
     ∧ (update_table Demo.with_context None Demo.item_a_s1
          Demo.holding_s1_in_stores).1 = Rejected
     ∧ get (row_at 0 (update_table Demo.with_context None Demo.item_a_s1
                        Demo.holding_s1_in_stores).2) "warehouse" = VUndef)
  ∧ (has_field (Frappe := Demo.without_warehouse_field) "warehouse" = false
     ∧ (update_table (H := Demo.without_warehouse_field) Demo.with_context None
          Demo.item_a Demo.in_stores).1 = Resolved (Some 0)
     ∧ get (row_at 0 (update_table (H := Demo.without_warehouse_field)
                        Demo.with_context None Demo.item_a Demo.in_stores).2)
         "warehouse" = VUndef).
Proof. evaluated. Qed.

(** Nothing typed into the scan field. *)
Lemma process_scan_empty_input_witness :
  ∃ st',
    process_scan Demo.plain None Demo.nothing_typed = (Pending, st')
    ∧ doc st' = doc Demo.nothing_typed
    ∧ log st' = log Demo.nothing_typed ++ [ClearScanField].
Proof.
  apply (process_scan_empty_input Demo.plain None Demo.nothing_typed). reflexivity.
Defined.

(** A blank scan input is looked up like any other text: the scan API
    is called with it. *)
Lemma blank_input_is_looked_up :
  Spec.blank_input (scan_barcode Demo.blank_typed) = true
  ∧ filter (λ e, Spec.is_scan_api_call e = true)
      (log (process_scan Demo.plain None Demo.blank_typed).2)
    = [ScanApiCall (VStr " ") VUndef VUndef]
  ∧ (process_scan Demo.plain None Demo.blank_typed).1 = Rejected.
Proof. vm_compute. repeat split; reflexivity. Qed.

End Concrete.

Section ConcreteCart.
Import PointOfSale.
#[local] Existing Instance Demo.frappe.

(** In a cart of a line of item A and a line of item B: with nothing
    available of the stock item A, the check fails, the line of A is
    gone and the line of B is kept and is now the first; with two
    available of three needed, the check fails and both lines are
    kept. *)
Lemma check_stock_availability_policy_witness :
  (check_stock_availability 0 (Fin 1) (VStr "Stores")
     (DemoPOS.cart_of_two (DemoPOS.in_stock 0))).1
    = Thrown (NotAvailable "<b>A</b>" "<b>Stores</b>")
  ∧ delete "idx" <$>
      items (check_stock_availability 0 (Fin 1) (VStr "Stores")
               (DemoPOS.cart_of_two (DemoPOS.in_stock 0))).2
    = [<["item_code" := VStr "B"]> (<["name" := VStr "row-2"]> DemoPOS.line)]
  ∧ get (row_at 0 (check_stock_availability 0 (Fin 1) (VStr "Stores")
                     (DemoPOS.cart_of_two (DemoPOS.in_stock 0))).2) "idx"
    = VNum (Fin 1)
  ∧ items (check_stock_availability 0 (Fin 3) (VStr "Stores")
             (DemoPOS.cart_of_two (DemoPOS.in_stock 2))).2
    = items (DemoPOS.cart_of_two (DemoPOS.in_stock 2)).
Proof.
  destruct check_stock_availability_policy as (Hcheck & _).
  destruct (Hcheck 0 (Fin 1) "Stores" (DemoPOS.cart_of_two (DemoPOS.in_stock 0))
              (<["idx" := VNum (Fin 1)]> DemoPOS.line) "A" "Nos" "row-1")
    as (_ & Hdisallowed); [decided.. |].
  destruct (Hdisallowed eq_refl) as (_ & Hstock).
  destruct (Hstock eq_refl) as (Hout & _).
  destruct (Hout 0%Z eq_refl) as (Hres & _ & _ & Hkept & Hidx); [lia |].
  destruct (Hcheck 0 (Fin 3) "Stores" (DemoPOS.cart_of_two (DemoPOS.in_stock 2))
              (<["idx" := VNum (Fin 1)]> DemoPOS.line) "A" "Nos" "row-1")
    as (_ & Hdisallowed'); [decided.. |].
  destruct (Hdisallowed' eq_refl) as (_ & Hstock').
  destruct (Hstock' eq_refl) as (_ & Hshort).
  destruct (Hshort 2%Z 3%Z eq_refl eq_refl) as (_ & Hall); [lia |].
  split; [exact Hres |]. split; [| split; [| exact Hall]].
  - etransitivity; [exact Hkept |]. decided.
  - apply (Hidx 0). decided.
Defined.

(** A stock item with nothing available, on a line that has no stock
    UOM: the check throws before it removes the line, and the line
    stays in the cart.  So it is when the invoice has no warehouse. *)
Lemma line_without_stock_uom_stays :
  get (row_at 0 (DemoPOS.cart_without_stock_uom (DemoPOS.in_stock 0))) "stock_uom"
    = VUndef
  ∧ (check_stock_availability 0 (Fin 1) (VStr "Stores")
       (DemoPOS.cart_without_stock_uom (DemoPOS.in_stock 0))).1 = Thrown TypeError
  ∧ items (check_stock_availability 0 (Fin 1) (VStr "Stores")
             (DemoPOS.cart_without_stock_uom (DemoPOS.in_stock 0))).2
    = items (DemoPOS.cart_without_stock_uom (DemoPOS.in_stock 0))
  ∧ (check_stock_availability 0 (Fin 1) VUndef (DemoPOS.cart (DemoPOS.in_stock 0))).1
    = Thrown TypeError
  ∧ items (check_stock_availability 0 (Fin 1) VUndef
             (DemoPOS.cart (DemoPOS.in_stock 0))).2
    = items (DemoPOS.cart (DemoPOS.in_stock 0)).
Proof. evaluated. Qed.

(** Two edits of the quantity of the same line, one after the other:
    the second asks the availability service again, although the
    session map holds the first reply; the service now says nothing is
    left, and the line is removed. *)
Lemma second_edit_queries_again :
  stock_queries (DemoPOS.edit_qty 2 (DemoPOS.cart (DemoPOS.in_stock 5))) = 1
  ∧ (∃ of_item,
       item_stock_map (DemoPOS.edit_qty 2 (DemoPOS.cart (DemoPOS.in_stock 5))) !! "A"
         = Some of_item
       ∧ of_item !! "Stores" = Some (DemoPOS.in_stock 5))
  ∧ stock_queries
      (DemoPOS.edit_qty 3
         (with_get_stock_availability (λ _ _, DemoPOS.in_stock 0)
            (DemoPOS.edit_qty 2 (DemoPOS.cart (DemoPOS.in_stock 5))))) = 2
  ∧ items
      (DemoPOS.edit_qty 3
         (with_get_stock_availability (λ _ _, DemoPOS.in_stock 0)
            (DemoPOS.edit_qty 2 (DemoPOS.cart (DemoPOS.in_stock 5))))) = [].
Proof.
  split; [vm_compute; reflexivity |]. split.
  - eexists. split; vm_compute; reflexivity.
  - split; vm_compute; reflexivity.
Qed.

End ConcreteCart.

(** ** What an item scan leaves alone *)

Section ScanFrames.
Context `{Frappe} (sc : scanner).

Lemma same_lines_but_doc i st st' :
  doc st' = doc st → Spec.same_lines_but i st st'.
Proof. intros Hd. unfold Spec.same_lines_but. by rewrite Hd. Qed.

Lemma same_lines_but_trans i st1 st2 st3 :
  Spec.same_lines_but i st1 st2 → Spec.same_lines_but i st2 st3 →
  Spec.same_lines_but i st1 st3.
Proof.
  intros (Hh1 & Hl1 & Hg1) (Hh2 & Hl2 & Hg2). repeat split; [congruence.. |].
  intros j Hj. by rewrite Hg2, Hg1.
Qed.

Lemma same_lines_but_set_value i fields st :
  Spec.same_lines_but i st (set_value i fields st).
Proof.
  repeat split; cbn; [apply length_alter |].
  intros j Hj. by apply list_lookup_alter_ne.
Qed.

Lemma same_lines_but_set_item answer i item_code barcode batch_no serial_no st :
  Spec.same_lines_but i st
    (set_item sc answer i item_code barcode batch_no serial_no st).2.
Proof.
  assert (Hinc : ∀ v s, doc s = doc st →
            Spec.same_lines_but i st (increment sc i item_code v s)).
  { intros v s Hs. unfold increment.
    apply (same_lines_but_trans _ st (set_trigger_from_barcode_scanner true s));
      [by apply same_lines_but_doc | apply same_lines_but_set_value]. }
  unfold set_item.
  repeat case_match; cbn [snd];
    first [by apply same_lines_but_doc | by apply Hinc].
Qed.

(** The tasks of [update_table] change the line they work on, and no
    other. *)
Lemma same_lines_but_tasks answer data i is_new_row st :
  Spec.same_lines_but i st (update_table_tasks sc answer data i is_new_row st).2.
Proof.
  pose proof (doc_update_table_tasks sc answer data i is_new_row st) as Hdoc.
  cbn zeta in Hdoc.
  set (s1 := set_selector_trigger_flag data st) in *.
  set (s2 := set_barcode_uom sc i (get data "uom") s1) in *.
  set (s3 := set_serial_no sc i (get data "serial_no") s2) in *.
  set (s4 := set_batch_no sc i (get data "batch_no") s3) in *.
  set (s5 := set_barcode sc i (get data "barcode") s4) in *.
  set (s6 := set_warehouse sc i s5) in *.
  set (s7 := (set_item sc answer i _ _ _ _ s6).2) in *.
  assert (Hsteps : Spec.same_lines_but i st s7).
  { apply (same_lines_but_trans _ st s1);
      [apply same_lines_but_doc, doc_set_selector_trigger_flag |].
    apply (same_lines_but_trans _ s1 s2).
    { unfold s2, set_barcode_uom. case_match;
        [apply same_lines_but_set_value | by apply same_lines_but_doc]. }
    apply (same_lines_but_trans _ s2 s3).
    { unfold s3, set_serial_no. case_match;
        [apply same_lines_but_set_value | by apply same_lines_but_doc]. }
    apply (same_lines_but_trans _ s3 s4).
    { unfold s4, set_batch_no. case_match;
        [apply same_lines_but_set_value | by apply same_lines_but_doc]. }
    apply (same_lines_but_trans _ s4 s5).
    { unfold s5, set_barcode. case_match;
        [apply same_lines_but_set_value | by apply same_lines_but_doc]. }
    apply (same_lines_but_trans _ s5 s6).
    { unfold s6, set_warehouse.
      repeat (case_match; try by apply same_lines_but_doc).
      apply same_lines_but_set_value. }
    apply same_lines_but_set_item. }
  unfold Spec.same_lines_but. rewrite Hdoc. exact Hsteps.
Qed.

(** The warehouse step writes the warehouse field when the session has
    a warehouse context, and nothing otherwise. *)
Lemma same_but_set_warehouse_context fs i st :
  (Spec.context_active sc st = true → get_warehouse_field sc (doc st) ∈ fs) →
  Spec.same_but fs st (set_warehouse sc i st).
Proof.
  unfold Spec.context_active, set_warehouse. intros Hfs.
  destruct (has_last_scanned_warehouse sc); [| by apply same_but_doc].
  destruct (truthy _); [| by apply same_but_doc]. cbn [negb].
  case_match; [by apply same_but_doc |]. apply same_but_write. by apply Hfs.
Qed.

(** The tasks of [update_table] write the scan's fields only. *)
Lemma same_but_tasks fs answer data i is_new_row st :
  (∀ f, f ∈ [uom_field sc; serial_no_field sc; batch_no_field sc; barcode_field sc;
             "item_code"; "use_serial_batch_fields"; qty_field sc] → f ∈ fs) →
  (Spec.context_active sc st = true →
   ∀ d, header d = header (doc st) → warehouse_field sc d ∈ fs) →
  Spec.same_but fs st (update_table_tasks sc answer data i is_new_row st).2.
Proof.
  intros Hfs Hwh.
  pose proof (doc_update_table_tasks sc answer data i is_new_row st) as Hdoc.
  cbn zeta in Hdoc.
  pose proof (same_but_before_warehouse sc data i st) as Hsame5.
  set (s5 := set_barcode sc i (get data "barcode") _) in *.
  set (s6 := set_warehouse sc i s5) in *.
  set (s7 := (set_item sc answer i _ _ _ _ s6).2) in *.
  assert (Hsteps : Spec.same_but fs st s7).
  { apply (same_but_trans _ st s5).
    { destruct Hsame5 as (Hh & Hl & Hg). repeat split; [done.. |].
      intros j k Hk. apply Hg. intros Hin. apply Hk, Hfs.
      rewrite !elem_of_cons in Hin. rewrite !elem_of_cons. tauto. }
    apply (same_but_trans _ s5 s6).
    { apply same_but_set_warehouse_context. destruct Hsame5 as (Hh & _).
      unfold Spec.context_active. rewrite Hh. intros Hactive.
      by apply Hwh. }
    apply same_but_set_item; apply Hfs; listed. }
  unfold Spec.same_but, row_at. rewrite Hdoc. exact Hsteps.
Qed.

(** The state the tasks start from when a scan adds a line. *)
Lemma new_line_start st :
  let st0 :=
    with_has_items false
      (emit (Trigger "items_add" (length (items (doc st))))
         (add_child (set_trigger_from_barcode_scanner true st)).2) in
  header (doc st0) = header (doc st)
  ∧ items (doc st0) = items (doc st) ++ [Spec.fresh_line st]
  ∧ frm_has_items st0 = false
  ∧ row_at (length (items (doc st))) st0 = Spec.fresh_line st
  ∧ log st0 =
      log st ++ [SetFlag "trigger_from_barcode_scanner" true;
                 AddChild (length (items (doc st)));
                 Trigger "items_add" (length (items (doc st)))].
Proof.
  cbn. split; [done |]. split; [done |]. split; [done |]. split.
  - unfold row_at. cbn. rewrite lookup_app_r by done. by rewrite Nat.sub_diag.
  - by rewrite <- !app_assoc.
Qed.

(** The anatomy of [update_table]: on a matched line, or on a new last
    line when there is none and rows may be added, the scan is either
    rejected with the document it found or made, or it is the run of
    the tasks on that line. *)
Lemma update_table_cases answer data st :
  let run := update_table sc answer data st in
  let st1 := set_trigger_from_barcode_scanner true st in
  match Spec.matched_line sc data st with
  | Some i =>
      is_Some (items (doc st) !! i)
      ∧ (run.1 = Rejected ∧ doc run.2 = doc st
                          ∧ frm_has_items run.2 = frm_has_items st
         ∨ run = update_table_tasks sc answer data i
                   (negb (truthy (get (row_at i st) "item_code"))) st1)
  | None =>
      if dont_allow_new_row sc
      then run.1 = Rejected ∧ doc run.2 = doc st
           ∧ frm_has_items run.2 = frm_has_items st
      else
        let n := length (items (doc st)) in
        let st0 :=
          with_has_items false (emit (Trigger "items_add" n) (add_child st1).2) in
        (run.1 = Rejected ∧ doc run.2 = doc st0 ∧ frm_has_items run.2 = false
         ∧ is_duplicate_serial_no sc n (get data "serial_no") st0
           ≠ Some (false, st0))
        ∨ run = update_table_tasks sc answer data n true st0
  end.
Proof.
  intros run st1. unfold run, update_table, Spec.matched_line.
  change (doc (set_trigger_from_barcode_scanner true st)) with (doc st).
  fold st1.
  assert (Hdup : ∀ i s b s',
            is_duplicate_serial_no sc i (get data "serial_no") s = Some (b, s') →
            doc s' = doc s ∧ frm_has_items s' = frm_has_items s
            ∧ (b = false → s' = s)).
  { intros i s b s'. unfold is_duplicate_serial_no.
    repeat case_match; intros [= <- <-]; done. }
  destruct (get_row_to_modify_on_scan sc (doc st) _ _ _ _ _) as [i|] eqn:Hfound.
  - destruct (found_row sc _ _ _ _ _ _ i Hfound) as (r & Hr & _).
    split; [by eauto |].
    destruct (is_duplicate_serial_no _ _ _ _) as [[[] s0]|] eqn:Hd.
    + left. split; [done |]. destruct (Hdup _ _ _ _ Hd) as (Hdoc & Hhas & _).
      split; [exact Hdoc | exact Hhas].
    + right. destruct (Hdup _ _ _ _ Hd) as (_ & _ & Heq). by rewrite (Heq eq_refl).
    + by left.
  - destruct (dont_allow_new_row sc); [done |].
    cbn [add_child]. cbn zeta.
    set (st0 := with_has_items false _).
    destruct (is_duplicate_serial_no _ _ _ _) as [[[] s0]|] eqn:Hd.
    + left. split; [done |]. destruct (Hdup _ _ _ _ Hd) as (Hdoc & Hhas & _).
      split; [exact Hdoc |]. split; [exact Hhas | done].
    + right. destruct (Hdup _ _ _ _ Hd) as (_ & _ & Heq). by rewrite (Heq eq_refl).
    + left. done.
Qed.

(** X1.  Whatever a scan's outcome, [update_table] leaves the parent
    document's own fields as they were, removes no line, adds one new
    last line exactly when the matcher gives no line and rows may be
    added, and changes no existing line other than the matched one. *)
Theorem update_table_keeps_other_lines answer data st :
  let st' := (update_table sc answer data st).2 in
  header (doc st') = header (doc st)
  ∧ length (items (doc st')) =
      match Spec.matched_line sc data st with
      | Some _ => length (items (doc st))
      | None =>
          if dont_allow_new_row sc then length (items (doc st))
          else S (length (items (doc st)))
      end
  ∧ ∀ j, Spec.matched_line sc data st ≠ Some j →
      j < length (items (doc st)) →
      items (doc st') !! j = items (doc st) !! j.
Proof.
  intros st'. unfold st'.
  pose proof (update_table_cases answer data st) as Hcases. cbn zeta in Hcases.
  destruct (Spec.matched_line sc data st) as [i|].
  - destruct Hcases as (_ & [(_ & Hdoc & _) | ->]).
    + rewrite Hdoc. done.
    + destruct (same_lines_but_tasks answer data i
                  (negb (truthy (get (row_at i st) "item_code")))
                  (set_trigger_from_barcode_scanner true st)) as (Hh & Hl & Hg).
      split; [exact Hh |]. split; [exact Hl |].
      intros j Hj _. apply Hg. congruence.
  - destruct (dont_allow_new_row sc).
    { destruct Hcases as (_ & Hdoc & _). rewrite Hdoc. done. }
    destruct (new_line_start st) as (Hh0 & Hitems0 & _).
    set (st0 := with_has_items false _) in *.
    assert (Hframe : Spec.same_lines_but (length (items (doc st))) st0
                       (update_table sc answer data st).2).
    { destruct Hcases as [(_ & Hdoc & _) | ->];
        [by apply same_lines_but_doc | apply same_lines_but_tasks]. }
    destruct Hframe as (Hh & Hl & Hg). rewrite Hh, Hl, Hitems0.
    split; [done |]. split; [rewrite length_app; cbn; lia |].
    intros j _ Hj. rewrite Hg by lia. rewrite Hitems0. by apply lookup_app_l.
Qed.

(** The lines the table had are, after a scan, as the tasks left
    them: what holds of every line from the tasks' start on holds from
    the scan's start on. *)
Lemma update_table_same_but fs answer data st :
  (∀ i is_new_row st0,
     header (doc st0) = header (doc st) →
     Spec.same_but fs st0 (update_table_tasks sc answer data i is_new_row st0).2) →
  header (doc (update_table sc answer data st).2) = header (doc st)
  ∧ ∀ j k, j < length (items (doc st)) → k ∉ fs →
      get (row_at j (update_table sc answer data st).2) k = get (row_at j st) k.
Proof.
  intros Htasks.
  pose proof (update_table_cases answer data st) as Hcases. cbn zeta in Hcases.
  destruct (Spec.matched_line sc data st) as [i|].
  - destruct Hcases as (_ & [(_ & Hdoc & _) | ->]).
    + unfold row_at. by rewrite Hdoc.
    + destruct (Htasks i (negb (truthy (get (row_at i st) "item_code")))
                  (set_trigger_from_barcode_scanner true st)) as (Hh & _ & Hg);
        [done |].
      split; [exact Hh |]. intros j k _ Hk. by rewrite Hg.
  - destruct (dont_allow_new_row sc).
    { destruct Hcases as (_ & Hdoc & _). unfold row_at. by rewrite Hdoc. }
    destruct (new_line_start st) as (Hh0 & Hitems0 & _).
    set (st0 := with_has_items false _) in *.
    assert (Hframe : Spec.same_but fs st0 (update_table sc answer data st).2).
    { destruct Hcases as [(_ & Hdoc & _) | ->];
        [by apply same_but_doc | by apply Htasks]. }
    destruct Hframe as (Hh & _ & Hg). split; [by rewrite Hh |].
    intros j k Hj Hk. rewrite Hg by done. unfold row_at.
    by rewrite Hitems0, lookup_app_l.
Qed.

(** X2.  Whatever a scan's outcome, [update_table] writes, on the
    lines the table had, no field other than the UOM, serial, batch,
    barcode, item code, serial-batch-fields and quantity fields, and
    the warehouse field when the session has a warehouse context. *)
Theorem update_table_writes_scan_fields_only answer data st :
  Spec.warehouse_field_of_header sc →
  ∀ j k, j < length (items (doc st)) → k ∉ Spec.scan_fields sc st →
    get (row_at j (update_table sc answer data st).2) k = get (row_at j st) k.
Proof.
  intros Hheader.
  apply (update_table_same_but (Spec.scan_fields sc st)).
  intros i is_new_row st0 Hhead. apply same_but_tasks.
  - intros f Hf. unfold Spec.scan_fields. apply elem_of_app. by left.
  - unfold Spec.scan_fields, Spec.context_active. rewrite Hhead.
    intros -> d Hd. apply elem_of_app. right.
    rewrite (Hheader d (doc st)) by congruence. listed.
Qed.

(** X3.  Clearing the warehouse context ends the inheritance: after
    [clear_warehouse_context], whatever warehouse was scanned before,
    the context is null, the lines are as they were, and an item scan
    writes no field of an existing line other than the UOM, serial,
    batch, barcode, item code, serial-batch-fields and quantity
    fields; the context is still null after the scan. *)
Theorem clear_warehouse_context_ends_inheritance answer data st :
  let cleared := clear_warehouse_context st in
  let st' := (update_table sc answer data cleared).2 in
  items (doc cleared) = items (doc st)
  ∧ get (header (doc cleared)) "last_scanned_warehouse" = VNull
  ∧ get (header (doc st')) "last_scanned_warehouse" = VNull
  ∧ ∀ j k,
      j < length (items (doc st)) →
      k ∉ [uom_field sc; serial_no_field sc; batch_no_field sc; barcode_field sc;
           "item_code"; "use_serial_batch_fields"; qty_field sc] →
      get (row_at j st') k = get (row_at j st) k.
Proof.
  intros cleared st'.
  assert (Hnull : get (header (doc cleared)) "last_scanned_warehouse" = VNull).
  { cbn. apply get_insert_eq. }
  split; [done |]. split; [done |].
  set (fs := [uom_field sc; serial_no_field sc; batch_no_field sc; barcode_field sc;
              "item_code"; "use_serial_batch_fields"; qty_field sc]).
  destruct (update_table_same_but fs answer data cleared) as (Hh & Hg).
  { intros i is_new_row st0 Hhead. apply same_but_tasks; [done |].
    unfold Spec.context_active. rewrite Hhead, Hnull. cbn.
    by rewrite andb_false_r. }
  split; [unfold st'; by rewrite Hh |].
  intros j k Hj Hk. by apply Hg.
Qed.

End ScanFrames.

(** ** What an item scan does to its line *)

Section ScanEffects.
Context `{Frappe} (sc : scanner).

(** The quantity step, when it completes, on a line of the table: the
    line takes the item code and a quantity raised by the step's
    value, which is 1 or the answer to the prompt. *)
Lemma set_item_quantity answer i item_code barcode batch_no serial_no st v st' :
  set_item sc answer i item_code barcode batch_no serial_no st = (Some v, st') →
  is_Some (items (doc st) !! i) →
  (if prompt_qty sc then answer = Some v else v = VNum (Fin 1))
  ∧ frm_has_items st' = frm_has_items st
  ∧ row_at i st' =
      <[qty_field sc :=
          VNum (num_add (Number (js_or (get (row_at i st) (qty_field sc)) (VNum (Fin 0))))
                        (Number v))]>
        (<["use_serial_batch_fields" := VNum (Fin 1)]> {["item_code" := item_code]})
      ∪ row_at i st.
Proof.
  unfold set_item. intros Hs Hi. destruct (prompt_qty sc).
  - destruct answer as [a|]; [| done]. injection Hs as <- <-.
    split; [done |]. split; [done |]. unfold increment.
    by rewrite row_at_set_value.
  - destruct (frm_has_items st) eqn:Hhas; [done |]. injection Hs as <- <-.
    split; [done |]. split; [exact Hhas |]. unfold increment.
    by rewrite row_at_set_value.
Qed.

Lemma frm_has_items_before_set_item data i st :
  frm_has_items
    (set_warehouse sc i
       (set_barcode sc i (get data "barcode")
          (set_batch_no sc i (get data "batch_no")
             (set_serial_no sc i (get data "serial_no")
                (set_barcode_uom sc i (get data "uom")
                   (set_selector_trigger_flag data st)))))) = frm_has_items st.
Proof.
  transitivity (frm_has_items (set_selector_trigger_flag data st));
    [| unfold set_selector_trigger_flag; by case_match].
  generalize (set_selector_trigger_flag data st). intros s1.
  transitivity (frm_has_items (set_barcode_uom sc i (get data "uom") s1));
    [| unfold set_barcode_uom; by case_match].
  generalize (set_barcode_uom sc i (get data "uom") s1). intros s2.
  transitivity (frm_has_items (set_serial_no sc i (get data "serial_no") s2));
    [| unfold set_serial_no; by case_match].
  generalize (set_serial_no sc i (get data "serial_no") s2). intros s3.
  transitivity (frm_has_items (set_batch_no sc i (get data "batch_no") s3));
    [| unfold set_batch_no; by case_match].
  generalize (set_batch_no sc i (get data "batch_no") s3). intros s4.
  transitivity (frm_has_items (set_barcode sc i (get data "barcode") s4));
    [| unfold set_barcode; by case_match].
  generalize (set_barcode sc i (get data "barcode") s4). intros s5.
  unfold set_warehouse. by repeat case_match.
Qed.

(** The tasks, when they complete: the value of the quantity step, the
    line they leave, and the message they show. *)
Lemma tasks_quantity answer data i is_new_row st r st' :
  update_table_tasks sc answer data i is_new_row st = (Resolved r, st') →
  is_Some (items (doc st) !! i) →
  ∃ v before,
    (if prompt_qty sc then answer = Some v else v = VNum (Fin 1))
    ∧ (prompt_qty sc = false → frm_has_items st = false)
    ∧ row_at i st' =
        <[qty_field sc :=
            VNum (num_add (Number (js_or (get before (qty_field sc)) (VNum (Fin 0))))
                          (Number v))]>
          (<["use_serial_batch_fields" := VNum (Fin 1)]>
             {["item_code" := get data "item_code"]})
        ∪ before
    ∧ (Spec.qty_field_kept sc →
       get before (qty_field sc) = get (row_at i st) (qty_field sc))
    ∧ ∃ l, log st' =
        l ++ [ShowAlert
                (if is_new_row then ItemAdded (get (row_at i st') "idx")
                 else QtyIncreased (get (row_at i st') "idx")
                        match v with VUndef => VNum (Fin 1) | _ => v end) "green";
              CleanUp; SetFlag "hide_serial_batch_dialog" false;
              SetFlag "trigger_from_barcode_scanner" false].
Proof.
  unfold update_table_tasks.
  pose proof (same_but_before_warehouse sc data i st) as Hsame5.
  pose proof (frm_has_items_before_set_item data i st) as Hhas.
  set (s5 := set_barcode sc i (get data "barcode") _) in *.
  set (s6 := set_warehouse sc i s5) in *.
  destruct (set_item _ _ _ _ _ _ _ s6) as [[v|] s7] eqn:Hitem; [| done].
  intros [= <- <-] Hi.
  assert (Hsame6 : Spec.same_but
            [uom_field sc; serial_no_field sc; batch_no_field sc; barcode_field sc;
             get_warehouse_field sc (doc s5)] st s6).
  { apply (same_but_trans _ st s5).
    - destruct Hsame5 as (Hh & Hl & Hg). repeat split; [done.. |].
      intros j k Hk. apply Hg. intros Hin. apply Hk.
      rewrite !elem_of_cons in Hin. rewrite !elem_of_cons. tauto.
    - apply same_but_set_warehouse. listed. }
  assert (Hi6 : is_Some (items (doc s6) !! i)) by by eapply same_but_is_Some.
  destruct (set_item_quantity _ _ _ _ _ _ _ _ _ Hitem Hi6) as (Hv & Hhas7 & Hrow).
  assert (Hrow' : ∀ s, doc s = doc s7 → row_at i s = row_at i s7).
  { intros s Hs. unfold row_at. by rewrite Hs. }
  exists v, (row_at i s6). split; [done |]. split.
  { intros Hp. rewrite <- Hhas. unfold set_item in Hitem. rewrite Hp in Hitem.
    by destruct (frm_has_items s6). }
  split.
  { rewrite <- Hrow. apply Hrow'. by destruct is_new_row. }
  split.
  { intros [Hkept Hwh]. destruct Hsame6 as (_ & _ & Hg). apply Hg.
    rewrite !elem_of_cons in Hkept. rewrite !elem_of_cons.
    intros [E | [E | [E | [E | [E | Hnil]]]]]; try (apply Hkept; tauto).
    by apply (Hwh (doc s5)). }
  exists (log s7).
  rewrite (Hrow' (revert_selector_flag (clean_up (show_scan_message
             (get (row_at i s7) "idx") (negb is_new_row) v s7))));
    [| by destruct is_new_row].
  destruct is_new_row; cbn; rewrite <- !app_assoc; [done |].
  by destruct v.
Qed.

(** A completed scan ran the tasks on a line of the table, which was
    the line [Spec.line_before] when they started. *)
Lemma update_table_resolved_tasks answer data st i st' :
  update_table sc answer data st = (Resolved (Some i), st') →
  ∃ st0 is_new_row,
    update_table_tasks sc answer data i is_new_row st0 = (Resolved (Some i), st')
    ∧ is_Some (items (doc st0) !! i)
    ∧ row_at i st0 = Spec.line_before sc data st
    ∧ match Spec.matched_line sc data st with
      | Some j =>
          i = j ∧ is_new_row = negb (truthy (get (row_at j st) "item_code"))
          ∧ frm_has_items st0 = frm_has_items st
      | None =>
          i = length (items (doc st)) ∧ is_new_row = true
          ∧ dont_allow_new_row sc = false
      end.
Proof.
  intros Hrun.
  pose proof (update_table_cases sc answer data st) as Hcases. cbn zeta in Hcases.
  rewrite Hrun in Hcases. unfold Spec.line_before.
  destruct (Spec.matched_line sc data st) as [j|].
  - destruct Hcases as (Hj & [(Hrej & _) | Htasks]); [done |].
    symmetry in Htasks.
    destruct (update_table_tasks_resolved sc _ _ _ _ _ _ _ Htasks) as ([= <-] & _).
    eexists _, _. split; [exact Htasks |]. done.
  - destruct (dont_allow_new_row sc); [by destruct Hcases |].
    destruct (new_line_start st) as (_ & _ & _ & Hrow & _).
    destruct Hcases as [(Hrej & _) | Htasks]; [done |].
    symmetry in Htasks.
    destruct (update_table_tasks_resolved sc _ _ _ _ _ _ _ Htasks) as ([= ->] & _).
    eexists _, _. split; [exact Htasks |]. split; [| done].
    cbn. rewrite lookup_app_r by done. rewrite Nat.sub_diag. by eexists.
Qed.

(** X4.  A scan that completes raises the quantity of its line by
    exactly the step's value: 1, or the operator's answer when the
    scanner prompts for the quantity.  The line's quantity is the
    number in the quantity field before the scan (0 for an empty
    field; a new line's default) plus that value, and the line holds
    the scanned item code. *)
Theorem update_table_adds_quantity answer data st i st' :
  update_table sc answer data st = (Resolved (Some i), st') →
  Spec.qty_field_kept sc →
  ∃ v,
    (if prompt_qty sc then answer = Some v else v = VNum (Fin 1))
    ∧ get (row_at i st') (qty_field sc) =
        VNum (num_add
                (Number (js_or (get (Spec.line_before sc data st) (qty_field sc))
                           (VNum (Fin 0))))
                (Number v))
    ∧ (qty_field sc ≠ "item_code" →
       get (row_at i st') "item_code" = get data "item_code").
Proof.
  intros Hrun Hkept.
  destruct (update_table_resolved_tasks _ _ _ _ _ Hrun)
    as (st0 & is_new_row & Htasks & Hi & Hline & _).
  destruct (tasks_quantity _ _ _ _ _ _ _ Htasks Hi)
    as (v & before & Hv & _ & Hrow & Hbefore & _).
  exists v. split; [done |]. rewrite Hrow. split.
  - erewrite get_union_l; [| apply lookup_insert_eq].
    by rewrite (Hbefore Hkept), Hline.
  - intros Hne. apply get_union_l.
    rewrite lookup_insert_ne by done. rewrite lookup_insert_ne by done.
    apply lookup_singleton_eq.
Qed.

(** X5.  A scan for which the matcher gives no line, on a scanner that
    may add rows, appends exactly one line and resets [frm.has_items];
    so without a quantity prompt it never opens the scan dialog and
    never stays pending.  When new rows start without serial numbers
    the scan completes on the new line, which holds the scanned item
    code, and the message is the one for an added item. *)
Theorem update_table_new_line answer data st :
  Spec.matched_line sc data st = None →
  dont_allow_new_row sc = false →
  let run := update_table sc answer data st in
  let n := length (items (doc st)) in
  (∃ r, items (doc run.2) = items (doc st) ++ [r])
  ∧ frm_has_items run.2 = false
  ∧ (prompt_qty sc = false → run.1 ≠ Pending)
  ∧ (prompt_qty sc = false →
     get (Spec.fresh_line st) (serial_no_field sc) = VUndef →
     run.1 = Resolved (Some n)
     ∧ (qty_field sc ≠ "item_code" →
        get (row_at n run.2) "item_code" = get data "item_code")
     ∧ ShowAlert (ItemAdded (get (row_at n run.2) "idx")) "green" ∈ log run.2).
Proof.
  intros Hm Hpol run n.
  pose proof (update_table_cases sc answer data st) as Hcases. cbn zeta in Hcases.
  rewrite Hm, Hpol in Hcases. fold run n in Hcases.
  destruct (new_line_start st) as (Hh0 & Hitems0 & Hhas0 & Hrow0 & _).
  fold n in Hcases, Hrow0.
  set (st0 := with_has_items false _) in *.
  assert (Hi0 : is_Some (items (doc st0) !! n)).
  { rewrite Hitems0, lookup_app_r by done. unfold n. rewrite Nat.sub_diag.
    by eexists. }
  assert (Htasks_has : frm_has_items
            (update_table_tasks sc answer data n true st0).2 = false).
  { unfold update_table_tasks.
    pose proof (frm_has_items_before_set_item data n st0) as Hhas.
    set (s6 := set_warehouse sc n _) in *.
    assert (Hhas7 : frm_has_items
              (set_item sc answer n (get data "item_code") (get data "barcode")
                 (get data "batch_no") (get data "serial_no") s6).2 = false).
    { unfold set_item, increment. rewrite Hhas, Hhas0.
      repeat case_match; cbn; by rewrite ?Hhas, ?Hhas0. }
    destruct (set_item _ _ _ _ _ _ _ s6) as [[v|] s7]; exact Hhas7. }
  assert (Htasks_out : prompt_qty sc = false →
            ∃ s, update_table_tasks sc answer data n true st0
                 = (Resolved (Some n), s)).
  { intros Hp. unfold update_table_tasks.
    pose proof (frm_has_items_before_set_item data n st0) as Hhas.
    set (s6 := set_warehouse sc n _) in *.
    unfold set_item. rewrite Hp, Hhas, Hhas0. by eexists. }
  split; [| split; [| split]].
  - destruct (same_lines_but_tasks sc answer data n true st0) as (_ & Hl & Hg).
    assert (Hlen : length (items (doc run.2)) = S n).
    { destruct Hcases as [(_ & -> & _) | ->].
      - rewrite Hitems0, length_app. cbn. unfold n. lia.
      - rewrite Hl, Hitems0, length_app. cbn. unfold n. lia. }
    assert (Hpre : ∀ j, j < n → items (doc run.2) !! j = items (doc st) !! j).
    { intros j Hj. destruct Hcases as [(_ & -> & _) | ->].
      - rewrite Hitems0. by apply lookup_app_l.
      - rewrite Hg by lia. rewrite Hitems0. by apply lookup_app_l. }
    destruct (lookup_lt_is_Some_2 (items (doc run.2)) n) as [r Hr]; [lia |].
    exists r. apply list_eq. intros j.
    destruct (decide (j < n)) as [Hj | Hj].
    + rewrite Hpre by done. by rewrite lookup_app_l.
    + destruct (decide (j = n)) as [-> | Hne].
      * rewrite Hr, lookup_app_r by done. unfold n. by rewrite Nat.sub_diag.
      * rewrite lookup_ge_None_2 by lia. symmetry. apply lookup_ge_None_2.
        rewrite length_app. cbn. unfold n in *. lia.
  - destruct Hcases as [(_ & _ & Hhas & _) | ->]; [done | exact Htasks_has].
  - intros Hp. destruct Hcases as [(-> & _) | ->]; [done |].
    destruct (Htasks_out Hp) as (s & ->). done.
  - intros Hp Hserial.
    destruct Hcases as [(_ & _ & _ & Hdup) | Hrun].
    { exfalso. apply Hdup. unfold is_duplicate_serial_no.
      by rewrite Hrow0, Hserial. }
    destruct (Htasks_out Hp) as (s & Htasks). rewrite Hrun, Htasks.
    split; [done |]. cbn [snd].
    destruct (tasks_quantity _ _ _ _ _ _ _ Htasks Hi0)
      as (v & before & _ & _ & Hrow & _ & l & Hlog).
    split.
    + intros Hne. rewrite Hrow. apply get_union_l.
      rewrite lookup_insert_ne by done. rewrite lookup_insert_ne by done.
      apply lookup_singleton_eq.
    + rewrite Hlog. apply elem_of_app. right. listed.
Qed.

(** Up to the quantity step, the tasks leave the quantity of the line
    as it was. *)
Lemma qty_before_set_item data i st :
  Spec.qty_field_kept sc →
  get (row_at i
         (set_warehouse sc i
            (set_barcode sc i (get data "barcode")
               (set_batch_no sc i (get data "batch_no")
                  (set_serial_no sc i (get data "serial_no")
                     (set_barcode_uom sc i (get data "uom")
                        (set_selector_trigger_flag data st)))))))
    (qty_field sc)
  = get (row_at i st) (qty_field sc).
Proof.
  intros [Hkept Hwh].
  pose proof (same_but_before_warehouse sc data i st) as Hsame5.
  set (s5 := set_barcode sc i (get data "barcode") _) in *.
  assert (Hsame6 : Spec.same_but
            [uom_field sc; serial_no_field sc; batch_no_field sc; barcode_field sc;
             get_warehouse_field sc (doc s5)] st (set_warehouse sc i s5)).
  { apply (same_but_trans _ st s5).
    - destruct Hsame5 as (Hh & Hl & Hg). repeat split; [done.. |].
      intros j k Hk. apply Hg. intros Hin. apply Hk.
      rewrite !elem_of_cons in Hin. rewrite !elem_of_cons. tauto.
    - apply same_but_set_warehouse. listed. }
  destruct Hsame6 as (_ & _ & Hg). apply Hg.
  rewrite !elem_of_cons in Hkept. rewrite !elem_of_cons.
  intros [E | [E | [E | [E | [E | Hnil]]]]]; try (apply Hkept; tauto).
  by apply (Hwh (doc s5)).
Qed.

(** X22.  On a form that marks its items as given ([frm.has_items]),
    without a quantity prompt, a scan that is matched to a line and is
    not rejected opens the scan dialog and stays pending: the dialog
    starts with a scanned quantity of 1 and with the line's quantity
    (1 for an empty one) as the quantity to scan, and the quantity of
    the line is not changed before the dialog is confirmed. *)
Theorem update_table_opens_dialog answer data st i :
  Spec.matched_line sc data st = Some i →
  prompt_qty sc = false →
  frm_has_items st = true →
  Spec.qty_field_kept sc →
  let run := update_table sc answer data st in
  run.1 ≠ Rejected →
  run.1 = Pending
  ∧ get (row_at i run.2) (qty_field sc) = get (row_at i st) (qty_field sc)
  ∧ length (items (doc run.2)) = length (items (doc st))
  ∧ ∃ dlg,
      dialog run.2 = Some dlg
      ∧ get dlg "scanned_qty" = VNum (Fin 1)
      ∧ get dlg "qty" = js_or (get (row_at i st) (qty_field sc)) (VNum (Fin 1))
      ∧ ∃ l, log run.2 = l ++ [DialogShow].
Proof.
  intros Hm Hprompt Hhas Hkept run Hnot.
  pose proof (update_table_cases sc answer data st) as Hcases. cbn zeta in Hcases.
  rewrite Hm in Hcases. fold run in Hcases.
  destruct Hcases as (Hi & [(Hrej & _) | Hrun]); [done |].
  rewrite Hrun. unfold update_table_tasks.
  set (st1 := set_trigger_from_barcode_scanner true st).
  pose proof (frm_has_items_before_set_item data i st1) as Hhas6.
  pose proof (qty_before_set_item data i st1 Hkept) as Hqty6.
  pose proof (same_but_before_warehouse sc data i st1) as Hsame5.
  set (s5 := set_barcode sc i (get data "barcode") _) in *.
  set (s6 := set_warehouse sc i s5) in *.
  assert (Hlen6 : length (items (doc s6)) = length (items (doc st))).
  { destruct Hsame5 as (_ & Hl5 & _).
    destruct (same_but_set_warehouse sc [get_warehouse_field sc (doc s5)] i s5)
      as (_ & Hl6 & _); [listed |].
    fold s6 in Hl6. by rewrite Hl6, Hl5. }
  assert (Hhas1 : frm_has_items st1 = true) by exact Hhas.
  unfold set_item. rewrite Hprompt, Hhas6, Hhas1.
  cbn [fst snd]. split; [done |]. split; [exact Hqty6 |]. split; [exact Hlen6 |].
  eexists. split; [reflexivity |].
  change (row_at i st1) with (row_at i st) in Hqty6. rewrite <- Hqty6.
  unfold get_fields_for_dialog.
  split; [| split].
  - repeat case_match; rewrite ?get_insert_ne by done; apply get_insert_eq.
  - repeat case_match; rewrite ?get_insert_ne by done;
      unfold get; by rewrite lookup_singleton_eq.
  - by eexists.
Qed.

End ScanEffects.

(** ** Rejected scans and scans that find nothing *)

Section ScanRejections.
Context `{Frappe} (sc : scanner).

Lemma tasks_not_rejected answer data i is_new_row st :
  (update_table_tasks sc answer data i is_new_row st).1 ≠ Rejected.
Proof.
  unfold update_table_tasks. by destruct (set_item _ _ _ _ _ _ _ _) as [[?|] ?].
Qed.

Lemma doc_play_sound o st : doc (play_sound o st) = doc st.
Proof. unfold play_sound. by repeat case_match. Qed.

Lemma log_play_sound o st :
  log (play_sound o st) =
  log st ++ match o with
            | Some s => if bool_decide (s ≠ "") then [PlaySound s] else []
            | None => []
            end.
Proof. unfold play_sound. repeat case_match; by rewrite ?app_nil_r. Qed.

(** X6.  A rejected scan leaves the document as it was: on a table
    whose new rows start without a serial number, whenever
    [update_table] or [process_scan] rejects, no field of the parent
    document or of any line has changed and no line was added. *)
Theorem rejected_scan_keeps_document answer st :
  get (Spec.fresh_line st) (serial_no_field sc) = VUndef →
  (∀ data st', update_table sc answer data st = (Rejected, st') → doc st' = doc st)
  ∧ (∀ st', process_scan sc answer st = (Rejected, st') → doc st' = doc st).
Proof.
  intros Hfresh.
  assert (Htable : ∀ data s st',
            doc s = doc st →
            update_table sc answer data s = (Rejected, st') → doc st' = doc st).
  { intros data s st' Hs Hrun. rewrite <- Hs.
    pose proof (update_table_cases sc answer data s) as Hcases. cbn zeta in Hcases.
    rewrite Hrun in Hcases.
    destruct (Spec.matched_line sc data s) as [i|].
    - destruct Hcases as (_ & [(_ & Hdoc & _) | Htasks]); [done |].
      exfalso. apply (tasks_not_rejected answer data i
        (negb (truthy (get (row_at i s) "item_code")))
        (set_trigger_from_barcode_scanner true s)). by rewrite <- Htasks.
    - destruct (dont_allow_new_row sc); [by destruct Hcases as (_ & Hdoc & _) |].
      destruct (new_line_start s) as (_ & _ & _ & Hrow & _).
      exfalso. destruct Hcases as [(_ & _ & _ & Hdup) | Htasks].
      + apply Hdup. unfold is_duplicate_serial_no. rewrite Hrow.
        unfold Spec.fresh_line. rewrite Hs. fold (Spec.fresh_line st).
        by rewrite Hfresh.
      + eapply tasks_not_rejected. by rewrite <- Htasks. }
  split; [intros data st'; by apply Htable |].
  intros st'. unfold process_scan.
  destruct (negb (truthy (scan_barcode st))); [done |].
  cbn [doc header emit with_scan_barcode].
  set (st2 := emit (ScanApiCall _ _ _) _).
  destruct (scan_api _ _ _) as [data|].
  - destruct (_ || _).
    { intros [= <-]. rewrite doc_play_sound. done. }
    destruct (truthy (get data "warehouse"));
      [unfold handle_warehouse_scan; by destruct (get data "warehouse") |].
    destruct (update_table sc answer data st2) as [[r| |] s] eqn:Hrun; [done | | done].
    intros [= <-]. rewrite doc_play_sound. by apply (Htable data st2).
  - intros [= <-]. rewrite doc_play_sound. done.
Qed.

(** X7.  A scan that finds nothing is rejected and changes nothing:
    when the scan API answers without a message, with an empty message,
    or with a warehouse on a form that has no last-scanned-warehouse
    field, [process_scan] shows the red alert (worded for the form),
    cleans up, plays the fail sound if one is set, and rejects; the
    document and the flags are as they were. *)
Theorem process_scan_not_found answer st :
  truthy (scan_barcode st) = true →
  let reply :=
    scan_api (scan_barcode st) (get (header (doc st)) "set_warehouse")
      (get (header (doc st)) "company") in
  reply = None ∨ reply = Some ∅
  ∨ (∃ data, reply = Some data ∧ truthy (get data "warehouse") = true
             ∧ has_last_scanned_warehouse sc = false) →
  ∃ st',
    process_scan sc answer st = (Rejected, st')
    ∧ doc st' = doc st
    ∧ trigger_from_barcode_scanner st' = trigger_from_barcode_scanner st
    ∧ hide_serial_batch_dialog st' = hide_serial_batch_dialog st
    ∧ scan_barcode st' = VStr ""
    ∧ log st' =
        log st
        ++ [ClearScanField;
            ScanApiCall (scan_barcode st) (get (header (doc st)) "set_warehouse")
              (get (header (doc st)) "company");
            ShowAlert (if has_last_scanned_warehouse sc
                       then CannotFindItemOrWarehouse else CannotFindItem) "red";
            CleanUp]
        ++ match fail_sound sc with
           | Some s => if bool_decide (s ≠ "") then [PlaySound s] else []
           | None => []
           end.
Proof.
  intros Hinput reply Hreply. unfold process_scan. rewrite Hinput. cbn [negb].
  cbn [doc header emit with_scan_barcode]. fold reply.
  set (st2 := emit (ScanApiCall _ _ _) _).
  set (rejected :=
    (Rejected,
     play_sound (fail_sound sc)
       (clean_up (show_alert (if has_last_scanned_warehouse sc
                              then CannotFindItemOrWarehouse else CannotFindItem)
                    "red" st2)))).
  assert (Hrej : ∃ st', rejected = (Rejected, st')
            ∧ doc st' = doc st
            ∧ trigger_from_barcode_scanner st' = trigger_from_barcode_scanner st
            ∧ hide_serial_batch_dialog st' = hide_serial_batch_dialog st
            ∧ scan_barcode st' = VStr ""
            ∧ log st' =
                log st
                ++ [ClearScanField;
                    ScanApiCall (scan_barcode st) (get (header (doc st)) "set_warehouse")
                      (get (header (doc st)) "company");
                    ShowAlert (if has_last_scanned_warehouse sc
                               then CannotFindItemOrWarehouse else CannotFindItem) "red";
                    CleanUp]
                ++ match fail_sound sc with
                   | Some s => if bool_decide (s ≠ "") then [PlaySound s] else []
                   | None => []
                   end).
  { eexists. split; [reflexivity |]. rewrite doc_play_sound, log_play_sound.
    split; [done |]. split; [unfold play_sound; by repeat case_match |].
    split; [unfold play_sound; by repeat case_match |].
    split; [unfold play_sound; by repeat case_match |].
    cbn. by rewrite <- !app_assoc. }
  destruct Hreply as [-> | [-> | (data & -> & Hwh & Hlsw)]].
  - exact Hrej.
  - rewrite bool_decide_eq_true_2 by done. exact Hrej.
  - rewrite Hwh. replace (negb (has_last_scanned_warehouse sc)) with true
      by (by rewrite Hlsw).
    cbn [andb]. rewrite orb_true_r. exact Hrej.
Qed.

End ScanRejections.

(** ** The scan dialog *)

Section ScanDialog.
Context `{Frappe} (sc : scanner).

Lemma row_at_add_child_for_remaining_qty prev i st :
  i < length (items (doc st)) →
  row_at i (add_child_for_remaining_qty sc prev st) = row_at i st.
Proof.
  intros Hi. unfold add_child_for_remaining_qty.
  destruct (_ && _); [| done]. cbn [add_child].
  destruct (bool_decide _ && has_field _); unfold row_at; cbn;
    (rewrite list_lookup_insert_ne by lia); by rewrite lookup_app_l.
Qed.

(** The dialog's action up to the split: the line takes the item code,
    the scanned quantity and the scanned mark. *)
Lemma primary_action_line i item_code dlg st :
  is_Some (items (doc st) !! i) →
  let item_data : row :=
    <["has_item_scanned" := VNum (Fin 1)]>
      (<[qty_field sc := get dlg "scanned_qty"]> {["item_code" := item_code]}) in
  ∀ k, k ∉ [batch_no_field sc; barcode_field sc; serial_no_field sc] →
    get (row_at i (primary_action sc i item_code dlg st)) k =
    get (item_data ∪ row_at i st) k.
Proof.
  intros Hi item_data k Hk. unfold primary_action. fold item_data.
  set (s1 := with_remaining_qty _ st).
  set (s2 := set_value i item_data s1).
  set (s2' := emit DialogHide (with_dialog None s2)).
  destruct (dialog_writes sc i (get dlg "batch_no") (get dlg "barcode")
              (get dlg "serial_no") s2') as (_ & _ & Hsame5).
  set (s5 := set_serial_no sc i _ (set_barcode sc i _ (set_batch_no sc i _ s2'))) in *.
  assert (Hi5 : i < length (items (doc s5))).
  { destruct Hsame5 as (_ & -> & _). cbn. rewrite length_alter.
    by apply lookup_lt_is_Some. }
  transitivity (get (row_at i (add_child_for_remaining_qty sc i s5)) k); [done |].
  rewrite row_at_add_child_for_remaining_qty by done.
  destruct Hsame5 as (_ & _ & Hg). rewrite Hg by done.
  change (row_at i s2') with (row_at i s2).
  unfold s2. by rewrite row_at_set_value.
Qed.

(** The three writes of the dialog's action leave the dialog as it
    is. *)
Lemma dialog_dialog_writes i batch_no barcode serial_no st :
  dialog (set_serial_no sc i serial_no
            (set_barcode sc i barcode (set_batch_no sc i batch_no st)))
  = dialog st.
Proof. unfold set_serial_no, set_barcode, set_batch_no. by repeat case_match. Qed.

(** X8.  Confirming the scan dialog with the full quantity, or more:
    when the scanned quantity is not below the quantity to scan, no
    line is added and no other line changes; the line takes the
    scanned quantity, the dialog is closed and the scan field is
    empty. *)
Theorem primary_action_full_quantity i item_code dlg st q c :
  is_Some (items (doc st) !! i) →
  get dlg "qty" = VNum (Fin q) →
  get dlg "scanned_qty" = VNum (Fin c) →
  (q ≤ c)%Z →
  qty_field sc ∉
    [batch_no_field sc; barcode_field sc; serial_no_field sc; "has_item_scanned"] →
  let st' := primary_action sc i item_code dlg st in
  length (items (doc st')) = length (items (doc st))
  ∧ (∀ j, j ≠ i → items (doc st') !! j = items (doc st) !! j)
  ∧ get (row_at i st') (qty_field sc) = VNum (Fin c)
  ∧ dialog st' = None
  ∧ scan_barcode st' = VStr "".
Proof.
  intros Hi Hq Hc Hle Hfields st'.
  assert (Hqty : get (row_at i st') (qty_field sc) = VNum (Fin c)).
  { unfold st'. rewrite primary_action_line; [| done |].
    - apply get_union_l. rewrite lookup_insert_ne, lookup_insert_eq;
        [by rewrite Hc |].
      intros E. apply Hfields. rewrite <- E. listed.
    - intros Hin. apply Hfields. rewrite !elem_of_cons in Hin.
      rewrite !elem_of_cons. tauto. }
  assert (Hitems : items (doc st') =
            <[i := row_at i st']> (alter (λ r, r) i (items (doc st)))
          ∧ dialog st' = None ∧ scan_barcode st' = VStr "").
  { unfold st', primary_action. rewrite Hq, Hc. cbn [flt num_sub].
    set (item_data := <["has_item_scanned" := VNum (Fin 1)]> _).
    set (s1 := with_remaining_qty _ st).
    set (s2 := set_value i item_data s1).
    set (s2' := emit DialogHide (with_dialog None s2)).
    destruct (dialog_writes sc i (get dlg "batch_no") (get dlg "barcode")
                (get dlg "serial_no") s2') as (Hitems5 & Hrem5 & _).
    pose proof (dialog_dialog_writes i (get dlg "batch_no") (get dlg "barcode")
                  (get dlg "serial_no") s2') as Hdlg5.
    set (s5 := set_serial_no sc i _ (set_barcode sc i _ (set_batch_no sc i _ s2'))) in *.
    assert (Hno : add_child_for_remaining_qty sc i s5 = s5).
    { unfold add_child_for_remaining_qty. rewrite Hrem5. cbn.
      rewrite (bool_decide_eq_false_2 (0 < q - c)%Z) by lia.
      by rewrite andb_false_r. }
    rewrite Hno. split; [| split; [exact Hdlg5 | done]].
    change (items (doc (clean_up s5))) with (items (doc s5)).
    change (row_at i (clean_up s5)) with (row_at i s5).
    rewrite Hitems5. change (items (doc s2')) with (items (doc s2)).
    unfold s2. rewrite items_set_value.
    rewrite list_insert_insert_eq. apply list_eq. intros j.
    destruct (decide (i = j)) as [<- | Hne].
    - rewrite !list_lookup_insert_eq; [done | |];
        rewrite ?length_alter; by apply lookup_lt_is_Some.
    - rewrite !list_lookup_insert_ne by done. cbn.
      by rewrite list_lookup_alter_ne. }
  destruct Hitems as (Hitems & Hdlg & Hscan).
  split; [| split; [| split; [exact Hqty | done]]].
  - rewrite Hitems. by rewrite length_insert, length_alter.
  - intros j Hj. rewrite Hitems. rewrite list_lookup_insert_ne by done.
    by rewrite list_lookup_alter_ne.
Qed.

(** X9.  A line confirmed in the scan dialog is marked as scanned and
    the matcher never returns it again: after the dialog's action on
    a line, for an item code that is not empty, no later scan is
    matched to that line, whatever it carries. *)
Theorem confirmed_line_is_not_matched_again i item_code dlg st :
  is_Some (items (doc st) !! i) →
  truthy item_code = true →
  "has_item_scanned" ∉ [batch_no_field sc; barcode_field sc; serial_no_field sc] →
  "item_code" ∉ [qty_field sc; batch_no_field sc; barcode_field sc; serial_no_field sc] →
  let st' := primary_action sc i item_code dlg st in
  get (row_at i st') "has_item_scanned" = VNum (Fin 1)
  ∧ ∀ item_code' batch_no uom barcode default_warehouse,
      get_row_to_modify_on_scan sc (doc st') item_code' batch_no uom barcode
        default_warehouse ≠ Some i.
Proof.
  intros Hi Hcode Hmark Hitem st'.
  assert (Hscanned : get (row_at i st') "has_item_scanned" = VNum (Fin 1)).
  { unfold st'. rewrite primary_action_line by done.
    apply get_union_l, lookup_insert_eq. }
  assert (Hcode' : get (row_at i st') "item_code" = item_code).
  { unfold st'. rewrite primary_action_line; [| done |].
    - apply get_union_l. rewrite lookup_insert_ne by done.
      rewrite lookup_insert_ne; [apply lookup_singleton_eq |].
      intros E. apply Hitem. rewrite <- E. listed.
    - intros Hin. apply Hitem. rewrite !elem_of_cons in Hin.
      rewrite !elem_of_cons. tauto. }
  split; [done |].
  intros item_code' batch_no uom barcode default_warehouse Hfound.
  destruct (found_row sc _ _ _ _ _ _ i Hfound) as (r & Hr & Hwhy).
  assert (r = row_at i st') as -> by (unfold row_at; by rewrite Hr).
  destruct Hwhy as [(_ & _ & _ & _ & Hnot & _) | Hph].
  - rewrite Hscanned in Hnot. done.
  - unfold Spec.placeholder in Hph. rewrite Hcode', Hcode in Hph. done.
Qed.

Lemma get_dialog_set_value k v dlg k' :
  k ≠ k' → get (dialog_set_value k v dlg) k' = get dlg k'.
Proof.
  intros Hk. unfold dialog_set_value. case_match; [| done].
  by apply get_insert_ne.
Qed.

Lemma get_dialog_set_value_eq k v dlg :
  is_Some (dlg !! k) → get (dialog_set_value k v dlg) k = v.
Proof.
  intros Hk. unfold dialog_set_value.
  rewrite (bool_decide_eq_true_2 (is_Some (dlg !! k))) by done.
  rewrite orb_true_r. apply get_insert_eq.
Qed.

Lemma lookup_dialog_set_value k v dlg k' :
  is_Some (dlg !! k') → is_Some (dialog_set_value k v dlg !! k').
Proof.
  intros Hk. unfold dialog_set_value. case_match; [| done].
  destruct (decide (k = k')) as [-> |].
  - rewrite lookup_insert_eq. by eexists.
  - by rewrite lookup_insert_ne.
Qed.

Lemma get_is_Some (r : row) k v : get r k = v → v ≠ VUndef → is_Some (r !! k).
Proof.
  unfold get. intros Hg Hv. destruct (r !! k); [by eexists |]. by subst v.
Qed.

(** The dialog's test passes a serial number that is none of the
    lines of the dialog's serial field. *)
Lemma validate_duplicate_serial_no_new serial_no dlg :
  (∀ n, get dlg "serial_no" ≠ VNum n) →
  (∀ s, serial_no = VStr s → s ∉ Spec.serials_of (get dlg "serial_no")) →
  validate_duplicate_serial_no serial_no dlg = None.
Proof.
  intros Htext Hnew. unfold validate_duplicate_serial_no.
  assert (Hlist : ∀ l : list string, (∀ s, serial_no = VStr s → s ∉ l) →
            match serial_no with
            | VStr s =>
                if bool_decide (s ∈ l) then Some (SerialNoAlreadyScanned serial_no)
                else None
            | _ => None
            end = None).
  { intros l Hl. destruct serial_no as [| | |s]; try done.
    by rewrite bool_decide_eq_false_2 by by apply Hl. }
  destruct (get dlg "serial_no") as [| |n|text] eqn:Hheld.
  - cbn. apply Hlist. intros s _. apply not_elem_of_nil.
  - cbn. apply Hlist. intros s _. apply not_elem_of_nil.
  - by destruct (Htext n).
  - unfold Spec.serials_of in Hnew.
    change (truthy (VStr text)) with (bool_decide (text ≠ "")).
    destruct (decide (text = "")) as [-> | Hne].
    + rewrite (bool_decide_eq_false_2 ("" ≠ "")) by (intros Hn; by apply Hn).
      apply Hlist. intros s _. apply not_elem_of_nil.
    + rewrite (bool_decide_eq_true_2 (text ≠ "")) by done.
      rewrite (bool_decide_eq_false_2 (text = "")) in Hnew by done.
      by apply Hlist.
Qed.

(** X10.  A scan inside the dialog that is accepted counts one: when
    the scan API answers for the dialog's item, with the dialog's
    barcode or with a batch or a serial number that the dialog does
    not hold yet, the scanned quantity goes up by exactly 1; the
    quantity to scan and the document are untouched, and nothing is
    written to a line before the dialog is confirmed. *)
Theorem dialog_scan_counts_one item_code input st dlg message :
  dialog st = Some dlg →
  truthy input = true →
  scan_api input (get (header (doc st)) "set_warehouse")
    (get (header (doc st)) "company") = Some message →
  strict_eq (get message "item_code") item_code = true →
  strict_eq (get dlg "barcode") (get message "barcode")
  || truthy (get message "batch_no") || truthy (get message "serial_no") = true →
  is_Some (dlg !! "scanned_qty") →
  (∀ n, get dlg "serial_no" ≠ VNum n) →
  (∀ s, get message "serial_no" = VStr s →
        s ∉ Spec.serials_of (get dlg "serial_no")) →
  ∃ st' dlg',
    dialog_scan item_code input st = (None, st')
    ∧ dialog st' = Some dlg'
    ∧ get dlg' "scanned_qty" = VNum (num_add (flt (get dlg "scanned_qty")) (Fin 1))
    ∧ get dlg' "qty" = get dlg "qty"
    ∧ get dlg' "barcode_scanner" = VStr ""
    ∧ doc st' = doc st
    ∧ log st' =
        log st ++ [ScanApiCall input (get (header (doc st)) "set_warehouse")
                     (get (header (doc st)) "company")].
Proof.
  intros Hdlg Hinput Hreply Hitem Hcond Hqty Htext Hnew.
  assert (Hvalid : ∀ d, get d "serial_no" = get dlg "serial_no" →
            validate_duplicate_serial_no (get message "serial_no") d = None).
  { intros d Hd. by apply validate_duplicate_serial_no_new; rewrite Hd. }
  unfold dialog_scan. rewrite Hdlg, Hinput, Hreply.
  unfold update_dialog_values. rewrite Hitem.
  rewrite get_dialog_set_value by done. rewrite Hcond. cbn [andb].
  set (d1 := dialog_set_value "barcode_scanner" (VStr "") dlg) in *.
  set (d2 := if truthy (get message "batch_no")
             then dialog_set_value "batch_no" (get message "batch_no") d1 else d1) in *.
  assert (Hq2 : get d2 "scanned_qty" = get dlg "scanned_qty"
                ∧ get d2 "qty" = get dlg "qty"
                ∧ get d2 "barcode_scanner" = VStr ""
                ∧ is_Some (d2 !! "scanned_qty")).
  { unfold d2, d1. destruct (truthy (get message "batch_no"));
      rewrite ?get_dialog_set_value by done;
      (split; [done |]); (split; [done |]);
      (split; [unfold dialog_set_value at 1; cbn; apply get_insert_eq |]);
      by repeat apply lookup_dialog_set_value. }
  destruct Hq2 as (Hs2 & Hq2 & Hb2 & Hsome2).
  destruct (truthy (get message "serial_no")).
  - rewrite Hvalid.
    2: { unfold d2, d1. destruct (truthy (get message "batch_no"));
           by rewrite ?get_dialog_set_value by done. }
    eexists _, _. split; [reflexivity |]. split; [reflexivity |].
    rewrite get_dialog_set_value_eq by by apply lookup_dialog_set_value.
    rewrite !get_dialog_set_value by done.
    by rewrite Hs2, Hq2, Hb2.
  - eexists _, _. split; [reflexivity |]. split; [reflexivity |].
    rewrite get_dialog_set_value_eq by done.
    rewrite !get_dialog_set_value by done.
    by rewrite Hs2, Hq2, Hb2.
Qed.

(** X11.  The dialog's duplicate test is membership in the list of the
    serial numbers it holds: for a reply of the dialog's item with a
    serial number, [update_dialog_values] throws exactly when that
    serial number is one of the lines of the dialog's serial field;
    then the scanned quantity and the serial field are as they were.
    Otherwise the serial number is appended on a new line. *)
Theorem dialog_duplicate_serial_is_exact scanned_item message dlg s text :
  strict_eq (get message "item_code") scanned_item = true →
  get message "serial_no" = VStr s → s ≠ "" →
  get dlg "serial_no" = VStr text →
  let run := update_dialog_values scanned_item message dlg in
  (s ∈ Spec.serials_of (VStr text) →
   run.1 = Some (SerialNoAlreadyScanned (VStr s))
   ∧ get run.2 "scanned_qty" = get dlg "scanned_qty"
   ∧ get run.2 "serial_no" = VStr text)
  ∧ (s ∉ Spec.serials_of (VStr text) →
     run.1 = None
     ∧ get run.2 "serial_no" = VStr (text +:+ nl +:+ s)).
Proof.
  intros Hitem Hserial Hs Htext run. unfold run, update_dialog_values.
  rewrite Hitem, Hserial. cbn [truthy].
  rewrite (bool_decide_eq_true_2 (s ≠ "")) by done.
  rewrite orb_true_r. cbn [andb].
  set (d1 := dialog_set_value "barcode_scanner" (VStr "") dlg).
  set (d2 := if truthy (get message "batch_no")
             then dialog_set_value "batch_no" (get message "batch_no") d1 else d1).
  assert (Hsome : is_Some (dlg !! "serial_no")) by by eapply get_is_Some.
  assert (H2 : get d2 "serial_no" = VStr text
               ∧ get d2 "scanned_qty" = get dlg "scanned_qty"
               ∧ is_Some (d2 !! "serial_no")).
  { unfold d2, d1. destruct (truthy (get message "batch_no"));
      rewrite ?get_dialog_set_value by done; (split; [done |]); (split; [done |]);
      by repeat apply lookup_dialog_set_value. }
  destruct H2 as (Ht2 & Hq2 & Hsome2).
  unfold validate_duplicate_serial_no. rewrite Ht2. unfold Spec.serials_of.
  change (truthy (VStr text)) with (bool_decide (text ≠ "")).
  change (to_str (VStr text)) with text. change (to_str (VStr s)) with s.
  assert (Happend : ∀ v,
            get (dialog_set_value "scanned_qty" v
                   (dialog_set_value "serial_no" (VStr (text +:+ nl +:+ s)) d2))
              "serial_no" = VStr (text +:+ nl +:+ s)).
  { intros v. rewrite get_dialog_set_value by done.
    by rewrite get_dialog_set_value_eq. }
  destruct (decide (text = "")) as [-> | Hne].
  - rewrite (bool_decide_eq_false_2 ("" ≠ "")) by (intros Hn; by apply Hn).
    rewrite (bool_decide_eq_true_2 ("" = "")) by done.
    rewrite (bool_decide_eq_false_2 (s ∈ [])) by apply not_elem_of_nil.
    split; [by intros ?%not_elem_of_nil |]. intros _. split; [done |].
    apply Happend.
  - rewrite (bool_decide_eq_true_2 (text ≠ "")) by done.
    rewrite (bool_decide_eq_false_2 (text = "")) by done.
    destruct (decide (s ∈ split (ascii_of_nat 10) text)) as [Hin | Hout].
    + rewrite bool_decide_eq_true_2 by done. split; [| done].
      intros _. done.
    + rewrite bool_decide_eq_false_2 by done. split; [done |].
      intros _. split; [done |]. apply Happend.
Qed.

End ScanDialog.

(** ** The cart update of the point of sale *)

Section CartUpdate.
Import PointOfSale.
Context `{Frappe}.

(** [on_cart_update] for an item that has no line in the cart. *)
Lemma on_cart_update_new field v item st :
  get_item_from_frm item st = None →
  on_cart_update field v item st =
  match add_new field
          (if bool_decide (field = "qty") && strict_eq v (VStr "+1")
           then VNum (num_add (Fin 0) (flt v)) else v)
          item (emit Freeze st) with
  | (Ok, s) => emit Unfreeze s
  | (Thrown e, s) => emit Unfreeze (emit (ConsoleLog e) s)
  end.
Proof.
  intros Hnone. unfold on_cart_update.
  change (get_item_from_frm item (emit Freeze st)) with (get_item_from_frm item st).
  by rewrite Hnone.
Qed.

(** [on_cart_update] for an item that has a line in the cart. *)
Lemma on_cart_update_existing field v item st i :
  get_item_from_frm item st = Some i → row_at i st ≠ ∅ →
  on_cart_update field v item st =
  match update_existing i field
          (if bool_decide (field = "qty") && strict_eq v (VStr "+1")
           then VNum (num_add (flt (get (row_at i st) "qty")) (flt v)) else v)
          (bool_decide (field = "qty") && strict_eq v (VStr "+1"))
          item (emit Freeze st) with
  | (Ok, s) => emit Unfreeze s
  | (Thrown e, s) => emit Unfreeze (emit (ConsoleLog e) s)
  end.
Proof.
  intros Hfound Hrow. unfold on_cart_update.
  change (get_item_from_frm item (emit Freeze st)) with (get_item_from_frm item st).
  rewrite Hfound.
  change (row_at i (emit Freeze st)) with (row_at i st).
  by rewrite bool_decide_eq_false_2.
Qed.


(** What the availability check does to the cart: nothing, or, when it
    throws for an item that is not available, the removal of the
    line.  It writes no field. *)
Lemma check_stock_availability_cart i qty_needed warehouse st :
  let run := check_stock_availability i qty_needed warehouse st in
  (items run.2 = items st
   ∨ items run.2 = clear_doc (get (row_at i st) "name") (items st)
     ∧ ∃ a b, run.1 = Thrown (NotAvailable a b))
  ∧ current_item_name run.2 = current_item_name st
  ∧ ∃ l, log run.2 = log st ++ l ∧ ∀ e, e ∈ l → is_set_value e = false.
Proof.
  assert (Hall : ∀ l : list event,
            Forall (λ e, is_set_value e = false) l → ∀ e, e ∈ l → is_set_value e = false).
  { intros l Hl e He. by eapply Forall_forall in Hl. }
  unfold check_stock_availability, get_available_stock.
  repeat case_match; cbn; (split; [eauto |]); (split; [done |]);
    rewrite <- ?app_assoc; eexists; (split; [reflexivity |]);
    apply Hall; repeat constructor.
Qed.

Lemma filter_set_value_app (l l' : list event) :
  (∀ e, e ∈ l' → is_set_value e = false) →
  filter (λ e, is_set_value e = true) (l ++ l')
  = filter (λ e, is_set_value e = true) l.
Proof.
  intros Hl'. rewrite filter_app.
  replace (filter (λ e, is_set_value e = true) l') with (@nil event);
    [by rewrite app_nil_r |].
  symmetry. induction l' as [|e l' IH]; [done |].
  rewrite filter_cons_False.
  - apply IH. intros e' He'. apply Hl'. by right.
  - rewrite (Hl' e) by by left. done.
Qed.

(** X12.  The guards of a new line: for an item that has no line in
    the cart, [on_cart_update] adds nothing, asks no remote service
    and leaves the stock map alone when the invoice has no customer,
    when the item has no item code, or when its rate is unset or zero;
    it shows the customer alert in the first case, nothing in the
    second and the price alert in the third. *)
Theorem on_cart_update_guards field v item st :
  get_item_from_frm item st = None →
  truthy (get (header st) "customer") = false
  ∨ truthy (get item "item_code") = false
  ∨ loose_eq (get item "rate") VUndef || loose_eq (get item "rate") (VNum (Fin 0))
    = true →
  let st' := on_cart_update field v item st in
  items st' = items st
  ∧ item_stock_map st' = item_stock_map st
  ∧ log st' =
      log st ++ [Freeze]
      ++ (if negb (truthy (get (header st) "customer"))
          then [Unfreeze;
                ShowAlert "You must select a customer before adding an item.";
                PlaySound "error"]
          else if negb (truthy (get item "item_code")) then []
          else [ShowAlert "Price is not set for the item."; PlaySound "error"])
      ++ [Unfreeze].
Proof.
  intros Hnone Hguard st'. unfold st'. rewrite on_cart_update_new by done.
  unfold add_new. cbn [header emit].
  destruct (negb (truthy (get (header st) "customer"))) eqn:Hcustomer.
  { cbn. by rewrite <- !app_assoc. }
  destruct (negb (truthy (get item "item_code"))) eqn:Hcode.
  { cbn. by rewrite <- !app_assoc. }
  destruct Hguard as [Hg | [Hg | Hg]].
  - by rewrite Hg in Hcustomer.
  - by rewrite Hg in Hcode.
  - rewrite Hg. cbn. by rewrite <- !app_assoc.
Qed.

(** X13.  A serial number that is reserved for another invoice never
    reaches the cart: when the item has no line yet and its serial
    number is among those the reservation service reports,
    [on_cart_update] asks that service once, adds no line, makes no
    availability query, and logs the error it threw. *)
Theorem reserved_serial_is_not_added field v item st s :
  get_item_from_frm item st = None →
  truthy (get (header st) "customer") = true →
  truthy (get item "item_code") = true →
  loose_eq (get item "rate") VUndef || loose_eq (get item "rate") (VNum (Fin 0))
    = false →
  get item "serial_no" = VStr s → s ≠ "" →
  VStr s ∈ get_pos_reserved_serial_nos st (get item "item_code")
             (get (header st) "set_warehouse") →
  let st' := on_cart_update field v item st in
  items st' = items st
  ∧ stock_queries st' = stock_queries st
  ∧ log st' =
      log st
      ++ [Freeze;
          ReservedSerialNosCall (get item "item_code") (get (header st) "set_warehouse");
          ConsoleLog (SerialNoTransacted ("<b>" +:+ s +:+ "</b>"));
          Unfreeze].
Proof.
  intros Hnone Hcustomer Hcode Hrate Hserial Hs Hreserved st'. unfold st'.
  rewrite on_cart_update_new by done.
  unfold add_new. cbn [header emit]. rewrite Hcustomer, Hcode, Hrate, Hserial.
  cbn [negb truthy]. rewrite (bool_decide_eq_true_2 (s ≠ "")) by done.
  unfold check_serial_no_availablilty. cbn [emit get_pos_reserved_serial_nos].
  assert (Hex : existsb (strict_eq (VStr s))
            (get_pos_reserved_serial_nos st (get item "item_code")
               (get (header st) "set_warehouse")) = true).
  { apply existsb_exists. exists (VStr s). split; [by apply list_elem_of_In |].
    cbn. by apply bool_decide_eq_true_2. }
  rewrite Hex. cbn. split; [done |]. split.
  - unfold stock_queries. cbn. rewrite !filter_app. cbn.
    by rewrite !app_nil_r.
  - by rewrite <- !app_assoc.
Qed.

(** X14.  An edit is written only to the line that is open in the
    details pane: when the item's line is not the current one and the
    update does not come from the item selector, [on_cart_update]
    writes no field; the cart's lines are as they were, unless the
    availability check found the item not available and removed its
    line. *)
Theorem edit_of_other_line_is_not_written field v item st i :
  get_item_from_frm item st = Some i → row_at i st ≠ ∅ →
  is_current_item_being_edited (row_at i st) st = false →
  bool_decide (field = "qty") && strict_eq v (VStr "+1") = false →
  let st' := on_cart_update field v item st in
  (items st' = items st
   ∨ items st' = clear_doc (get (row_at i st) "name") (items st))
  ∧ filter (λ e, is_set_value e = true) (log st')
    = filter (λ e, is_set_value e = true) (log st).
Proof.
  intros Hfound Hrow Hcurrent Hselector st'. unfold st'.
  rewrite (on_cart_update_existing _ _ _ _ i) by done. rewrite Hselector.
  unfold update_existing.
  change (row_at i (emit Freeze st)) with (row_at i st).
  set (v' := if bool_decide (field = "qty") then VNum (flt v) else v).
  set (st0 := emit Freeze st).
  assert (Hquiet : ∀ l : list event,
            Forall (λ e, is_set_value e = false) l →
            ∀ e, e ∈ l → is_set_value e = false).
  { intros l Hl e He. by eapply Forall_forall in Hl. }
  destruct (check_due_on_edit field v' st0).
  - pose proof (check_stock_availability_cart i
      (if bool_decide (field = "qty")
       then num_mul (Number v') (Number (get (row_at i st) "conversion_factor"))
       else num_mul (Number (get (row_at i st) "qty")) (Number v'))
      (get (header st0) "set_warehouse") st0) as (Hitems & Hname & l & Hlog & Hl).
    change (row_at i st0) with (row_at i st) in Hitems.
    change (items st0) with (items st) in Hitems.
    destruct (check_stock_availability _ _ _ _) as [[|e] s]; cbn [fst snd] in *.
    + unfold is_current_item_being_edited in *. rewrite Hname.
      change (current_item_name st0) with (current_item_name st).
      rewrite Hcurrent. cbn [orb emit items log]. split.
      * destruct Hitems as [-> | [-> _]]; auto.
      * rewrite Hlog. cbn [log emit st0]. rewrite <- !app_assoc.
        apply filter_set_value_app. intros e He.
        rewrite !elem_of_app in He. destruct He as [He | [He | He]].
        -- apply (Hquiet [Freeze]); [repeat constructor | done].
        -- by apply Hl.
        -- apply (Hquiet [Unfreeze]); [repeat constructor | done].
    + cbn [emit items log]. split.
      * destruct Hitems as [-> | [-> _]]; auto.
      * rewrite Hlog. cbn [log emit st0]. rewrite <- !app_assoc.
        apply filter_set_value_app. intros e' He.
        rewrite !elem_of_app in He. destruct He as [He | [He | [He | He]]].
        -- apply (Hquiet [Freeze]); [repeat constructor | done].
        -- by apply Hl.
        -- apply (Hquiet [ConsoleLog e]); [repeat constructor | done].
        -- apply (Hquiet [Unfreeze]); [repeat constructor | done].
  - unfold is_current_item_being_edited in *.
    change (current_item_name st0) with (current_item_name st).
    rewrite Hcurrent. cbn. rewrite filter_app. cbn. rewrite app_nil_r.
    split; [by left | by rewrite filter_app, app_nil_r].
Qed.


(** X16.  A new line carries the clicked item: for an item that has no
    line in the cart and no serial number, on an invoice with a
    customer and with a price set, [on_cart_update] on the quantity,
    unless a check throws (the error is then logged), appends exactly
    one line, which has the item's code and rate, the profile's
    warehouse and the serial-batch-fields mark; the lines before it
    are as they were. *)
Theorem on_cart_update_adds_line v item st :
  get_item_from_frm item st = None →
  truthy (get (header st) "customer") = true →
  truthy (get item "item_code") = true →
  loose_eq (get item "rate") VUndef || loose_eq (get item "rate") (VNum (Fin 0))
    = false →
  truthy (get item "serial_no") = false →
  let st' := on_cart_update "qty" v item st in
  (∃ l e, log st' = log st ++ l ++ [ConsoleLog e; Unfreeze])
  ∨ ∃ r,
      items st' = items st ++ [r]
      ∧ get r "item_code" = get item "item_code"
      ∧ get r "rate" = get item "rate"
      ∧ get r "use_serial_batch_fields" = VNum (Fin 1)
      ∧ (settings_warehouse st ≠ VUndef → get r "warehouse" = settings_warehouse st)
      ∧ (v ≠ VStr "+1" → v ≠ VUndef → get r "qty" = v)
      ∧ (v = VStr "+1" → get r "qty" = VNum (Fin (flt_str "+1"))).
Proof.
  intros Hnone Hcustomer Hcode Hrate Hserial st'. unfold st'.
  rewrite on_cart_update_new by done.
  rewrite (bool_decide_eq_true_2 ("qty" = "qty")) by done. cbn [andb].
  set (v' := if strict_eq v (VStr "+1") then VNum (num_add (Fin 0) (flt v)) else v).
  unfold add_new. cbn [header emit]. rewrite Hcustomer, Hcode, Hrate, Hserial.
  cbn [negb]. rewrite (bool_decide_eq_false_2 ("qty" = "serial_no")) by done.
  set (new_item := <["warehouse" := _]> _).
  cbn [add_child].
  set (fresh := <["idx" := _]> _).
  set (d := filter _ new_item).
  set (st1 := emit (AddChild _) _).
  assert (Hst1 : items st1 = items st ++ [d ∪ fresh]
                 ∧ log st1 = log st ++ [Freeze; AddChild (length (items st))]).
  { cbn. by rewrite <- app_assoc. }
  destruct Hst1 as (Hitems1 & Hlog1).
  assert (Hd : ∀ k x, k ∉ ["idx"; "name"] → x ≠ VUndef →
            new_item !! k = Some x → get (d ∪ fresh) k = x).
  { intros k x Hk Hx Hnew. apply get_union_l. unfold d.
    apply map_lookup_filter_Some. done. }
  assert (Hline : get (d ∪ fresh) "item_code" = get item "item_code"
            ∧ get (d ∪ fresh) "rate" = get item "rate"
            ∧ get (d ∪ fresh) "use_serial_batch_fields" = VNum (Fin 1)
            ∧ (settings_warehouse st ≠ VUndef →
               get (d ∪ fresh) "warehouse" = settings_warehouse st)
            ∧ (v' ≠ VUndef → get (d ∪ fresh) "qty" = v')).
  { split; [| split; [| split; [| split]]].
    - apply Hd.
      + rewrite !elem_of_cons. intros [? | [? | ?%not_elem_of_nil]]; done.
      + intros E. by rewrite E in Hcode.
      + unfold new_item. by rewrite !lookup_insert_ne, lookup_singleton_eq.
    - apply Hd.
      + rewrite !elem_of_cons. intros [? | [? | ?%not_elem_of_nil]]; done.
      + intros E. by rewrite E in Hrate.
      + unfold new_item. rewrite !lookup_insert_ne by done.
        by rewrite lookup_insert_eq.
    - apply Hd.
      + rewrite !elem_of_cons. intros [? | [? | ?%not_elem_of_nil]]; done.
      + done.
      + unfold new_item. rewrite lookup_insert_ne by done.
        by rewrite lookup_insert_eq.
    - intros Hw. apply Hd.
      + rewrite !elem_of_cons. intros [? | [? | ?%not_elem_of_nil]]; done.
      + done.
      + unfold new_item. by rewrite lookup_insert_eq.
    - intros Hv. apply Hd.
      + rewrite !elem_of_cons. intros [? | [? | ?%not_elem_of_nil]]; done.
      + done.
      + unfold new_item. rewrite !lookup_insert_ne by done.
        by rewrite lookup_insert_eq. }
  assert (Hchecked : ∀ checked : result * state,
            (checked = (Ok, st1)
             ∨ ∃ n, checked = check_stock_availability (length (items st)) n
                                (get (header st1) "set_warehouse") st1) →
            (∃ e l, checked.1 = Thrown e ∧ log checked.2 = log st ++ l)
            ∨ checked.1 = Ok ∧ items checked.2 = items st ++ [d ∪ fresh]).
  { intros checked [-> | [n ->]]; [by right |].
    pose proof (check_stock_availability_cart (length (items st)) n
                  (get (header st1) "set_warehouse") st1)
      as (Hitems & _ & l & Hlog & _).
    destruct (check_stock_availability _ _ _ _) as [[|e] s]; cbn [fst snd] in *.
    - right. split; [done |]. rewrite <- Hitems1.
      destruct Hitems as [-> | [_ (a & b & [=])]]. done.
    - left. exists e, ([Freeze; AddChild (length (items st))] ++ l).
      split; [done |]. rewrite Hlog, Hlog1. by rewrite <- app_assoc. }
  set (checked := if check_due_on_add "qty" v' st1 then _ else (Ok, st1)).
  destruct (Hchecked checked) as [(e & l & Hthrown & Hlog) | (Hok & Hitems)].
  { unfold checked. destruct (check_due_on_add "qty" v' st1); eauto. }
  - left. destruct checked as [[|e'] s]; cbn [fst snd] in *; [done |].
    injection Hthrown as ->.
    exists l, e. cbn. rewrite Hlog. by rewrite <- !app_assoc.
  - right. destruct checked as [[|e'] s]; cbn [fst snd] in *; [| done].
    exists (d ∪ fresh).
    destruct Hline as (Hl1 & Hl2 & Hl3 & Hl4 & Hl5).
    split.
    { rewrite <- Hitems. by repeat case_match. }
    split; [done |]. split; [done |]. split; [done |]. split; [done |].
    unfold v' in Hl5. split.
    + intros Hplus Hv. destruct v as [| | |t]; try (by apply Hl5).
      cbn in Hl5. rewrite bool_decide_eq_false_2 in Hl5 by congruence.
      by apply Hl5.
    + intros ->. change (strict_eq (VStr "+1") (VStr "+1")) with true in Hl5.
      by apply Hl5.
Qed.

Lemma items_redraw (item : row) (ks : list nat) st :
  items
    (foldl (λ st k,
              if strict_eq (get item "item_code") (get (row_at k st) "item_code")
              then emit (UpdateCartHtml k) st else st) st ks)
  = items st.
Proof.
  revert st. induction ks as [|k ks IH]; intros st; [done |]. cbn [foldl].
  rewrite IH. by case_match.
Qed.

(** One round of the cloning appends one line with the batch, its
    serial numbers and their number. *)
Lemma clone_new_batch_item_line item st entry :
  ∃ r,
    items (clone_new_batch_item item st entry) = items st ++ [r]
    ∧ get r "batch_no" = VStr entry.1
    ∧ get r "serial_no" = VStr (String.concat nl entry.2)
    ∧ get r "qty" = VNum (Fin (Z.of_nat (length entry.2))).
Proof.
  unfold clone_new_batch_item. cbn [add_child].
  eexists. rewrite items_redraw. cbn [items with_items emit].
  split.
  - rewrite <- (Nat.add_0_r (length (items st))) at 1.
    rewrite insert_app_r. reflexivity.
  - split; [| split].
    + rewrite !get_insert_ne by done. apply get_insert_eq.
    + rewrite get_insert_ne by done. apply get_insert_eq.
    + apply get_insert_eq.
Qed.

(** X17.  Cloning an item line by batch: [clone_new_batch_item_in_frm]
    appends one line for each batch of the map, in the map's order;
    each new line has its batch, the batch's serial numbers joined by
    line breaks, and their number as its quantity, so that the new
    quantities add up to the number of serial numbers in the map.  The
    lines the cart had are as they were. *)
Theorem clone_new_batch_item_in_frm_lines batch_serial_map item st :
  ∃ news,
    items (clone_new_batch_item_in_frm batch_serial_map item st) = items st ++ news
    ∧ Forall2
        (λ r entry,
           get r "batch_no" = VStr entry.1
           ∧ get r "serial_no" = VStr (String.concat nl entry.2)
           ∧ get r "qty" = VNum (Fin (Z.of_nat (length entry.2))))
        news batch_serial_map
    ∧ foldr (λ r n, num_add (Number (get r "qty")) n) (Fin 0) news
      = Fin (Z.of_nat (length (concat batch_serial_map.*2))).
Proof.
  unfold clone_new_batch_item_in_frm. revert st.
  induction batch_serial_map as [|entry rest IH]; intros st.
  - exists []. rewrite app_nil_r. split; [done |]. split; [constructor | done].
  - cbn [foldl].
    destruct (clone_new_batch_item_line item st entry)
      as (r & Hitems & Hbatch & Hserial & Hqty).
    destruct (IH (clone_new_batch_item item st entry)) as (news & Hrest & Hall & Hsum).
    exists (r :: news). split; [| split].
    + rewrite Hrest, Hitems. by rewrite <- app_assoc.
    + by constructor.
    + cbn [foldr fmap list_fmap concat]. rewrite Hsum, Hqty. cbn.
      rewrite length_app. f_equal. lia.
Qed.

End CartUpdate.

(** ** The item search of the point of sale *)

Section ItemSearch.
Import ItemSelector.
Context (toLowerCase : string → string).

Lemma get_items_calls_emit e st :
  get_items_calls (emit e st) =
  get_items_calls st + (if is_get_items_call e then 1 else 0).
Proof.
  unfold get_items_calls. cbn. rewrite filter_app, length_app. f_equal.
  destruct (is_get_items_call e) eqn:He.
  - by rewrite filter_cons_True.
  - rewrite filter_cons_False; [done |]. by rewrite He.
Qed.

(** Showing a list of items asks no service and keeps the index. *)
Lemma show_items_shown l st :
  items (show_items l st) = l
  ∧ get_items_calls (show_items l st) = get_items_calls st
  ∧ search_index (show_items l st) = search_index st
  ∧ selling_price_list (show_items l st) = selling_price_list st
  ∧ price_list (show_items l st) = price_list st
  ∧ item_group (show_items l st) = item_group st
  ∧ pos_profile (show_items l st) = pos_profile st
  ∧ get_items (show_items l st) = get_items st.
Proof.
  unfold show_items, add_filtered_item_to_cart.
  change (get_items_calls (with_items l st)) with (get_items_calls st).
  case_match.
  - change (get_items_calls (with_search_input ?v ?s)) with (get_items_calls s).
    rewrite !get_items_calls_emit. cbn [is_get_items_call].
    change (get_items_calls (with_items l st)) with (get_items_calls st).
    repeat split; try done; lia.
  - rewrite get_items_calls_emit. cbn [is_get_items_call].
    change (get_items_calls (with_items l st)) with (get_items_calls st).
    repeat split; try done; lia.
Qed.

(** A search whose term is in the index for the price list: the items
    stored are shown, and the service is not asked. *)
Lemma filter_items_hit search_term st l :
  search_term ≠ "" →
  search_index st !! to_str (selling_price_list st) ≫= (.!! toLowerCase search_term)
    = Some l →
  let st' := filter_items toLowerCase search_term st in
  items st' = l ∧ get_items_calls st' = get_items_calls st.
Proof.
  intros Hterm Hmemo st'. unfold st', filter_items.
  change (truthy (VStr search_term)) with (bool_decide (search_term ≠ "")).
  rewrite bool_decide_eq_true_2 by done.
  cbn [emit selling_price_list search_index with_search_index].
  destruct (search_index st !! to_str (selling_price_list st)) as [of_list|] eqn:Hlist;
    [| done].
  cbn in Hmemo. rewrite lookup_insert_eq. cbn. rewrite Hmemo.
  set (st0 := with_search_index _ _).
  destruct (show_items_shown l st0) as (Hitems & Hcalls & _).
  split; [done |]. rewrite Hcalls.
  change (get_items_calls st0) with (get_items_calls (emit StartLoading st)).
  rewrite get_items_calls_emit. cbn. lia.
Qed.

(** A search whose term is not in the index: the service is asked
    once; its items are shown, and stored under the term unless the
    reply names a barcode. *)
Lemma filter_items_miss search_term st :
  search_term ≠ "" →
  search_index st !! to_str (selling_price_list st) ≫= (.!! toLowerCase search_term)
    = None →
  let term := toLowerCase search_term in
  let st' := filter_items toLowerCase search_term st in
  get_items_calls st' = S (get_items_calls st)
  ∧ selling_price_list st' = selling_price_list st
  ∧ price_list st' = price_list st
  ∧ get_items st' = get_items st
  ∧ ∀ message,
      get_items st (js_or (selling_price_list st) (price_list st)) (item_group st)
        term (pos_profile st) = Some message →
      items st' = found_items message
      ∧ search_index st' !! to_str (selling_price_list st) ≫= (.!! term)
        = if bool_decide (term ≠ "") && negb (truthy (barcode message))
          then Some (found_items message)
          else None.
Proof.
  intros Hterm Hmemo term st'. unfold st', filter_items.
  change (truthy (VStr search_term)) with (bool_decide (search_term ≠ "")).
  rewrite bool_decide_eq_true_2 by done. fold term.
  change (truthy (VStr term)) with (bool_decide (term ≠ "")).
  cbn [emit selling_price_list search_index with_search_index price_list get_items
       item_group pos_profile].
  set (key := to_str (selling_price_list st)) in *.
  set (index0 := <[key := default ∅ (search_index st !! key)]> (search_index st)).
  assert (Hindex0 : index0 !! key ≫= (.!! term) = None).
  { unfold index0. rewrite lookup_insert_eq. cbn.
    destruct (search_index st !! key) as [of_list|]; [exact Hmemo |].
    cbn. apply lookup_empty. }
  rewrite Hindex0.
  set (st1 := emit (GetItemsCall _ _ term _) _).
  assert (Hcalls1 : get_items_calls st1 = S (get_items_calls st)).
  { unfold st1. rewrite get_items_calls_emit.
    change (get_items_calls (with_search_index index0 (emit StartLoading st)))
      with (get_items_calls (emit StartLoading st)).
    rewrite get_items_calls_emit. cbn. lia. }
  destruct (get_items st (js_or (selling_price_list st) (price_list st))
              (item_group st) term (pos_profile st)) as [message|].
  - set (st2 := if bool_decide (term ≠ "") && negb (truthy (barcode message))
                then with_search_index _ st1 else st1).
    assert (Hst2 : get_items_calls st2 = S (get_items_calls st)
              ∧ selling_price_list st2 = selling_price_list st
              ∧ price_list st2 = price_list st
              ∧ get_items st2 = get_items st
              ∧ search_index st2 !! key ≫= (.!! term)
                = if bool_decide (term ≠ "") && negb (truthy (barcode message))
                  then Some (found_items message) else None).
    { unfold st2. destruct (bool_decide (term ≠ "") && negb (truthy (barcode message))).
      - repeat (split; [done |]). cbn. rewrite lookup_insert_eq. cbn.
        apply lookup_insert_eq.
      - repeat (split; [done |]). exact Hindex0. }
    destruct Hst2 as (Hc2 & Hs2 & Hp2 & Hg2 & Hi2).
    destruct (show_items_shown (found_items message) st2)
      as (Hitems & Hcalls & Hindex & Hspl & Hpl & _ & _ & Hget).
    rewrite get_items_calls_emit. cbn [is_get_items_call].
    cbn [emit selling_price_list price_list get_items items search_index].
    rewrite Hcalls, Hspl, Hpl, Hget, Hc2, Hs2, Hp2, Hg2.
    split; [lia |]. repeat (split; [done |]).
    intros message' [= <-]. by rewrite Hitems, Hindex, Hi2.
  - rewrite get_items_calls_emit. cbn [is_get_items_call]. rewrite Hcalls1.
    split; [lia |]. by repeat split.
Qed.

(** X18.  The item search is memoized by price list and lower-cased
    term: after a search with a text that the service answered
    without naming a barcode, the same search shows the same items
    again and does not ask the service, whatever the service would
    answer by then and whatever item group has been picked since. *)
Theorem filter_items_memoizes search_term st message :
  search_term ≠ "" →
  toLowerCase search_term ≠ "" →
  search_index st !! to_str (selling_price_list st) ≫= (.!! toLowerCase search_term)
    = None →
  get_items st (js_or (selling_price_list st) (price_list st)) (item_group st)
    (toLowerCase search_term) (pos_profile st) = Some message →
  truthy (barcode message) = false →
  let first := filter_items toLowerCase search_term st in
  get_items_calls first = S (get_items_calls st)
  ∧ items first = found_items message
  ∧ ∀ group input later,
      let second :=
        filter_items toLowerCase search_term (moved_on group input later first) in
      get_items_calls second = get_items_calls first
      ∧ items second = found_items message.
Proof.
  intros Hterm Hlower Hnew Hreply Hbarcode first.
  destruct (filter_items_miss search_term st Hterm Hnew)
    as (Hcalls & Hspl & _ & _ & Hfound).
  destruct (Hfound message Hreply) as (Hitems & Hindex).
  rewrite Hbarcode in Hindex. rewrite bool_decide_eq_true_2 in Hindex by done.
  fold first in Hcalls, Hspl, Hitems, Hindex.
  split; [done |]. split; [done |]. intros group input later second.
  destruct (filter_items_hit search_term (moved_on group input later first)
              (found_items message) Hterm) as (Hitems2 & Hcalls2).
  { cbn [moved_on selling_price_list search_index]. by rewrite Hspl. }
  by split.
Qed.

(** X19.  What the item search does not memoize: a reply that names a
    barcode is not stored, so the same search asks the service again;
    and a search with an empty text always asks the service and
    leaves the index as it is. *)
Theorem filter_items_not_memoized :
  (∀ search_term st message group input later,
     search_term ≠ "" →
     search_index st !! to_str (selling_price_list st)
       ≫= (.!! toLowerCase search_term) = None →
     get_items st (js_or (selling_price_list st) (price_list st)) (item_group st)
       (toLowerCase search_term) (pos_profile st) = Some message →
     truthy (barcode message) = true →
     let first := filter_items toLowerCase search_term st in
     let second :=
       filter_items toLowerCase search_term (moved_on group input later first) in
     get_items_calls first = S (get_items_calls st)
     ∧ get_items_calls second = S (S (get_items_calls st)))
  ∧ (∀ st,
       let st' := filter_items toLowerCase "" st in
       get_items_calls st' = S (get_items_calls st)
       ∧ search_index st' = search_index st).
Proof.
  split.
  - intros search_term st message group input later Hterm Hnew Hreply Hbarcode
      first second.
    destruct (filter_items_miss search_term st Hterm Hnew)
      as (Hcalls & Hspl & _ & _ & Hfound).
    destruct (Hfound message Hreply) as (_ & Hindex).
    rewrite Hbarcode, andb_false_r in Hindex.
    fold first in Hcalls, Hspl, Hindex.
    split; [done |].
    destruct (filter_items_miss search_term (moved_on group input later first) Hterm)
      as (Hcalls2 & _).
    { cbn [moved_on selling_price_list search_index]. by rewrite Hspl. }
    unfold second. rewrite Hcalls2.
    change (get_items_calls (moved_on group input later first))
      with (get_items_calls first).
    by rewrite Hcalls.
  - intros st st'. unfold st', filter_items.
    change (truthy (VStr "")) with false. cbn iota.
    change (truthy (VStr "")) with false. cbn [andb].
    set (st1 := emit (GetItemsCall _ _ "" _) _).
    assert (Hcalls1 : get_items_calls st1 = S (get_items_calls st)).
    { unfold st1. rewrite !get_items_calls_emit. cbn. lia. }
    destruct (get_items st1 _ _ _ _) as [message|].
    + destruct (show_items_shown (found_items message) st1)
        as (_ & Hcalls & Hindex & _).
      rewrite get_items_calls_emit. cbn [is_get_items_call emit search_index].
      rewrite Hcalls, Hindex, Hcalls1. split; [lia | done].
    + rewrite get_items_calls_emit. cbn [is_get_items_call]. rewrite Hcalls1.
      split; [lia | done].
Qed.

End ItemSearch.

(** ** The time logs of the Job Card *)

Section TimeLogs.
Import JobCard.

Lemma get_last_completed_row_last time_logs :
  get_last_completed_row time_logs
  = last (filter (λ d, truthy (get d "to_time") = true) time_logs).
Proof.
  unfold get_last_completed_row.
  set (completed := filter _ time_logs).
  rewrite last_lookup, Nat.sub_1_r.
  destruct (decide (length completed = 0)) as [Hnil | Hsome].
  - rewrite bool_decide_eq_false_2 by lia.
    apply length_zero_iff_nil in Hnil. by rewrite Hnil.
  - by rewrite bool_decide_eq_true_2.
Qed.

Lemma get_last_row_last time_logs :
  get_last_row time_logs = default ∅ (last time_logs).
Proof. unfold get_last_row. by rewrite last_lookup, Nat.sub_1_r. Qed.

Lemma last_filter_snoc (time_logs : list row) (d : row) :
  last (filter (λ d, truthy (get d "to_time") = true) (time_logs ++ [d]))
  = if truthy (get d "to_time") then Some d
    else last (filter (λ d, truthy (get d "to_time") = true) time_logs).
Proof.
  rewrite filter_app. destruct (truthy (get d "to_time")) eqn:Hd.
  - rewrite filter_cons_True by done. cbn. apply last_snoc.
  - rewrite filter_cons_False by (by rewrite Hd). cbn. by rewrite app_nil_r.
Qed.

(** X20.  [get_last_completed_row] gives the last time log that has an
    end time: nothing exactly when no log has one; otherwise a log of
    the table with an end time, after which no log has an end time. *)
Theorem get_last_completed_row_is_last_completed time_logs :
  (get_last_completed_row time_logs = None
   ↔ ∀ d, d ∈ time_logs → truthy (get d "to_time") = false)
  ∧ ∀ r, get_last_completed_row time_logs = Some r →
      truthy (get r "to_time") = true
      ∧ ∃ before after,
          time_logs = before ++ r :: after
          ∧ ∀ d, d ∈ after → truthy (get d "to_time") = false.
Proof.
  rewrite get_last_completed_row_last.
  induction time_logs as [|d time_logs IH] using rev_ind.
  - split; [split; [by intros _ d ?%not_elem_of_nil | done] | done].
  - rewrite last_filter_snoc. destruct IH as (IHnone & IHsome).
    destruct (truthy (get d "to_time")) eqn:Hd.
    + split.
      * split; [done |]. intros Hall. rewrite Hall in Hd; [done |].
        apply elem_of_app. right. by left.
      * intros r [= <-]. split; [done |]. exists time_logs, [].
        split; [done |]. by intros d' ?%not_elem_of_nil.
    + split.
      * rewrite IHnone. split.
        -- intros Hall d' [Hd' | Hd']%elem_of_app; [by apply Hall |].
           apply list_elem_of_singleton in Hd' as ->. done.
        -- intros Hall d' Hd'. apply Hall, elem_of_app. by left.
      * intros r Hr. destruct (IHsome r Hr) as (Htime & before & after & -> & Hafter).
        split; [done |]. exists before, (after ++ [d]). split.
        -- by rewrite <- app_assoc.
        -- intros d' [Hd' | Hd']%elem_of_app; [by apply Hafter |].
           apply list_elem_of_singleton in Hd' as ->. done.
Qed.

(** X21.  When the job completion dialog asks for the end time: the
    End Time field is left out exactly when the job card has
    sub-operations and its last time log has an end time; in every
    other case, and whenever there is no time log, it is asked. *)
Theorem asks_end_time_unless_last_log_completed sub_operations time_logs :
  asks_end_time sub_operations time_logs
  = negb (bool_decide (length sub_operations ≠ 0)
          && truthy (get (get_last_row time_logs) "to_time")).
Proof.
  unfold asks_end_time.
  rewrite get_last_completed_row_last, get_last_row_last.
  destruct time_logs as [|d time_logs _] using rev_ind.
  - cbn. by rewrite andb_false_r.
  - rewrite last_filter_snoc, last_snoc. cbn [default id].
    rewrite (bool_decide_eq_true_2 (length (time_logs ++ [d]) ≠ 0)).
    2: { rewrite length_app. cbn. lia. }
    rewrite andb_true_r.
    assert (Hempty : truthy (get (∅ : row) "to_time") = false) by done.
    destruct (truthy (get d "to_time")) eqn:Hd.
    + destruct (bool_decide (length sub_operations ≠ 0));
        cbn [negb orb andb]; by rewrite ?Hd, ?Hempty.
    + rewrite andb_false_r. cbn [negb].
      destruct (last _) as [r|]; [| done].
      destruct (bool_decide (length sub_operations ≠ 0));
        rewrite ?Hd, ?Hempty; cbn [negb]; apply orb_true_r.
Qed.

End TimeLogs.

(** * Further statements on the concrete form *)

Section ConcreteScans.
#[local] Existing Instance Demo.frappe.

(** A scan of item A on a table of a line of A and a line of B leaves
    the line of B as it was. *)
Lemma update_table_keeps_other_lines_witness :
  Spec.matched_line Demo.plain Demo.item_a Demo.two_lines = Some 0
  ∧ items (doc (update_table Demo.plain None Demo.item_a Demo.two_lines).2) !! 1
    = items (doc Demo.two_lines) !! 1.
Proof.
  split; [vm_compute; reflexivity |].
  destruct (update_table_keeps_other_lines Demo.plain None Demo.item_a Demo.two_lines)
    as (_ & _ & Hother).
  apply Hother.
  - vm_compute. discriminate.
  - vm_compute. lia.
Defined.

(** A batch scan on a line leaves the line's id as it was. *)
Lemma update_table_writes_scan_fields_only_witness :
  Spec.warehouse_field_of_header Demo.plain
  ∧ get (row_at 0 (update_table Demo.plain None Demo.item_a_lot7 Demo.one_line).2)
      "name" = get (row_at 0 Demo.one_line) "name".
Proof.
  assert (Hheader : Spec.warehouse_field_of_header Demo.plain) by (intros d d' _; done).
  split; [exact Hheader |].
  apply (update_table_writes_scan_fields_only Demo.plain None Demo.item_a_lot7
           Demo.one_line Hheader 0 "name").
  - vm_compute. lia.
  - decided.
Defined.

(** With the warehouse Stores scanned and then cleared, a scan of item
    A leaves the warehouse of its line as it was. *)
Lemma clear_warehouse_context_ends_inheritance_witness :
  get (header (doc Demo.in_stores)) "last_scanned_warehouse" = VStr "Stores"
  ∧ get (row_at 0 (update_table Demo.with_context None Demo.item_a
                     (clear_warehouse_context Demo.in_stores)).2) "warehouse"
    = get (row_at 0 Demo.in_stores) "warehouse".
Proof.
  split; [vm_compute; reflexivity |].
  destruct (clear_warehouse_context_ends_inheritance Demo.with_context None
              Demo.item_a Demo.in_stores) as (_ & _ & _ & Hkept).
  apply Hkept.
  - vm_compute. lia.
  - decided.
Defined.

(** A scan of item A on its line of two makes it a line of three. *)
Lemma update_table_adds_quantity_witness :
  (update_table Demo.plain None Demo.item_a Demo.one_line).1 = Resolved (Some 0)
  ∧ get (row_at 0 (update_table Demo.plain None Demo.item_a Demo.one_line).2) "qty"
    = VNum (Fin 3).
Proof.
  split; [vm_compute; reflexivity |].
  destruct (update_table_adds_quantity Demo.plain None Demo.item_a Demo.one_line 0
              (update_table Demo.plain None Demo.item_a Demo.one_line).2)
    as (v & Hv & Hqty & _).
  - vm_compute. reflexivity.
  - split; [decided | done].
  - cbn in Hv. subst v. etransitivity; [exact Hqty |]. vm_compute. reflexivity.
Defined.

(** A scan of item B on a table that has a line of item A only adds a
    line and completes on it. *)
Lemma update_table_new_line_witness :
  Spec.matched_line Demo.plain Demo.item_b Demo.one_line = None
  ∧ (update_table Demo.plain None Demo.item_b Demo.one_line).1 = Resolved (Some 1)
  ∧ get (row_at 1 (update_table Demo.plain None Demo.item_b Demo.one_line).2)
      "item_code" = VStr "B".
Proof.
  assert (Hnone : Spec.matched_line Demo.plain Demo.item_b Demo.one_line = None)
    by (vm_compute; reflexivity).
  split; [exact Hnone |].
  destruct (update_table_new_line Demo.plain None Demo.item_b Demo.one_line Hnone)
    as (_ & _ & _ & Hdone); [reflexivity |].
  destruct Hdone as (Hout & Hcode & _); [reflexivity | vm_compute; reflexivity |].
  split; [exact Hout |]. by apply Hcode.
Defined.

(** On a form that marks its items as given, a batch scan on a line
    of two opens the dialog, with one scanned of two. *)
Lemma update_table_opens_dialog_witness :
  (update_table Demo.plain None Demo.item_a_lot7 Demo.one_line_of_given_items).1
  = Pending
  ∧ dialog (update_table Demo.plain None Demo.item_a_lot7
              Demo.one_line_of_given_items).2 = Some Demo.lot7_dialog
  ∧ get (row_at 0 (update_table Demo.plain None Demo.item_a_lot7
                     Demo.one_line_of_given_items).2) "qty" = VNum (Fin 2).
Proof.
  destruct (update_table_opens_dialog Demo.plain None Demo.item_a_lot7
              Demo.one_line_of_given_items 0) as (Hpending & Hqty & _).
  - vm_compute. reflexivity.
  - reflexivity.
  - reflexivity.
  - split; [decided | done].
  - vm_compute. discriminate.
  - split; [exact Hpending |]. split; [vm_compute; reflexivity |].
    etransitivity; [exact Hqty |]. vm_compute. reflexivity.
Defined.

(** The second scan of the serial number S1 is rejected and leaves
    the document as it was. *)
Lemma rejected_scan_keeps_document_witness :
  (update_table Demo.plain None Demo.item_a_s1 Demo.holding_s1_s2).1 = Rejected
  ∧ doc (update_table Demo.plain None Demo.item_a_s1 Demo.holding_s1_s2).2
    = doc Demo.holding_s1_s2.
Proof.
  split; [vm_compute; reflexivity |].
  destruct (rejected_scan_keeps_document Demo.plain None Demo.holding_s1_s2)
    as (Htable & _); [vm_compute; reflexivity |].
  apply (Htable Demo.item_a_s1). vm_compute. reflexivity.
Defined.

(** A code that the scan API does not know is rejected, with the
    document as it was. *)
Lemma process_scan_not_found_witness :
  ∃ st',
    process_scan Demo.plain None Demo.unknown_code_typed = (Rejected, st')
    ∧ doc st' = doc Demo.unknown_code_typed
    ∧ ShowAlert CannotFindItem "red" ∈ log st'.
Proof.
  destruct (process_scan_not_found Demo.plain None Demo.unknown_code_typed)
    as (st' & Hrun & Hdoc & _ & _ & _ & Hlog).
  - vm_compute. reflexivity.
  - right. left. vm_compute. reflexivity.
  - exists st'. split; [exact Hrun |]. split; [exact Hdoc |].
    rewrite Hlog. apply elem_of_app. right. apply elem_of_app. left. listed.
Defined.

(** Confirming the dialog with five of five scanned keeps the table at
    one line, of five. *)
Lemma primary_action_full_quantity_witness :
  length (items (doc (primary_action Demo.plain 0 (VStr "A") Demo.five_of_five
                        Demo.five_of_lot7))) = 1
  ∧ get (row_at 0 (primary_action Demo.plain 0 (VStr "A") Demo.five_of_five
                     Demo.five_of_lot7)) "qty" = VNum (Fin 5).
Proof.
  destruct (primary_action_full_quantity Demo.plain 0 (VStr "A") Demo.five_of_five
              Demo.five_of_lot7 5 5) as (Hlen & _ & Hqty & _).
  - decided.
  - vm_compute. reflexivity.
  - vm_compute. reflexivity.
  - lia.
  - decided.
  - split; [exact Hlen | exact Hqty].
Defined.

(** After the dialog is confirmed with two of five, a scan of item A
    is not matched to the confirmed line. *)
Lemma confirmed_line_is_not_matched_again_witness :
  get (row_at 0 (primary_action Demo.plain 0 (VStr "A") Demo.two_of_five
                   Demo.five_of_lot7)) "has_item_scanned" = VNum (Fin 1)
  ∧ get_row_to_modify_on_scan Demo.plain
      (doc (primary_action Demo.plain 0 (VStr "A") Demo.two_of_five Demo.five_of_lot7))
      (VStr "A") VUndef VUndef VUndef VUndef ≠ Some 0.
Proof.
  destruct (confirmed_line_is_not_matched_again Demo.plain 0 (VStr "A")
              Demo.two_of_five Demo.five_of_lot7) as (Hmark & Hnever).
  - decided.
  - reflexivity.
  - decided.
  - decided.
  - split; [exact Hmark | apply Hnever].
Defined.

(** In the dialog of a batch scan, a second scan of the batch's code
    counts two. *)
Lemma dialog_scan_counts_one_witness :
  dialog Demo.lot7_dialog_open = Some Demo.lot7_dialog
  ∧ ∃ st' dlg',
      dialog_scan (VStr "A") (VStr "A-LOT7") Demo.lot7_dialog_open = (None, st')
      ∧ dialog st' = Some dlg'
      ∧ get dlg' "scanned_qty" = VNum (Fin 2)
      ∧ get dlg' "qty" = VNum (Fin 2)
      ∧ doc st' = doc Demo.lot7_dialog_open.
Proof.
  assert (Hdlg : dialog Demo.lot7_dialog_open = Some Demo.lot7_dialog)
    by (vm_compute; reflexivity).
  split; [exact Hdlg |].
  destruct (dialog_scan_counts_one (VStr "A") (VStr "A-LOT7")
              Demo.lot7_dialog_open Demo.lot7_dialog Demo.item_a_lot7 Hdlg)
    as (st' & dlg' & Hrun & Hdialog & Hscanned & Hqty & _ & Hdoc & _).
  - reflexivity.
  - vm_compute. reflexivity.
  - vm_compute. reflexivity.
  - vm_compute. reflexivity.
  - decided.
  - intros n. vm_compute. discriminate.
  - intros s Hs. vm_compute. apply not_elem_of_nil.
  - exists st', dlg'. split; [exact Hrun |]. split; [exact Hdialog |].
    split; [rewrite Hscanned; vm_compute; reflexivity |].
    split; [rewrite Hqty; vm_compute; reflexivity | exact Hdoc].
Defined.

(** A dialog that holds S12 takes the serial number S1. *)
Lemma dialog_duplicate_serial_is_exact_witness :
  includes "S12" "S1" = true
  ∧ (update_dialog_values (VStr "A") Demo.item_a_s1 Demo.s12_dialog).1 = None
  ∧ get (update_dialog_values (VStr "A") Demo.item_a_s1 Demo.s12_dialog).2 "serial_no"
    = VStr ("S12" +:+ nl +:+ "S1").
Proof.
  split; [reflexivity |].
  destruct (dialog_duplicate_serial_is_exact (VStr "A") Demo.item_a_s1 Demo.s12_dialog
              "S1" "S12") as (_ & Hnew).
  - vm_compute. reflexivity.
  - vm_compute. reflexivity.
  - done.
  - vm_compute. reflexivity.
  - apply Hnew. decided.
Defined.

End ConcreteScans.

Section ConcreteSales.
Import PointOfSale.
#[local] Existing Instance Demo.frappe.

(** Without a customer, a click on item B adds nothing. *)
Lemma on_cart_update_guards_witness :
  get_item_from_frm DemoPOS.clicked_b DemoPOS.anonymous = None
  ∧ items (on_cart_update "qty" (VStr "+1") DemoPOS.clicked_b DemoPOS.anonymous) = []
  ∧ ShowAlert "You must select a customer before adding an item."
    ∈ log (on_cart_update "qty" (VStr "+1") DemoPOS.clicked_b DemoPOS.anonymous).
Proof.
  assert (Hnone : get_item_from_frm DemoPOS.clicked_b DemoPOS.anonymous = None)
    by (vm_compute; reflexivity).
  split; [exact Hnone |].
  destruct (on_cart_update_guards "qty" (VStr "+1") DemoPOS.clicked_b DemoPOS.anonymous
              Hnone) as (Hitems & _ & Hlog).
  - left. vm_compute. reflexivity.
  - split; [exact Hitems |]. rewrite Hlog. vm_compute. listed.
Defined.

(** The unit S1 of item B is reserved: a click on it adds nothing. *)
Lemma reserved_serial_is_not_added_witness :
  items (on_cart_update "qty" (VStr "+1") DemoPOS.clicked_b_s1 DemoPOS.empty_cart) = []
  ∧ stock_queries (on_cart_update "qty" (VStr "+1") DemoPOS.clicked_b_s1
                     DemoPOS.empty_cart) = 0.
Proof.
  destruct (reserved_serial_is_not_added "qty" (VStr "+1") DemoPOS.clicked_b_s1
              DemoPOS.empty_cart "S1") as (Hitems & Hqueries & _).
  - vm_compute. reflexivity.
  - vm_compute. reflexivity.
  - vm_compute. reflexivity.
  - vm_compute. reflexivity.
  - vm_compute. reflexivity.
  - done.
  - vm_compute. listed.
  - split; [exact Hitems | exact Hqueries].
Defined.

(** An edit of the quantity of a line that is not open in the details
    pane writes nothing. *)
Lemma edit_of_other_line_is_not_written_witness :
  get_item_from_frm {["name" := VStr "row-1"]} DemoPOS.priced_cart = Some 0
  ∧ filter (λ e, is_set_value e = true)
      (log (on_cart_update "qty" (VNum (Fin 3)) {["name" := VStr "row-1"]}
              DemoPOS.priced_cart)) = [].
Proof.
  assert (Hfound : get_item_from_frm {["name" := VStr "row-1"]} DemoPOS.priced_cart
                   = Some 0) by (vm_compute; reflexivity).
  split; [exact Hfound |].
  destruct (edit_of_other_line_is_not_written "qty" (VNum (Fin 3))
              {["name" := VStr "row-1"]} DemoPOS.priced_cart 0 Hfound)
    as (_ & Hlog).
  - decided.
  - vm_compute. reflexivity.
  - vm_compute. reflexivity.
  - exact Hlog.
Defined.


(** A click on item B, which has no line, adds its line. *)
Lemma on_cart_update_adds_line_witness :
  get_item_from_frm DemoPOS.clicked_b DemoPOS.empty_cart = None
  ∧ ((∃ l e,
        log (on_cart_update "qty" (VStr "+1") DemoPOS.clicked_b DemoPOS.empty_cart)
        = log DemoPOS.empty_cart ++ l ++ [ConsoleLog e; Unfreeze])
     ∨ ∃ r,
         items (on_cart_update "qty" (VStr "+1") DemoPOS.clicked_b DemoPOS.empty_cart)
         = [r]
         ∧ get r "item_code" = VStr "B").
Proof.
  assert (Hnone : get_item_from_frm DemoPOS.clicked_b DemoPOS.empty_cart = None)
    by (vm_compute; reflexivity).
  split; [exact Hnone |].
  destruct (on_cart_update_adds_line (VStr "+1") DemoPOS.clicked_b DemoPOS.empty_cart
              Hnone) as [Hthrown | (r & Hitems & Hcode & _)].
  - vm_compute. reflexivity.
  - vm_compute. reflexivity.
  - vm_compute. reflexivity.
  - vm_compute. reflexivity.
  - by left.
  - right. exists r. split; [exact Hitems |]. rewrite Hcode. vm_compute. reflexivity.
Defined.

End ConcreteSales.

Section ConcreteSearch.
Import ItemSelector.

(** A search for Nut asks the service once; the same search again
    shows the nut without asking, although the service is silent. *)
Lemma filter_items_memoizes_witness :
  get_items_calls (filter_items DemoSelector.lower "Nut" DemoSelector.opened) = 1
  ∧ get_items_calls
      (filter_items DemoSelector.lower "Nut"
         (moved_on (VStr "Fasteners") (VStr "Nut") DemoSelector.silent
            (filter_items DemoSelector.lower "Nut" DemoSelector.opened))) = 1
  ∧ items
      (filter_items DemoSelector.lower "Nut"
         (moved_on (VStr "Fasteners") (VStr "Nut") DemoSelector.silent
            (filter_items DemoSelector.lower "Nut" DemoSelector.opened)))
    = [DemoSelector.nut].
Proof.
  destruct (filter_items_memoizes DemoSelector.lower "Nut" DemoSelector.opened
              {| found_items := [DemoSelector.nut]; barcode := VUndef |})
    as (Hfirst & _ & Hsecond).
  - done.
  - vm_compute. discriminate.
  - vm_compute. reflexivity.
  - vm_compute. reflexivity.
  - reflexivity.
  - split; [rewrite Hfirst; vm_compute; reflexivity |].
    destruct (Hsecond (VStr "Fasteners") (VStr "Nut") DemoSelector.silent)
      as (Hcalls & Hitems).
    split; [rewrite Hcalls, Hfirst; vm_compute; reflexivity | exact Hitems].
Defined.

(** A search by the barcode 4711 asks the service each time. *)
Lemma filter_items_not_memoized_witness :
  get_items_calls
    (filter_items DemoSelector.lower "4711"
       (moved_on (VStr "All Item Groups") (VStr "4711") DemoSelector.search
          (filter_items DemoSelector.lower "4711" DemoSelector.opened))) = 2.
Proof.
  destruct (filter_items_not_memoized DemoSelector.lower) as (Hbarcode & _).
  destruct (Hbarcode "4711" DemoSelector.opened
              {| found_items := [DemoSelector.nut]; barcode := VStr "4711" |}
              (VStr "All Item Groups") (VStr "4711") DemoSelector.search)
    as (_ & Hsecond).
  - done.
  - vm_compute. reflexivity.
  - vm_compute. reflexivity.
  - reflexivity.
  - rewrite Hsecond. vm_compute. reflexivity.
Defined.

End ConcreteSearch.

Section ConcreteTimeLogs.
Import JobCard.

(** Of three time logs, the second being the last with an end time,
    the second is the last completed row. *)
Lemma get_last_completed_row_is_last_completed_witness :
  get_last_completed_row
    [{["to_time" := VStr "2024-01-01 10:00:00"]};
     {["to_time" := VStr "2024-01-01 12:00:00"]};
     {["from_time" := VStr "2024-01-01 13:00:00"]}]
  = Some {["to_time" := VStr "2024-01-01 12:00:00"]}
  ∧ truthy (get ({["to_time" := VStr "2024-01-01 12:00:00"]} : row) "to_time") = true.
Proof.
  assert (Hrow : get_last_completed_row
            [{["to_time" := VStr "2024-01-01 10:00:00"]};
             {["to_time" := VStr "2024-01-01 12:00:00"]};
             {["from_time" := VStr "2024-01-01 13:00:00"]}]
          = Some {["to_time" := VStr "2024-01-01 12:00:00"]})
    by (vm_compute; reflexivity).
  split; [exact Hrow |].
  destruct (get_last_completed_row_is_last_completed
              [{["to_time" := VStr "2024-01-01 10:00:00"]};
               {["to_time" := VStr "2024-01-01 12:00:00"]};
               {["from_time" := VStr "2024-01-01 13:00:00"]}]) as (_ & Hsome).
  by destruct (Hsome _ Hrow) as (Htime & _).
Defined.

End ConcreteTimeLogs.
